(** * Query orchestration pipeline of the finance-tracker chat server

    A shallow embedding of the pipeline's pure core:
    - [PyStr]: the string operations the pipeline uses ([in], [lower], slices);
    - [PyNum]: Python's [float] as IEEE binary64, next to exact rationals;
    - [Intent]: [app/ai/ml/intent_classifier.py];
    - [Regex] and [Masker]: [app/ai/utils/pii_masker.py] over a backtracking
      matcher for the fragment of [re] the masker uses;
    - [Await]: the outcome of an awaited call, a value or an exception;
    - [Memory]: [app/ai/memory/chat_memory.py];
    - [Fetcher]: [app/ai/tools/data_fetcher.py];
    - [Orchestrator]: [AIOrchestrator.process_authenticated_query];
    - [Samples]: concrete collaborators the properties are instantiated at;
    - [Buffer]: [ConversationBuffer] of [app/ai/memory/chat_memory.py];
    - [FastClassifier]: [app/ai/utils/fast_classifier.py];
    - [Fallback]: [app/ai/llm/fallback.py];
    - [Routes]: [AIOrchestrator.process_query] and the route
      [POST /api/chat/query] of [app/core/chat_routes.py];
    - [Handler]: [app/websocket/response_handler.py].

    The definitions come first; the properties follow, one module of facts
    per module of definitions.

    Python [str] values are modelled as Rocq byte strings holding the UTF-8
    encoding; [datetime.now()] is an explicit argument; awaited collaborators
    (document store, LLM back ends) are explicit outcome-returning functions. *)

From Stdlib Require Import ZArith QArith Qcanon Qround Floats String Ascii List Lia Bool.
From stdpp Require Import base gmap strings list.
Import ListNotations.

Set Warnings "-inexact-float".
Open Scope string_scope.

(* ===================================================================== *)
(** * Strings *)
(* ===================================================================== *)

Module PyStr.

(** [sub in s] on Python strings. *)
Fixpoint str_in (sub s : string) : bool :=
  String.prefix sub s ||
  match s with
  | EmptyString => false
  | String _ s' => str_in sub s'
  end.

(** The mathematical meaning of [sub in s]. *)
Definition is_substring (sub s : string) : Prop :=
  exists pre post, s = pre ++ sub ++ post.

Definition is_upper (c : ascii) : bool :=
  (65 <=? nat_of_ascii c)%nat && (nat_of_ascii c <=? 90)%nat.

Definition is_lower (c : ascii) : bool :=
  (97 <=? nat_of_ascii c)%nat && (nat_of_ascii c <=? 122)%nat.

Definition lower_char (c : ascii) : ascii :=
  if is_upper c then ascii_of_nat (nat_of_ascii c + 32) else c.

Definition upper_char (c : ascii) : ascii :=
  if is_lower c then ascii_of_nat (nat_of_ascii c - 32) else c.

(** [str.lower()] restricted to ASCII letters: on text without cased
    non-ASCII characters this is exactly Python's [lower]. *)
Fixpoint ascii_lower (s : string) : string :=
  match s with
  | EmptyString => EmptyString
  | String c s' => String (lower_char c) (ascii_lower s')
  end.

(** [c * n] for a one-character string [c]. *)
Fixpoint repeat_char (c : ascii) (n : nat) : string :=
  match n with
  | O => EmptyString
  | S n' => String c (repeat_char c n')
  end.

(** [s[:n]] for [n >= 0]. *)
Fixpoint take (n : nat) (s : string) : string :=
  match n, s with
  | S n', String c s' => String c (take n' s')
  | _, _ => EmptyString
  end.

(** [s[n:]] for [n >= 0]. *)
Fixpoint drop (n : nat) (s : string) : string :=
  match n, s with
  | S n', String _ s' => drop n' s'
  | _, _ => s
  end.

(** [s[-n:]] for [n > 0]: the last [n] characters (all of [s] when it is
    shorter). *)
Definition last_n (n : nat) (s : string) : string :=
  drop (String.length s - n) s.

End PyStr.

(* ===================================================================== *)
(** * Numbers *)
(* ===================================================================== *)

Module PyNum.

(** The operations the classifier performs on Python numbers.  The code
    runs them on [float]; the interface lets the same algorithm also be read
    over exact rationals. *)
Class Arith (F : Type) := {
  lit : Q -> F;              (** the value of a decimal literal *)
  fadd : F -> F -> F;        (** [x + y] *)
  fsub : F -> F -> F;        (** [x - y] *)
  fdiv : F -> F -> F;        (** [x / y], used with [y != 0] only *)
  feqb : F -> F -> bool;     (** [x == y] *)
  fltb : F -> F -> bool;     (** [x < y] *)
  fsum : list F -> F;        (** the builtin [sum] *)
  fround : nat -> F -> F     (** [round(x, ndigits)] *)
}.

(** Round to the nearest integer, ties to even. *)
Definition round_half_even (y : Q) : Z :=
  let f := Qfloor y in
  match Qcompare (y - inject_Z f) (1 # 2) with
  | Lt => f
  | Gt => (f + 1)%Z
  | Eq => if Z.even f then f else (f + 1)%Z
  end.

(** ** IEEE binary64, the representation of Python's [float] *)

Definition Z2F (z : Z) : float :=
  if (z <? 0)%Z then (- PrimFloat.of_uint63 (Uint63.of_Z (- z)))%float
  else PrimFloat.of_uint63 (Uint63.of_Z z).

(** A decimal literal denotes the double nearest to it: numerator and
    denominator are small integers, exactly representable, and IEEE
    division rounds their quotient correctly. *)
Definition Q2F (q : Q) : float :=
  (Z2F (Qnum q) / Z2F (Zpos (Qden q)))%float.


(** [round(x, ndigits)] on a float, for the small [ndigits >= 0] of the
    code: the decimal rounding (ties to even) of the exact binary value,
    then the double nearest to that decimal; NaN and the infinities round to
    themselves.  When the scaled integer does not fit 53 bits, [x] is so
    large that it is its own rounding. *)
Definition float_round (ndigits : nat) (x : float) : float :=
  match Prim2SF x with
  | S754_finite s m e =>
      let scale := (10 ^ Z.of_nat ndigits)%Z in
      let n := round_half_even ((Zpos m # 1) * Qpower 2 e * inject_Z scale) in
      if (n <? 2 ^ 53)%Z then
        let r := (Z2F n / Z2F scale)%float in
        if s then (- r)%float else r
      else x
  | _ => x
  end.

Definition is_finite (x : float) : bool :=
  negb (PrimFloat.is_nan x) && negb (PrimFloat.is_infinity x).

(** One step of the compensated (Neumaier) summation that [sum] applies
    to floats since CPython 3.12: running sum and compensation. *)
Definition neumaier_step (st : float * float) (x : float) : float * float :=
  let '(f, c) := st in
  let t := (f + x)%float in
  let c' :=
    if PrimFloat.leb (PrimFloat.abs x) (PrimFloat.abs f)
    then (c + ((f - t) + x))%float
    else (c + ((x - t) + f))%float in
  (t, c').

(** [sum(xs)] on floats: the start value is the integer [0]. *)
Definition float_sum (xs : list float) : float :=
  match xs with
  | [] => 0%float
  | x :: xs' =>
      let '(f, c) := fold_left neumaier_step xs' ((0 + x)%float, 0%float) in
      if negb (PrimFloat.eqb c 0) && is_finite c then (f + c)%float else f
  end.

(** [sum(xs)] before CPython 3.12: plain left-to-right addition. *)
Definition float_sum_plain (xs : list float) : float :=
  fold_left PrimFloat.add xs 0%float.

#[export] Instance binary64 : Arith float := {
  lit := Q2F;
  fadd := PrimFloat.add;
  fsub := PrimFloat.sub;
  fdiv := PrimFloat.div;
  feqb := PrimFloat.eqb;
  fltb := PrimFloat.ltb;
  fsum := float_sum;
  fround := float_round
}.

(** ** Exact rational arithmetic *)

Definition Qc_ltb (x y : Qc) : bool :=
  match (x ?= y)%Qc with Lt => true | _ => false end.

#[export] Instance exact : Arith Qc := {
  lit := Q2Qc;
  fadd := Qcplus;
  fsub := Qcminus;
  fdiv := Qcdiv;
  feqb := Qc_eq_bool;
  fltb := Qc_ltb;
  fsum := fun xs => fold_left Qcplus xs (Q2Qc 0);
  fround := fun ndigits x =>
    let scale := (10 ^ Z.of_nat ndigits)%Z in
    Q2Qc (inject_Z (round_half_even (x * inject_Z scale)) / inject_Z scale)
}.

End PyNum.

(* ===================================================================== *)
(** * Intent classifier ([app/ai/ml/intent_classifier.py]) *)
(* ===================================================================== *)

Module Intent.
Import PyStr PyNum.

(** Why [classify] decided as it did; stands for the [reasoning] text. *)
Inductive Reasoning :=
| NoKeywordMatches
| BelowThreshold (top : string)
| MatchedKeywords (top : string).

Record IntentResult (F : Type) := mkIntentResult {
  primary_intent : string;
  confidence : F;
  secondary_intents : list (string * F);
  keywords : list string;
  reasoning : Reasoning
}.
Arguments mkIntentResult {F}.
Arguments primary_intent {F}.
Arguments confidence {F}.
Arguments secondary_intents {F}.
Arguments keywords {F}.
Arguments reasoning {F}.

Definition VALID_INTENTS : list string :=
  ["transactions"; "goals"; "reminders"; "general"].

Definition FETCH_ALL_PHRASES : list string :=
  [ "analyse"; "analyze"; "analysis";
    "performance"; "overview"; "summary"; "report";
    "how am i doing"; "how i am doing";
    "how are my finances"; "financial health";
    "financial status"; "financial situation";
    "give me a summary"; "full picture";
    "overall"; "everything"; "all my";
    "am i doing well"; "am i doing good";
    "how is my"; "review my";
    "check my finances"; "check my financial";
    "assess"; "assessment"; "evaluate"; "evaluation";
    "dashboard"; "snapshot" ].

Definition MULTI_INTENT_PHRASES : list (string * list string) :=
  [ ("am i saving enough",     ["transactions"; "goals"]);
    ("saving enough",          ["transactions"; "goals"]);
    ("what should i focus on", ["transactions"; "goals"]);
    ("where should i focus",   ["transactions"; "goals"]);
    ("am i on track",          ["transactions"; "goals"]);
    ("how close am i",         ["transactions"; "goals"]);
    ("can i afford",           ["transactions"; "goals"]);
    ("afford",                 ["transactions"; "goals"]);
    ("reach my goal",          ["transactions"; "goals"]);
    ("meet my goal",           ["transactions"; "goals"]);
    ("achieve my goal",        ["transactions"; "goals"]);
    ("budget vs",              ["transactions"; "goals"]);
    ("upcoming goals",         ["goals"; "reminders"]);
    ("goal deadlines",         ["goals"; "reminders"]);
    ("pending bills",          ["transactions"; "reminders"]);
    ("bills and expenses",     ["transactions"; "reminders"]);
    ("overdue payments",       ["transactions"; "reminders"]) ].

(** Days to look back; [None] is the unbounded window. *)
Definition TIME_PATTERNS : list (string * option Z) :=
  [ ("today", Some 0%Z);
    ("yesterday", Some 1%Z);
    ("this week", Some 7%Z);
    ("last week", Some 14%Z);
    ("this month", Some 30%Z);
    ("last month", Some 60%Z);
    ("this quarter", Some 90%Z);
    ("last quarter", Some 180%Z);
    ("this year", Some 365%Z);
    ("last year", Some 730%Z);
    ("all", None);
    ("forever", None) ].

Local Open Scope Q_scope.

Definition TRANSACTIONS_KEYWORDS : list (string * Q) :=
  [ ("how much did i spend", 3.0);
    ("transaction history", 3.0);
    ("account balance", 3.0);
    ("payment history", 3.0);
    ("show me my expenses", 3.0);
    ("recent transactions", 3.0);
    ("total spending", 2.5);
    ("total expenses", 2.5);
    ("how much have i", 2.5);
    ("what did i spend", 2.5);
    ("money spent", 2.0);
    ("cash flow", 2.0);
    ("transaction", 1.5);
    ("transactions", 1.5);
    ("expense", 1.5);
    ("expenses", 1.5);
    ("spending", 1.5);
    ("spent", 1.2);
    ("income", 1.5);
    ("payment", 1.2);
    ("payments", 1.2);
    ("receipt", 1.2);
    ("receipts", 1.2);
    ("charge", 1.0);
    ("charges", 1.0);
    ("debit", 1.2);
    ("credit", 1.0);
    ("transfer", 1.2);
    ("balance", 1.2);
    ("purchase", 1.2);
    ("purchases", 1.2);
    ("bought", 1.0);
    ("buy", 0.8);
    ("paid", 1.0);
    ("cost", 0.8);
    ("cash", 0.8);
    ("card", 0.8);
    ("total", 0.8);
    ("sum", 0.8);
    ("account", 0.8);
    ("history", 0.8);
    ("money", 0.7) ].

Definition GOALS_KEYWORDS : list (string * Q) :=
  [ ("savings goal", 3.0);
    ("financial goal", 3.0);
    ("saving for", 2.5);
    ("how much have i saved", 2.5);
    ("goal progress", 2.5);
    ("savings target", 2.5);
    ("budget plan", 2.0);
    ("financial plan", 2.0);
    ("am i on track", 2.0);
    ("how close am i", 2.0);
    ("reach my goal", 2.0);
    ("goal", 1.5);
    ("goals", 1.5);
    ("target", 1.2);
    ("save", 1.2);
    ("saving", 1.2);
    ("savings", 1.2);
    ("milestone", 1.5);
    ("objective", 1.2);
    ("achievement", 1.0);
    ("accumulate", 1.2);
    ("fund", 1.0);
    ("budget", 1.2);
    ("plan", 0.8);
    ("progress", 1.0);
    ("track", 0.8);
    ("invest", 0.8);
    ("investment", 0.8);
    ("retire", 1.0);
    ("retirement", 1.2);
    ("emergency fund", 2.0) ].

Definition REMINDERS_KEYWORDS : list (string * Q) :=
  [ ("set a reminder", 3.0);
    ("set reminder", 3.0);
    ("remind me", 3.0);
    ("create an alert", 3.0);
    ("send me a notification", 3.0);
    ("payment due", 2.5);
    ("bill due", 2.5);
    ("upcoming payment", 2.5);
    ("payment reminder", 3.0);
    ("due date", 2.0);
    ("don't let me forget", 2.0);
    ("notify me", 2.0);
    ("alert me", 2.0);
    ("reminder", 2.0);
    ("reminders", 2.0);
    ("remind", 1.5);
    ("alert", 1.2);
    ("alerts", 1.2);
    ("notification", 1.5);
    ("notifications", 1.5);
    ("notify", 1.2);
    ("schedule", 1.0);
    ("alarm", 1.2);
    ("upcoming", 1.0);
    ("due", 0.8);
    ("overdue", 1.2);
    ("recurring", 1.0);
    ("subscription", 1.0) ].

Definition INTENT_KEYWORDS : list (string * list (string * Q)) :=
  [ ("transactions", TRANSACTIONS_KEYWORDS);
    ("goals", GOALS_KEYWORDS);
    ("reminders", REMINDERS_KEYWORDS) ].

Definition CONFIDENCE_THRESHOLD : Q := 0.4.

Local Close Scope Q_scope.

Section Classifier.
Context {F : Type} {ops : Arith F}.

(** Python's [str.lower]; the classifier is read for any such function,
    [PyStr.ascii_lower] being its restriction to ASCII text. *)
Variable lower : string -> string.

(** The accumulator of one intent: [intent_scores[intent] += weight] for
    each of its keywords found in the lowered query, from [0.0]. *)
Definition accumulate (query_lower : string)
    (keyword_weights : list (string * Q)) : F :=
  fold_left
    (fun score kw =>
       if str_in (fst kw) query_lower then fadd score (lit (snd kw))
       else score)
    keyword_weights (lit 0).

(** [intent_scores] after the scan, in the dict's insertion order. *)
Definition intent_scores (query : string) : list (string * F) :=
  map (fun e => (fst e, accumulate (lower query) (snd e))) INTENT_KEYWORDS.

(** [found_keywords] after the scan: every keyword once. *)
Definition found_keywords (query : string) : list string :=
  fold_left
    (fun found e =>
       fold_left
         (fun found kw =>
            if str_in (fst kw) (lower query)
               && negb (existsb (String.eqb (fst kw)) found)
            then (found ++ [fst kw])%list else found)
         (snd e) found)
    INTENT_KEYWORDS [].

(** [max(xs)]: the first element no later one exceeds.  The empty case
    (a [ValueError]) does not arise, the tables being non-empty. *)
Definition py_max (xs : list F) : F :=
  match xs with
  | [] => lit 0
  | x :: xs' => fold_left (fun m y => if fltb m y then y else m) xs' x
  end.

(** [max(d, key=d.get)] together with [d[...]] of that key. *)
Definition py_max_item (d : list (string * F)) : string * F :=
  match d with
  | [] => ("", lit 0)
  | e :: d' =>
      fold_left (fun m e' => if fltb (snd m) (snd e') then e' else m) d' e
  end.

(** [sorted(l, key=lambda x: x[1], reverse=True)]: reverse, sort stably
    in ascending order with [<], reverse. *)
Fixpoint insert_asc (x : string * F) (l : list (string * F))
    : list (string * F) :=
  match l with
  | [] => [x]
  | y :: l' =>
      if fltb (snd x) (snd y) then x :: y :: l' else y :: insert_asc x l'
  end.

Definition sorted_desc (l : list (string * F)) : list (string * F) :=
  rev (fold_left (fun acc x => insert_asc x acc) (rev l) []).

Definition total_score (query : string) : F :=
  fsum (map snd (intent_scores query)).

Definition max_score (query : string) : F :=
  py_max (map snd (intent_scores query)).

(** Each accumulator as a fraction of the total. *)
Definition normalized (query : string) : list (string * F) :=
  map (fun e => (fst e, fdiv (snd e) (total_score query)))
      (intent_scores query).

(** The confidence of the winning intent, [normalized[primary_intent]]. *)
Definition winning_confidence (query : string) : F :=
  snd (py_max_item (normalized query)).


Definition classify (query : string) : IntentResult F :=
  if feqb (total_score query) (lit 0) || feqb (max_score query) (lit 0)
  then mkIntentResult "general" (lit 0.5) [] [] NoKeywordMatches
  else
    let norm := normalized query in
    let primary := fst (py_max_item norm) in
    let conf := winning_confidence query in
    let secondary :=
      sorted_desc
        (map (fun e => (fst e, fround 4 (snd e)))
           (filter
              (fun e => negb (String.eqb (fst e) primary)
                        && fltb (lit 0) (snd e))
              norm)) in
    if fltb conf (lit CONFIDENCE_THRESHOLD)
    then mkIntentResult "general" (fround 4 (fround 4 conf)) secondary
           (found_keywords query) (BelowThreshold primary)
    else mkIntentResult primary (fround 4 conf) secondary
           (found_keywords query) (MatchedKeywords primary).

(** The key [f"needs_{intent}"]. *)
Definition needs (intent : string) : string := "needs_" ++ intent.

(** The dict literal with the three flags. *)
Definition plan_of (t g r : bool) : gmap string bool :=
  <["needs_reminders" := r]>
    (<["needs_goals" := g]> (<["needs_transactions" := t]> ∅)).

Definition get_intents_for_fetch (query : string) : gmap string bool :=
  let q := lower query in
  if existsb (fun phrase => str_in phrase q) FETCH_ALL_PHRASES
  then plan_of true true true
  else
    match find (fun e => str_in (fst e) q) MULTI_INTENT_PHRASES with
    | Some (_, intents) =>
        fold_left (fun result intent => <[needs intent := true]> result)
          intents (plan_of false false false)
    | None =>
        let intent_result := classify query in
        if String.eqb (primary_intent intent_result) "general"
        then plan_of true true true
        else
          fold_left
            (fun result s =>
               if fltb (lit 0.25) (snd s)
                  && existsb (String.eqb (fst s))
                       ["transactions"; "goals"; "reminders"]
               then <[needs (fst s) := true]> result
               else result)
            (secondary_intents intent_result)
            (<[needs (primary_intent intent_result) := true]>
               (plan_of false false false))
    end.

(** [timedelta(days=d)] in microseconds; a [datetime] is a count of
    microseconds. *)
Definition timedelta_days (d : Z) : Z := (d * 86400000000)%Z.

(** [extract_time_range], with [datetime.now()] passed as [now]. *)
Definition extract_time_range (now : Z) (query : string)
    : option Z * option Z :=
  match find (fun e => str_in (fst e) (lower query)) TIME_PATTERNS with
  | Some (_, None) => (None, Some now)
  | Some (_, Some days) => (Some (now - timedelta_days days)%Z, Some now)
  | None => (Some (now - timedelta_days 30)%Z, Some now)
  end.

End Classifier.

(** ** The values an accumulator can take in binary64

    An accumulator is a left-to-right float sum of the weights of some
    sub-list of an intent's keyword table.  [reachable] enumerates every
    such sum (as a sorted list without repetition), whichever keywords
    match; it is what the float facts about the scores are checked on. *)

Fixpoint merge (xs : list float) : list float -> list float :=
  match xs with
  | [] => fun ys => ys
  | x :: xs' =>
      fix merge_x (ys : list float) : list float :=
        match ys with
        | [] => x :: xs'
        | y :: ys' =>
            if PrimFloat.Leibniz.eqb x y then x :: merge xs' ys'
            else if PrimFloat.ltb x y then x :: merge xs' ys
            else y :: merge_x ys'
        end
  end.

Definition add_weight (sums : list float) (w : Q) : list float :=
  merge sums (map (fun s => fadd s (lit w)) sums).

Definition reachable (keyword_weights : list (string * Q)) : list float :=
  fold_left (fun sums kw => add_weight sums (snd kw)) keyword_weights [lit 0].

(** A score is the float [0.0] itself, or strictly positive. *)
Definition zero_or_positive (s : float) : bool :=
  PrimFloat.Leibniz.eqb s 0
  || (PrimFloat.ltb 0 s && negb (PrimFloat.eqb s 0) && negb (PrimFloat.ltb s 0)).

(** What the check of a table says of one score. *)
Definition is_score (s : float) : Prop :=
  s = 0%float \/
  (PrimFloat.ltb 0 s = true /\ PrimFloat.eqb s 0 = false
   /\ PrimFloat.ltb s 0 = false).

End Intent.

(* ===================================================================== *)
(** * The fragment of [re] the masker uses *)
(* ===================================================================== *)

Module Regex.
Import PyStr.

(** Patterns.  Repetition is greedy; there is at most one capturing group.
    Classes are ASCII: [\d] is [0-9], [\w] is [A-Za-z0-9_], [\s] is the six
    ASCII blanks, which is what [re] does on ASCII text. *)
Inductive regex :=
| Eps
| Chr (a : ascii)
| Cls (p : ascii -> bool)
| Seq (r1 r2 : regex)
| Alt (r1 r2 : regex)
| Rep (r : regex) (lo : nat) (hi : option nat)
| Grp (r : regex)
| WordBoundary
| NotAfter (p : ascii -> bool)
| NotBefore (p : ascii -> bool)
| AtEnd.

Definition is_digit (c : ascii) : bool :=
  (48 <=? nat_of_ascii c)%nat && (nat_of_ascii c <=? 57)%nat.

Definition is_word (c : ascii) : bool :=
  is_digit c || is_upper c || is_lower c || Ascii.eqb c "_".

Definition is_space (c : ascii) : bool :=
  let n := nat_of_ascii c in
  (n =? 32)%nat || ((9 <=? n)%nat && (n <=? 13)%nat).

Definition one_of (chars : string) (c : ascii) : bool :=
  str_in (String c EmptyString) chars.

Definition in_range (lo hi c : ascii) : bool :=
  (nat_of_ascii lo <=? nat_of_ascii c)%nat
  && (nat_of_ascii c <=? nat_of_ascii hi)%nat.

(** The position of the matcher in the text: offset, the character before
    it, the text that remains, and the span of the group once captured. *)
Record cursor := mkCursor {
  pos : nat;
  prev : option ascii;
  rest : string;
  grp : option (nat * nat)
}.

Definition next (c : cursor) : option ascii :=
  match rest c with
  | EmptyString => None
  | String x _ => Some x
  end.

Definition test (p : ascii -> bool) (o : option ascii) : bool :=
  match o with
  | Some x => p x
  | None => false
  end.

(** Character tests under [re.IGNORECASE]. *)
Definition chr_matches (icase : bool) (a x : ascii) : bool :=
  if icase then Ascii.eqb (lower_char a) (lower_char x) else Ascii.eqb a x.

Definition cls_matches (icase : bool) (p : ascii -> bool) (x : ascii) : bool :=
  p x || (icase && (p (lower_char x) || p (upper_char x))).

(** Consume one character accepted by [ok]. *)
Definition eat (ok : ascii -> bool) (c : cursor)
    (k : cursor -> option cursor) : option cursor :=
  match rest c with
  | String x s' =>
      if ok x then k (mkCursor (S (pos c)) (Some x) s' (grp c)) else None
  | EmptyString => None
  end.

(** The backtracking matcher, in continuation style: alternatives are
    tried left to right, a repetition tries one more iteration before it
    tries to stop, and the first overall success is the match. *)
Fixpoint run (icase : bool) (r : regex) (c : cursor)
    (k : cursor -> option cursor) {struct r} : option cursor :=
  match r with
  | Eps => k c
  | Chr a => eat (chr_matches icase a) c k
  | Cls p => eat (cls_matches icase p) c k
  | Seq r1 r2 => run icase r1 c (fun c' => run icase r2 c' k)
  | Alt r1 r2 =>
      match run icase r1 c k with
      | Some c' => Some c'
      | None => run icase r2 c k
      end
  | Rep r' lo hi =>
      let bound :=
        match hi with
        | Some h => h
        | None => lo + String.length (rest c)
        end in
      (fix loop (n lo : nat) (c : cursor) {struct n} : option cursor :=
         match n with
         | O => if (lo =? 0)%nat then k c else None
         | S n' =>
             match run icase r' c (fun c' => loop n' (Nat.pred lo) c') with
             | Some c' => Some c'
             | None => if (lo =? 0)%nat then k c else None
             end
         end) bound lo c
  | Grp r' =>
      run icase r' c
        (fun c' =>
           k (mkCursor (pos c') (prev c') (rest c') (Some (pos c, pos c'))))
  | WordBoundary =>
      if xorb (test is_word (prev c)) (test is_word (next c)) then k c
      else None
  | NotAfter p => if test p (prev c) then None else k c
  | NotBefore p => if test p (next c) then None else k c
  | AtEnd =>
      match rest c with
      | EmptyString => k c
      | String x EmptyString => if Ascii.eqb x "010" then k c else None
      | _ => None
      end
  end.

(** A match: start, end, and the span of the group if it took part. *)
Record span := mkSpan {
  m_start : nat;
  m_end : nat;
  m_group : option (nat * nat)
}.

(** [pattern.search]: the match at the leftmost position that has one. *)
Fixpoint search (icase : bool) (r : regex) (at_pos : nat)
    (before : option ascii) (s : string) : option (span * cursor) :=
  match run icase r (mkCursor at_pos before s None) Some with
  | Some c' => Some (mkSpan at_pos (pos c') (grp c'), c')
  | None =>
      match s with
      | EmptyString => None
      | String x s' => search icase r (S at_pos) (Some x) s'
      end
  end.

(** The successive non-overlapping matches, as [findall], [finditer] and
    [sub] scan them.  None of the masker's patterns matches the empty
    string; after an empty match the scan moves on by one character. *)
Fixpoint scan (fuel : nat) (icase : bool) (r : regex) (c : cursor)
    : list span :=
  match fuel with
  | O => []
  | S fuel' =>
      match search icase r (pos c) (prev c) (rest c) with
      | None => []
      | Some (m, c') =>
          m ::
          (if (m_end m =? m_start m)%nat then
             match rest c' with
             | EmptyString => []
             | String x s' =>
                 scan fuel' icase r (mkCursor (S (pos c')) (Some x) s' None)
             end
           else scan fuel' icase r c')
      end
  end.

Definition matches (icase : bool) (r : regex) (text : string) : list span :=
  scan (S (String.length text)) icase r (mkCursor 0 None text None).

(** [text[i:j]]. *)
Definition slice (text : string) (i j : nat) : string :=
  take (j - i) (drop i text).

Fixpoint has_group (r : regex) : bool :=
  match r with
  | Grp _ => true
  | Seq r1 r2 | Alt r1 r2 => has_group r1 || has_group r2
  | Rep r' _ _ => has_group r'
  | _ => false
  end.

(** [pattern.findall(text)]: the group's text when the pattern has a
    group (empty when it took no part), else the whole match. *)
Definition findall (icase : bool) (r : regex) (text : string) : list string :=
  map (fun m =>
         if has_group r then
           match m_group m with
           | Some (i, j) => slice text i j
           | None => EmptyString
           end
         else slice text (m_start m) (m_end m))
      (matches icase r text).

(** [pattern.sub(repl, text, count)] with a function [repl] applied to
    [m.group()]; [count = 0] replaces every match. *)
Fixpoint splice (repl : string -> string) (text : string) (from : nat)
    (ms : list span) : string :=
  match ms with
  | [] => drop from text
  | m :: ms' =>
      slice text from (m_start m)
      ++ repl (slice text (m_start m) (m_end m))
      ++ splice repl text (m_end m) ms'
  end.

Definition sub (icase : bool) (r : regex) (repl : string -> string)
    (text : string) (count : nat) : string :=
  let ms := matches icase r text in
  splice repl text 0 (if (count =? 0)%nat then ms else firstn count ms).

(** Pattern syntax. *)
Fixpoint lit (s : string) : regex :=
  match s with
  | EmptyString => Eps
  | String a EmptyString => Chr a
  | String a s' => Seq (Chr a) (lit s')
  end.

Fixpoint seq (rs : list regex) : regex :=
  match rs with
  | [] => Eps
  | [r] => r
  | r :: rs' => Seq r (seq rs')
  end.

Fixpoint alt (rs : list regex) : regex :=
  match rs with
  | [] => Eps
  | [r] => r
  | r :: rs' => Alt r (alt rs')
  end.

Definition opt (r : regex) : regex := Rep r 0 (Some 1).
Definition star (r : regex) : regex := Rep r 0 None.
Definition plus (r : regex) : regex := Rep r 1 None.
Definition times (r : regex) (n : nat) : regex := Rep r n (Some n).

End Regex.

(* ===================================================================== *)
(** * PII masker ([app/ai/utils/pii_masker.py]) *)
(* ===================================================================== *)

Module Masker.
Import PyStr Regex.

Record MaskedMessage := mkMaskedMessage {
  original : string;
  masked : string;
  pii_found : list (string * list string);  (** a dict, in insertion order *)
  has_sensitive_info : bool
}.

Definition digit : regex := Cls is_digit.

(** [re.sub(r'\D', '', m)]. *)
Definition digits_of (m : string) : string :=
  sub false (Cls (fun c => negb (is_digit c))) (fun _ => EmptyString) m 0.

Definition stars (n : nat) : string := repeat_char "*" n.

Definition _mask_phone (m : string) : string :=
  let digits := digits_of m in
  if (8 <=? String.length digits)%nat
  then take 4 digits ++ stars (String.length digits - 6) ++ last_n 2 digits
  else "****".

Definition _mask_card (m : string) : string :=
  let digits := digits_of m in
  if (12 <=? String.length digits)%nat
  then take 4 digits ++ stars (String.length digits - 8) ++ last_n 4 digits
  else "****".

(** [m.split(sep)] for a one-character separator. *)
Fixpoint split_on (sep : ascii) (m : string) : list string :=
  match m with
  | EmptyString => [EmptyString]
  | String c m' =>
      if Ascii.eqb c sep then EmptyString :: split_on sep m'
      else
        match split_on sep m' with
        | [] => [String c EmptyString]
        | part :: parts => String c part :: parts
        end
  end.

Definition _mask_ssn (m : string) : string :=
  match split_on "-" m with
  | [p0; _; p2] => p0 ++ "-**-" ++ p2
  | _ => "***-**-****"
  end.

(** [m.split(sep, 1)] as the pair before and after the first [sep]; the
    second half is [None] when there is no [sep]. *)
Fixpoint split_once (sep : ascii) (m : string) : string * option string :=
  match m with
  | EmptyString => (EmptyString, None)
  | String c m' =>
      if Ascii.eqb c sep then (EmptyString, Some m')
      else let '(a, b) := split_once sep m' in (String c a, b)
  end.

(** The email pattern guarantees an '@' in [m]; without one the unpacking
    of the source raises, a case given the unmasked text here. *)
Definition _mask_email (m : string) : string :=
  match split_once "@" m with
  | (local, Some domain) =>
      if (String.length local <=? 2)%nat
      then stars (String.length local) ++ "@" ++ domain
      else take 2 local ++ stars (String.length local - 2) ++ "@" ++ domain
  | (_, None) => m
  end.

Definition _mask_account_static (m : string) : string :=
  if (6 <? String.length m)%nat
  then take 4 m ++ stars (String.length m - 6) ++ last_n 2 m
  else take 2 m ++ "****".

Definition upper_letter : regex := Cls (in_range "A" "Z").
Definition upper_alnum : regex :=
  Cls (fun c => in_range "A" "Z" c || is_digit c).

(** [[A-Z]{0,4}\d[A-Z0-9]{5,19}] *)
Definition account_token : regex :=
  seq [Rep upper_letter 0 (Some 4); digit; Rep upper_alnum 5 (Some 19)].

Definition space : regex := Cls is_space.
Definition non_space : regex := Cls (fun c => negb (is_space c)).

(** [\b(?:\d[ -]?){15,16}\b] *)
Definition credit_card_re : regex :=
  seq [WordBoundary;
       Rep (Seq digit (opt (Cls (one_of " -")))) 15 (Some 16);
       WordBoundary].

(** [\b\d{3}-\d{2}-\d{4}\b] *)
Definition ssn_re : regex :=
  seq [WordBoundary; times digit 3; Chr "-"; times digit 2; Chr "-";
       times digit 4; WordBoundary].

(** [(?<!\d)(?:\+91[-\s]?)?[6-9]\d{9}(?!\d)] *)
Definition phone_re : regex :=
  seq [NotAfter is_digit;
       opt (Seq (lit "+91") (opt (Cls (fun c => Ascii.eqb c "-" || is_space c))));
       Cls (in_range "6" "9"); times digit 9;
       NotBefore is_digit].

(** [\b[A-Za-z0-9._%+-]+@[A-Za-z0-9.-]+\.[A-Za-z]{2,}\b] *)
Definition email_re : regex :=
  seq [WordBoundary;
       plus (Cls (fun c => is_upper c || is_lower c || is_digit c
                           || one_of "._%+-" c));
       Chr "@";
       plus (Cls (fun c => is_upper c || is_lower c || is_digit c
                           || one_of ".-" c));
       Chr ".";
       Rep (Cls (fun c => is_upper c || is_lower c)) 2 None;
       WordBoundary].

(** [\b(?:account\s*(?:no\.?|number|#|:)|a\/c\s*:?|acc\s*:?)\s*([A-Z]{0,4}\d[A-Z0-9]{5,19})\b] *)
Definition account_number_re : regex :=
  seq [WordBoundary;
       alt [seq [lit "account"; star space;
                 alt [Seq (lit "no") (opt (Chr ".")); lit "number";
                      Chr "#"; Chr ":"]];
            seq [lit "a/c"; star space; opt (Chr ":")];
            seq [lit "acc"; star space; opt (Chr ":")]];
       star space;
       Grp account_token;
       WordBoundary].

(** [(?:password|passwd|pwd)\s*(?:is|:|=)?\s*(\S+)] *)
Definition password_re : regex :=
  seq [alt [lit "password"; lit "passwd"; lit "pwd"];
       star space;
       opt (alt [lit "is"; Chr ":"; Chr "="]);
       star space;
       Grp (plus non_space)].

(** One entry of [PATTERNS]: label, pattern, [re.IGNORECASE], mask function. *)
Definition PATTERNS : list (string * regex * bool * (string -> string)) :=
  [ ("credit_card", credit_card_re, false, _mask_card);
    ("ssn", ssn_re, false, _mask_ssn);
    ("phone", phone_re, false, _mask_phone);
    ("email", email_re, false, _mask_email);
    ("account_number", account_number_re, true,
       fun m => sub true account_token _mask_account_static m 1);
    ("password", password_re, true,
       fun m => sub false (Seq (Grp (plus non_space)) AtEnd)
                  (fun _ => "********") m 0) ].

(** [d[key] = value] on a dict kept in insertion order. *)
Fixpoint dict_set (d : list (string * list string)) (key : string)
    (value : list string) : list (string * list string) :=
  match d with
  | [] => [(key, value)]
  | (k, v) :: d' =>
      if String.eqb k key then (k, value) :: d'
      else (k, v) :: dict_set d' key value
  end.

(** One turn of the loop of [mask] over [PATTERNS]. *)
Definition mask_step (st : string * list (string * list string))
    (entry : string * regex * bool * (string -> string))
    : string * list (string * list string) :=
  let '(masked_text, pii_found) := st in
  let '(label, pattern, icase, mask_fn) := entry in
  match findall icase pattern masked_text with
  | [] => (masked_text, pii_found)
  | found =>
      (sub icase pattern mask_fn masked_text 0,
       dict_set pii_found label found)
  end.

Definition mask (text : string) : MaskedMessage :=
  let '(masked_text, pii_found) := fold_left mask_step PATTERNS (text, []) in
  mkMaskedMessage text masked_text pii_found
    (match pii_found with [] => false | _ => true end).

Definition mask_message (text : string) : MaskedMessage := mask text.

End Masker.

(* ===================================================================== *)
(** * Awaited calls *)
(* ===================================================================== *)

Module Await.

(** What awaiting a collaborator gives: its value, or an exception (a
    subclass of [Exception]) with the text [str(e)] shows.  Cancellation,
    which is not an [Exception], is outside the model. *)
Inductive Outcome (A : Type) :=
| Returned (value : A)
| Raised (message : string).
Arguments Returned {A}.
Arguments Raised {A}.

Definition bind {A B : Type} (o : Outcome A) (k : A -> Outcome B) : Outcome B :=
  match o with
  | Returned a => k a
  | Raised e => Raised e
  end.

(** [s[-n:]]-style slicing: [l[start:]] for any integer [start]. *)
Definition slice_from {A : Type} (start : Z) (l : list A) : list A :=
  let len := Z.of_nat (length l) in
  let i := if (start <? 0)%Z then Z.max 0 (len + start) else Z.min start len in
  skipn (Z.to_nat i) l.

End Await.

(* ===================================================================== *)
(** * Chat memory ([app/ai/memory/chat_memory.py]) *)
(* ===================================================================== *)

Module Memory.
Import Await.
Local Open Scope list_scope.

(** [metadata], a dict of strings. *)
Definition Metadata : Type := list (string * string).

Inductive BaseMessage :=
| HumanMessage (content : string) (metadata : Metadata)
| AIMessage (content : string) (metadata : Metadata).

(** A document of the [chat_history] collection. *)
Record ChatDoc := mkChatDoc {
  doc_userId : string;
  doc_type : string;
  doc_content : string;
  doc_metadata : Metadata;
  doc_createdAt : Z
}.

(** The database as the memory sees it: the documents of [chat_history],
    and whether [insert_one] of a document succeeds (it raises otherwise). *)
Record Database := mkDatabase {
  chat_history : list ChatDoc;
  insert_succeeds : ChatDoc -> bool
}.

(** A [ChatMemory] object; [has_db] is [self.db is not None]. *)
Record ChatMemory := mkChatMemory {
  user_id : string;
  has_db : bool;
  max_messages : Z;
  in_memory_messages : list BaseMessage
}.

(** [ChatMemory(user_id, db)] with the default [max_messages = 50]. *)
Definition DEFAULT_MAX_MESSAGES : Z := 50.

Definition new_memory (uid : string) (with_db : bool) (cap : Z) : ChatMemory :=
  mkChatMemory uid with_db cap [].

(** [_persist_message]: a failed insertion is logged and swallowed. *)
Definition _persist_message (self : ChatMemory) (now : Z)
    (message : BaseMessage) (message_type : string) (metadata : Metadata)
    (db : Database) : Database :=
  let content :=
    match message with
    | HumanMessage c _ | AIMessage c _ => c
    end in
  let doc := mkChatDoc (user_id self) message_type content metadata now in
  if insert_succeeds db doc
  then mkDatabase (chat_history db ++ [doc]) (insert_succeeds db)
  else db.

(** [add_message]: append, trim to the last [max_messages], persist. *)
Definition add_message (now : Z) (content message_type : string)
    (metadata : option Metadata) (self : ChatMemory) (db : Database)
    : ChatMemory * Database :=
  let meta := match metadata with Some m => m | None => [] end in
  let message :=
    if String.eqb message_type "human" then HumanMessage content meta
    else AIMessage content meta in
  let appended := in_memory_messages self ++ [message] in
  let kept :=
    if (max_messages self <? Z.of_nat (length appended))%Z
    then slice_from (- max_messages self) appended
    else appended in
  let db' :=
    if has_db self
    then _persist_message self now message message_type meta db
    else db in
  (mkChatMemory (user_id self) (has_db self) (max_messages self) kept, db').

Definition get_conversation_history (self : ChatMemory) : list BaseMessage :=
  in_memory_messages self.

(** The message [add_message] builds for a turn [(content, message_type)]. *)
Definition message_of (turn : string * string) : BaseMessage :=
  if String.eqb (snd turn) "human" then HumanMessage (fst turn) []
  else AIMessage (fst turn) [].

(** Appending turns [(content, message_type)] one after the other. *)
Definition append_all (now : Z) (turns : list (string * string))
    (st : ChatMemory * Database) : ChatMemory * Database :=
  fold_left
    (fun st turn => add_message now (fst turn) (snd turn) None (fst st) (snd st))
    turns st.

(** The last [n] elements of a list. *)
Definition last_turns {A : Type} (n : nat) (l : list A) : list A :=
  skipn (length l - n) l.

End Memory.

(* ===================================================================== *)
(** * Data fetcher ([app/ai/tools/data_fetcher.py]) *)
(* ===================================================================== *)

Module Fetcher.
Import Await PyNum.
Local Open Scope list_scope.

Definition MAX_CONTEXT_ITEMS : nat := 10.

Section DataFetcher.
Context {F : Type} {ops : Arith F}.

(** What the fetcher never looks into: the other fields of a stored
    document, and the summaries the services compute. *)
Context {Doc GoalSummary ReminderCounts : Type}.

(** A transaction document: the keys the fetcher reads may be missing. *)
Record Transaction := mkTransaction {
  tx_type : option string;
  tx_category : option string;
  tx_amount : option F;
  tx_doc : Doc
}.

(** A reminder document, as [ReminderService._enrich] returns it. *)
Record Reminder := mkReminder {
  isOverdue : bool;
  isToday : bool;
  reminder_doc : Doc
}.

(** The collaborators: the three services over the document store. *)
Record Services := mkServices {
  get_transactions_by_user :
    string -> option Z -> option Z -> option string -> nat
    -> Outcome (list Transaction);
  get_goals_by_user : string -> Outcome (list Doc);
  get_goal_summary : string -> Outcome GoalSummary;
  get_reminders_by_user : string -> Outcome (list Reminder);
  count_reminders : string -> Outcome ReminderCounts
}.

Record CategoryEntry := mkCategoryEntry {
  count : nat;
  amount : F
}.

Record TransactionSummary := mkTransactionSummary {
  total_transactions : nat;
  total_income : F;
  total_expense : F;
  net : F;
  categories : list (string * CategoryEntry);
  date_range : option Z * option Z
}.

(** The [data] of a result: the dict each helper returns, or [{}]. *)
Inductive Payload :=
| EmptyData
| TransactionsData (transactions : list Transaction)
    (summary : TransactionSummary)
| TransactionsError (error : string)
| GoalsData (goals : list Doc) (summary : GoalSummary)
| GoalsError (error : string)
| RemindersData (today upcoming overdue : list Reminder)
    (summary : ReminderCounts)
| RemindersError (error : string)
| GeneralData (recent_transactions : list Transaction)
    (goal_summary : GoalSummary) (reminder_summary : ReminderCounts)
| GeneralError (error : string).

(** The dict [fetch_intent_data] returns; [error] is [None] when the key
    is absent. *)
Record IntentData := mkIntentData {
  intent : string;
  user_id : string;
  timestamp : Z;
  data : Payload;
  error : option string
}.

(** A value of [intents_data]: a task's result, or [{"error": str(exc)}]
    for a task that raised. *)
Inductive Entry :=
| Fetched (result : IntentData)
| TaskError (error : string).

Record MultiIntentData := mkMultiIntentData {
  mi_query : string;
  mi_user_id : string;
  mi_timestamp : Z;
  intents_data : gmap string Entry
}.

(** [except Exception as e: return on_error(str(e))] around a helper's body. *)
Definition catching (body : Outcome Payload) (on_error : string -> Payload)
    : Outcome Payload :=
  match body with
  | Returned p => Returned p
  | Raised e => Returned (on_error e)
  end.

(** [t["amount"] for t in transactions if t.get("type") == kind]: a
    [KeyError] when such a document has no amount. *)
Fixpoint amounts_of (kind : string) (transactions : list Transaction)
    : Outcome (list F) :=
  match transactions with
  | [] => Returned []
  | t :: rest =>
      if match tx_type t with Some ty => String.eqb ty kind | None => false end
      then
        match tx_amount t with
        | Some a => bind (amounts_of kind rest) (fun l => Returned (a :: l))
        | None => Raised "'amount'"
        end
      else amounts_of kind rest
  end.

(** One turn of the category loop: [setdefault], then the two [+=]. *)
Fixpoint add_to_category (cat : string) (a : F)
    (cats : list (string * CategoryEntry)) : list (string * CategoryEntry) :=
  match cats with
  | [] => [(cat, mkCategoryEntry 1 (fadd (lit 0) a))]
  | (c, e) :: rest =>
      if String.eqb c cat
      then (c, mkCategoryEntry (S (count e)) (fadd (amount e) a)) :: rest
      else (c, e) :: add_to_category cat a rest
  end.

Definition category_breakdown (transactions : list Transaction)
    : list (string * CategoryEntry) :=
  fold_left
    (fun cats t =>
       add_to_category (default "Other" (tx_category t))
         (default (lit 0) (tx_amount t)) cats)
    transactions [].

Definition _fetch_transactions (svc : Services) (uid : string)
    (start_date end_date : option Z) (query : string) : Outcome Payload :=
  catching
    (bind
       (get_transactions_by_user svc uid start_date end_date
          (if String.eqb query "" then None else Some query)
          MAX_CONTEXT_ITEMS)
       (fun transactions =>
          bind (amounts_of "Income" transactions) (fun incomes =>
          bind (amounts_of "Expense" transactions) (fun expenses =>
          let income := fsum incomes in
          let expense := fsum expenses in
          Returned
            (TransactionsData transactions
               (mkTransactionSummary (length transactions)
                  (fround 2 income) (fround 2 expense)
                  (fround 2 (fsub income expense))
                  (category_breakdown transactions)
                  (start_date, end_date)))))))
    TransactionsError.

Definition _fetch_goals (svc : Services) (uid : string) : Outcome Payload :=
  catching
    (bind (get_goals_by_user svc uid) (fun goals =>
     bind (get_goal_summary svc uid) (fun summary =>
     Returned (GoalsData (firstn MAX_CONTEXT_ITEMS goals) summary))))
    GoalsError.

Definition _fetch_reminders (svc : Services) (uid : string) : Outcome Payload :=
  catching
    (bind (get_reminders_by_user svc uid) (fun reminders =>
     bind (count_reminders svc uid) (fun counts =>
     let upcoming :=
       filter (fun r => negb (isOverdue r) && negb (isToday r)) reminders in
     let today := filter (fun r => isToday r) reminders in
     let overdue := filter (fun r => isOverdue r) reminders in
     Returned
       (RemindersData (firstn MAX_CONTEXT_ITEMS today)
          (firstn MAX_CONTEXT_ITEMS upcoming)
          (firstn MAX_CONTEXT_ITEMS overdue) counts))))
    RemindersError.

(** The three awaits of [_fetch_general] run under one [asyncio.gather];
    when several raise, the one first in argument order is reported here. *)
Definition _fetch_general (svc : Services) (uid : string)
    (start_date end_date : option Z) : Outcome Payload :=
  catching
    (bind (get_transactions_by_user svc uid start_date end_date None 5)
       (fun transactions =>
     bind (get_goal_summary svc uid) (fun goal_summary =>
     bind (count_reminders svc uid) (fun reminder_counts =>
     Returned (GeneralData transactions goal_summary reminder_counts)))))
    GeneralError.

(** [fetchers.get(intent)]: the helper for a known intent, as a thunk. *)
Definition fetchers (svc : Services) (uid : string)
    (start_date end_date : option Z) (query : string) (name : string)
    : option (unit -> Outcome Payload) :=
  if String.eqb name "transactions"
  then Some (fun _ => _fetch_transactions svc uid start_date end_date query)
  else if String.eqb name "goals" then Some (fun _ => _fetch_goals svc uid)
  else if String.eqb name "reminders"
  then Some (fun _ => _fetch_reminders svc uid)
  else if String.eqb name "general"
  then Some (fun _ => _fetch_general svc uid start_date end_date)
  else None.

(** [fetch_intent_data], with [datetime.now()] passed as [now]. *)
Definition fetch_intent_data (svc : Services) (now : Z) (uid name : string)
    (time_range : option Z * option Z) (query : string) : Outcome IntentData :=
  let result := mkIntentData name uid now EmptyData None in
  let '(start_date, end_date) := time_range in
  match fetchers svc uid start_date end_date query name with
  | None => Returned result
  | Some fetch_fn =>
      match fetch_fn tt with
      | Returned payload => Returned (mkIntentData name uid now payload None)
      | Raised e => Returned (mkIntentData name uid now EmptyData (Some e))
      end
  end.

(** The value stored for one gathered result: the result itself, or
    [{"error": str(result)}] when it is an exception. *)
Definition entry_of (result : Outcome IntentData) : Entry :=
  match result with
  | Raised e => TaskError e
  | Returned r => Fetched r
  end.

(** The loop over [zip(intents, results)] after [asyncio.gather] with
    [return_exceptions=True]. *)
Definition collect (intents : list string)
    (results : list (Outcome IntentData)) : gmap string Entry :=
  fold_left (fun acc p => <[fst p := entry_of (snd p)]> acc)
    (combine intents results) ∅.

(** [fetch_multi_intent_data].  The tasks share nothing but the
    collaborators, whose answers are functions of the call, so running them
    one after the other gives what running them concurrently gives;
    [clock i] is the time the [i]-th task reads. *)
Definition fetch_multi_intent_data (svc : Services) (clock : nat -> Z)
    (now : Z) (uid : string) (intents : list string)
    (time_range : option Z * option Z) (query : string) : MultiIntentData :=
  let tasks :=
    imap (fun i name => fetch_intent_data svc (clock i) uid name time_range query)
      intents in
  mkMultiIntentData query uid now (collect intents tasks).

(** The result dict carries an error marker: an [error] key of its own or
    in its [data]. *)
Definition has_error_marker (r : IntentData) : bool :=
  match error r, data r with
  | Some _, _ => true
  | None, (TransactionsError _ | GoalsError _ | RemindersError _
           | GeneralError _) => true
  | None, _ => false
  end.

(** The [data] holds a category's records and summary. *)
Definition is_populated (p : Payload) : bool :=
  match p with
  | TransactionsData _ _ | GoalsData _ _ | RemindersData _ _ _ _ => true
  | _ => false
  end.

(** The three data categories and their intent names. *)
Inductive Category := Transactions | Goals | Reminders.

Definition category_name (c : Category) : string :=
  match c with
  | Transactions => "transactions"
  | Goals => "goals"
  | Reminders => "reminders"
  end.

(** The awaits a category's helper makes, in order. *)
Definition category_calls (svc : Services) (uid : string)
    (time_range : option Z * option Z) (query : string) (c : Category)
    : list (option string) :=
  let failure {A : Type} (o : Outcome A) : option string :=
    match o with Returned _ => None | Raised e => Some e end in
  match c with
  | Transactions =>
      [failure
         (bind
            (get_transactions_by_user svc uid (fst time_range) (snd time_range)
               (if String.eqb query "" then None else Some query)
               MAX_CONTEXT_ITEMS)
            (fun transactions =>
               bind (amounts_of "Income" transactions) (fun _ =>
               amounts_of "Expense" transactions)))]
  | Goals =>
      [failure (get_goals_by_user svc uid); failure (get_goal_summary svc uid)]
  | Reminders =>
      [failure (get_reminders_by_user svc uid);
       failure (count_reminders svc uid)]
  end.

(** Some await of the category's fetch raises. *)
Definition category_fails (svc : Services) (uid : string)
    (time_range : option Z * option Z) (query : string) (c : Category) : Prop :=
  exists e, In (Some e) (category_calls svc uid time_range query c).

(** Every await of the category's fetch returns. *)
Definition category_succeeds (svc : Services) (uid : string)
    (time_range : option Z * option Z) (query : string) (c : Category) : Prop :=
  forall o, In o (category_calls svc uid time_range query c) -> o = None.

End DataFetcher.

End Fetcher.

(* ===================================================================== *)
(** * Orchestrator ([app/ai/orchestrator.py]) *)
(* ===================================================================== *)

Module Orchestrator.
Import Await Memory PyNum.
Local Open Scope list_scope.

(** The messages handed to a model. *)
Inductive Message :=
| SystemMessage (content : string)
| Turn (message : BaseMessage).

(** The dict [process_authenticated_query] returns: [status] "success"
    with its fields, or [status] "error". *)
Inductive QueryResult :=
| Success (user_id provider query response : string) (timestamp : Z)
| Failure (error user_id : string).

(** The orchestrator's mutable state: the sessions, and the database the
    memories persist to. *)
Record State := mkState {
  user_sessions : gmap string ChatMemory;
  database : Database
}.

Section Pipeline.

(** A model handle. *)
Variable LLM : Type.

(** The collaborators of one query: the provider registry
    ([app/ai/llm/init.py], [llm_settings]) and the models.  [ainvoke k] is
    the answer to the [k]-th invocation the query makes (0: the primary,
    1: the fallback). *)
Record Providers := mkProviders {
  DEFAULT_LLM : string;
  get_groq_llm : Outcome LLM;
  get_gemini_llm : Outcome LLM;
  ainvoke : nat -> LLM -> list Message -> Outcome string
}.

(** Steps 1 to 3 of the pipeline end in the system prompt.  The intent is
    classified by [Intent.get_intents_for_fetch]; fetching the context
    (each fetch guarded by its own [try]) and rendering the prompt are
    collaborators here. *)
Variable lower : string -> string.
Variable PromptContext : Type.
Variable _fetch_user_context :
  string -> gmap string bool -> string -> PromptContext.
Variable _build_system_prompt : PromptContext -> gmap string bool -> string.

Definition _classify_intent (query : string) : gmap string bool :=
  Intent.get_intents_for_fetch (F := float) lower query.

Definition system_prompt_for (uid query : string) : string :=
  let intent := _classify_intent query in
  let context := _fetch_user_context uid intent query in
  _build_system_prompt context intent.

(** [LLMProvider.get_llm]. *)
Definition get_llm (env : Providers) (provider : string) : Outcome LLM :=
  if String.eqb provider "groq" then get_groq_llm env
  else if String.eqb provider "gemini" then get_gemini_llm env
  else Raised ("Unknown provider: " ++ provider)%string.

(** [get_user_memory]: the session of [uid], created on first use. *)
Definition get_user_memory (st : State) (uid : string) : ChatMemory * State :=
  match user_sessions st !! uid with
  | Some memory => (memory, st)
  | None =>
      let memory := new_memory uid true DEFAULT_MAX_MESSAGES in
      (memory, mkState (<[uid := memory]> (user_sessions st)) (database st))
  end.

(** Step 6: system prompt, the history, and the new user turn. *)
Definition llm_messages (system_prompt : string) (history : list BaseMessage)
    (query : string) : list Message :=
  SystemMessage system_prompt :: map Turn history
  ++ [Turn (HumanMessage query [])].

(** [process_authenticated_query]; [clock k] is the [k]-th reading of the
    time.  A session object is shared with the dict that holds it, so each
    [add_message] is written back to [user_sessions]. *)
Definition process_authenticated_query (env : Providers) (clock : nat -> Z)
    (st : State) (uid query : string) (provider : option string)
    : QueryResult * State :=
  let system_prompt := system_prompt_for uid query in
  let '(memory, st1) := get_user_memory st uid in
  let '(memory1, db1) :=
    add_message (clock 0) query "human" None memory (database st1) in
  let st2 := mkState (<[uid := memory1]> (user_sessions st1)) db1 in
  let history := get_conversation_history memory1 in
  let provider := default (DEFAULT_LLM env) provider in
  match get_llm env provider with
  | Raised e => (Failure e uid, st2)
  | Returned llm =>
      let messages := llm_messages system_prompt history query in
      let answer :=
        match ainvoke env 0 llm messages with
        | Returned response => Returned (response, provider)
        | Raised invoke_error =>
            if negb (String.eqb provider "gemini") then
              match
                bind (get_gemini_llm env)
                  (fun fallback_llm => ainvoke env 1 fallback_llm messages)
              with
              | Returned response => Returned (response, "gemini")
              | Raised fallback_error =>
                  Raised ("Both " ++ DEFAULT_LLM env
                          ++ " and Gemini failed. Last error: "
                          ++ fallback_error)%string
              end
            else
              Raised ("Gemini failed (ultimate fallback): "
                      ++ invoke_error)%string
        end in
      match answer with
      | Raised e => (Failure e uid, st2)
      | Returned (response_text, provider) =>
          let '(memory2, db2) :=
            add_message (clock 1) response_text "ai" None memory1 db1 in
          (Success uid provider query response_text (clock 2),
           mkState (<[uid := memory2]> (user_sessions st2)) db2)
      end
  end.

(** The history of [uid] before a query, and the cap of its session. *)
Definition history_of (st : State) (uid : string) : list BaseMessage :=
  match user_sessions st !! uid with
  | Some memory => in_memory_messages memory
  | None => []
  end.

Definition cap_of (st : State) (uid : string) : Z :=
  match user_sessions st !! uid with
  | Some memory => max_messages memory
  | None => DEFAULT_MAX_MESSAGES
  end.

(** Every session has the cap [get_user_memory] creates sessions with. *)
Definition default_caps (st : State) : Prop :=
  forall uid memory,
    user_sessions st !! uid = Some memory ->
    max_messages memory = DEFAULT_MAX_MESSAGES.

(** The messages a query sends to the models: the history as it stands
    once the user turn is in memory, between the prompt and the query. *)
Definition messages_sent (clock : nat -> Z) (st : State) (uid query : string)
    : list Message :=
  let '(memory, st1) := get_user_memory st uid in
  let '(memory1, _) :=
    add_message (clock 0) query "human" None memory (database st1) in
  llm_messages (system_prompt_for uid query)
    (get_conversation_history memory1) query.

End Pipeline.

End Orchestrator.

(* ===================================================================== *)
(** * Sample collaborators *)
(* ===================================================================== *)

Module Samples.
Import Await PyStr PyNum Memory Fetcher Orchestrator.
Local Open Scope list_scope.

Definition salary : Transaction (F := float) (Doc := string) :=
  mkTransaction (Some "Income") (Some "Salary") (Some 1000%float) "salary".

Definition groceries : Transaction (F := float) (Doc := string) :=
  mkTransaction (Some "Expense") (Some "Food") (Some 12.5%float) "groceries".

Definition rent_due : Reminder (Doc := string) :=
  mkReminder false true "rent".

(** A document store whose goal service is down. *)
Definition goals_down
    : Services (F := float) (Doc := string) (GoalSummary := nat)
        (ReminderCounts := nat) :=
  mkServices
    (fun _ _ _ _ _ => Returned [salary; groceries])
    (fun _ => Raised "goal store unavailable")
    (fun _ => Raised "goal store unavailable")
    (fun _ => Returned [rent_due])
    (fun _ => Returned 1).

Definition three_intents : list string :=
  ["transactions"; "goals"; "reminders"].

Definition last_month : option Z * option Z := (Some 0%Z, Some 2592000%Z).

(** Providers whose primary model times out while Gemini answers. *)
Definition groq_times_out : Providers string :=
  mkProviders string "groq" (Returned "groq-model") (Returned "gemini-model")
    (fun _ llm _ =>
       if String.eqb llm "groq-model" then Raised "timeout"
       else Returned "You spent 60 on food.").

Definition empty_database : Database := mkDatabase [] (fun _ => true).

Definition fresh_state : State := mkState ∅ empty_database.

(** The pipeline with a trivial context and prompt. *)
Definition sample_query (env : Providers string) (st : State)
    (uid query : string) (provider : option string) : QueryResult * State :=
  process_authenticated_query string ascii_lower unit
    (fun _ _ _ => tt) (fun _ _ => "You are a finance assistant.")
    env (fun k => Z.of_nat k) st uid query provider.

End Samples.

(* ===================================================================== *)
(** * Further sample collaborators *)
(* ===================================================================== *)

Module MoreSamples.
Import Await PyStr PyNum Memory Fetcher Orchestrator.
Local Open Scope list_scope.

(** An expense recorded without its amount. *)
Definition unpriced : Transaction (F := float) (Doc := string) :=
  mkTransaction (Some "Expense") (Some "Food") None "unpriced".

(** A document store holding a salary and the unpriced expense. *)
Definition with_unpriced
    : Services (F := float) (Doc := string) (GoalSummary := nat)
        (ReminderCounts := nat) :=
  mkServices
    (fun _ _ _ _ _ => Returned [Samples.salary; unpriced])
    (fun _ => Returned [])
    (fun _ => Returned 0)
    (fun _ => Returned [])
    (fun _ => Returned 0).

(** Providers whose two models both fail. *)
Definition both_down : Providers string :=
  mkProviders string "groq" (Returned "groq-model") (Returned "gemini-model")
    (fun _ llm _ =>
       if String.eqb llm "groq-model" then Raised "timeout"
       else Raised "quota exceeded").

(** Providers whose primary model answers. *)
Definition groq_answers : Providers string :=
  mkProviders string "groq" (Returned "groq-model") (Returned "gemini-model")
    (fun _ llm _ =>
       if String.eqb llm "groq-model" then Returned "You spent 60 on food."
       else Raised "quota exceeded").

(** Providers configured with Gemini as the default, Gemini being down. *)
Definition gemini_first_down : Providers string :=
  mkProviders string "gemini" (Returned "groq-model") (Returned "gemini-model")
    (fun _ llm _ =>
       if String.eqb llm "gemini-model" then Raised "quota exceeded"
       else Returned "You spent 60 on food.").

End MoreSamples.

(* ===================================================================== *)
(** * Conversation buffer ([ConversationBuffer] of [chat_memory.py]) *)
(* ===================================================================== *)

Module Buffer.
Import Memory.
Local Open Scope list_scope.

(** A [ConversationBuffer] object. *)
Record ConversationBuffer := mkConversationBuffer {
  max_tokens : Z;
  current_tokens : Z;
  messages : list BaseMessage
}.

Definition DEFAULT_MAX_TOKENS : Z := 4096.
Definition DEFAULT_TOKEN_ESTIMATE : Z := 100.

(** [ConversationBuffer(max_tokens)]. *)
Definition new_buffer (cap : Z) : ConversationBuffer :=
  mkConversationBuffer cap 0 [].

(** [add_message]: the value returned and the buffer afterwards.  When the
    message does not fit, the oldest message is popped and the estimate of
    the new message is subtracted from the counter; the message is then
    appended without a second test. *)
Definition add_message (message : BaseMessage) (token_estimate : Z)
    (self : ConversationBuffer) : bool * ConversationBuffer :=
  if (max_tokens self <? current_tokens self + token_estimate)%Z then
    match messages self with
    | _ :: rest =>
        (true,
         mkConversationBuffer (max_tokens self)
           (current_tokens self - token_estimate + token_estimate)
           (rest ++ [message]))
    | [] => (false, self)
    end
  else
    (true,
     mkConversationBuffer (max_tokens self)
       (current_tokens self + token_estimate)
       (messages self ++ [message])).

Definition get_messages (self : ConversationBuffer) : list BaseMessage :=
  messages self.

Definition clear (self : ConversationBuffer) : ConversationBuffer :=
  mkConversationBuffer (max_tokens self) 0 [].

(** Adding messages one after the other, each with the same estimate. *)
Definition add_all (new_messages : list BaseMessage) (token_estimate : Z)
    (self : ConversationBuffer) : ConversationBuffer :=
  fold_left (fun buffer message => snd (add_message message token_estimate buffer))
    new_messages self.

End Buffer.

(* ===================================================================== *)
(** * Fast classifier ([app/ai/utils/fast_classifier.py]) *)
(* ===================================================================== *)

Module FastClassifier.
Import PyStr PyNum.
Local Open Scope list_scope.

Record IntentResult (F : Type) := mkIntentResult {
  primary_intent : string;
  confidence : F;
  keywords_matched : list string;
  requires_auth : bool
}.
Arguments mkIntentResult {F}.
Arguments primary_intent {F}.
Arguments confidence {F}.
Arguments keywords_matched {F}.
Arguments requires_auth {F}.

(** [INTENTS], in the order of the dict: for each intent its "keywords"
    and its "requires_auth". *)
Definition INTENTS : list (string * (list string * bool)) :=
  [ ("transactions",
     ([ "transaction"; "expense"; "income"; "spending"; "spent";
        "cost"; "price"; "paid"; "payment"; "charge"; "receipt";
        "money"; "cash"; "card"; "transfer"; "buy"; "purchase";
        "how much"; "total"; "sum"; "balance"; "account"; "history";
        "category"; "merchant"; "date"; "amount"; "last"; "recent";
        "previous"; "when"; "where"; "what" ], true));
    ("goals",
     ([ "goal"; "target"; "save"; "saving"; "savings target";
        "milestone"; "objective"; "achievement"; "reach"; "accumulate";
        "fund"; "budget"; "plan"; "progress"; "track";
        "how long"; "will i"; "can i"; "should i" ], true));
    ("reminders",
     ([ "reminder"; "remind"; "alert"; "notification"; "notify";
        "schedule"; "set"; "alarm"; "upcoming"; "due"; "payment due";
        "when"; "tell me"; "notify"; "remember" ], false));
    ("general_advice",
     ([ "how to"; "how do"; "what is"; "what are"; "why";
        "explain"; "help"; "best way"; "should i"; "can i";
        "tips"; "advice"; "guide"; "strategy"; "plan";
        "budget"; "save"; "invest"; "financial"; "money";
        "retirement"; "emergency"; "fund"; "debt"; "credit" ], false)) ].

Definition DEFAULT_INTENT : string := "general_advice".

Definition MIN_CONFIDENCE : Q := 0.3.

(** [INTENTS[name]["requires_auth"]]; [classify] only asks it of a key of
    [INTENTS]. *)
Definition requires_auth_of (name : string) : bool :=
  match find (fun e => String.eqb (fst e) name) INTENTS with
  | Some e => snd (snd e)
  | None => false
  end.

Section Classifier.
Context {F : Type} {ops : Arith F}.
Variable lower : string -> string.

(** [a / b] on two ints: the float nearest to the quotient. *)
Definition int_div (a b : nat) : F :=
  fdiv (lit (inject_Z (Z.of_nat a))) (lit (inject_Z (Z.of_nat b))).

(** [min(1.0, x)]: [x] when it is below [1.0]. *)
Definition min_one (x : F) : F :=
  if fltb x (lit 1) then x else lit 1.

(** The keywords of a list found in the lowered query, in order (a
    keyword listed twice is found twice). *)
Definition matched (query_lower : string) (keywords : list string)
    : list string :=
  List.filter (fun keyword => str_in keyword query_lower) keywords.

(** The confidence of an intent with matches. *)
Definition confidence_of (matched_keywords keywords : list string) : F :=
  min_one (int_div (length matched_keywords) (Nat.max (length keywords) 3)).

(** [intent_scores] after the loop: an entry for each intent with a match. *)
Definition intent_scores (query : string)
    : list (string * (F * list string)) :=
  flat_map
    (fun e =>
       match matched (lower query) (fst (snd e)) with
       | [] => []
       | matched_keywords =>
           [(fst e,
             (confidence_of matched_keywords (fst (snd e)), matched_keywords))]
       end)
    INTENTS.

(** [max(items, key=lambda x: x[1][0])]: the first item no later one
    exceeds. *)
Definition best (first : string * (F * list string))
    (others : list (string * (F * list string))) : string * (F * list string) :=
  fold_left (fun m e => if fltb (fst (snd m)) (fst (snd e)) then e else m)
    others first.

Definition classify (query : string) : IntentResult F :=
  let '(intent_name, (conf, found)) :=
    match intent_scores query with
    | first :: others => best first others
    | [] => (DEFAULT_INTENT, (lit MIN_CONFIDENCE, []))
    end in
  mkIntentResult intent_name conf found (requires_auth_of intent_name).

End Classifier.

(** [needs_personal_data]: [False] for a name that is no intent. *)
Definition needs_personal_data (intent : string) : bool :=
  requires_auth_of intent.

(** The confidences [classify] can compute from [INTENTS], and the
    default one. *)
Definition possible_confidences {F : Type} {ops : Arith F} : list F :=
  flat_map
    (fun e =>
       map (fun n => min_one (int_div n (Nat.max (length (fst (snd e))) 3)))
         (seq 1 (length (fst (snd e)))))
    INTENTS
  ++ [lit MIN_CONFIDENCE].

End FastClassifier.

(* ===================================================================== *)
(** * Fallback messages ([app/ai/llm/fallback.py]) *)
(* ===================================================================== *)

Module Fallback.
Import Await.
Local Open Scope list_scope.

(** The newline character. *)
Definition nl : string := String "010" EmptyString.

(** The [metadata] of a response dict, by the place that builds it:
    [get_fallback_message] (with [error] and [is_fallback] true), the
    authenticated handler (with [response_type] "authenticated"), the guest
    handler (with [response_type] "guest"). *)
Inductive Metadata :=
| FallbackMeta (error_type response_type : string)
| AuthenticatedMeta (user_id : string) (pii_masked : bool)
| GuestMeta (needs_authentication : bool) (intent : string) (pii_masked : bool).

(** A response dict: "text", "provider", "metadata". *)
Record Response := mkResponse {
  text : string;
  provider : string;
  metadata : Metadata
}.

Definition AUTHENTICATED_FALLBACKS : list (string * string) :=
  [ ("default",
     ("I'm having trouble processing your request right now. "
      ++ "Please try again in a moment.")%string);
    ("network_error",
     ("It seems I'm experiencing connection issues. "
      ++ "Please check your internet connection and try again.")%string);
    ("timeout",
     ("Your request is taking longer than expected. "
      ++ "Please try again with a shorter question.")%string);
    ("rate_limit",
     "I'm receiving too many requests. Please wait a moment before trying again.")
  ].

Definition GUEST_FALLBACKS : list (string * string) :=
  [ ("default",
     ("I'm here to help with general financial questions! 👋" ++ nl ++ nl
      ++ "For personalized advice based on your actual accounts and spending patterns, "
      ++ "please sign in." ++ nl ++ nl
      ++ "In the meantime, I can help with general financial concepts and best practices."
     )%string);
    ("network_error",
     ("I'm temporarily unavailable right now. "
      ++ "For personalized guidance, please sign in and try again later.")%string);
    ("timeout",
     ("Your request took too long to process. "
      ++ "Please sign in for more robust financial guidance.")%string);
    ("rate_limit",
     "I'm handling many requests. Please wait a moment before trying again.")
  ].

Definition FALLBACK_MESSAGES : list (string * list (string * string)) :=
  [ ("authenticated", AUTHENTICATED_FALLBACKS); ("guest", GUEST_FALLBACKS) ].

(** [d.get(key)]. *)
Fixpoint dict_get {A : Type} (d : list (string * A)) (key : string)
    : option A :=
  match d with
  | [] => None
  | (k, v) :: d' => if String.eqb k key then Some v else dict_get d' key
  end.

(** [d[key]]: a [KeyError], whose text is the quoted key, when absent. *)
Definition subscript {A : Type} (d : list (string * A)) (key : string)
    : Outcome A :=
  match dict_get d key with
  | Some v => Returned v
  | None => Raised ("'" ++ key ++ "'")%string
  end.

(** [get_fallback_message]: both defaults are evaluated before the [get]
    they are the default of. *)
Definition get_fallback_message (user_type error_type : string)
    : Outcome Response :=
  bind (subscript FALLBACK_MESSAGES "guest") (fun guest_messages =>
  let messages := default guest_messages (dict_get FALLBACK_MESSAGES user_type) in
  bind (subscript messages "default") (fun default_text =>
  let message_text := default default_text (dict_get messages error_type) in
  Returned
    (mkResponse message_text "fallback" (FallbackMeta error_type user_type)))).

End Fallback.

(* ===================================================================== *)
(** * Entry points ([process_query], [app/core/chat_routes.py]) *)
(* ===================================================================== *)

Module Routes.
Import Await Memory Orchestrator.
Local Open Scope list_scope.

(** The dict [process_query] returns: that of the authenticated pipeline,
    or the error for a request without user. *)
Inductive RoutedResult :=
| Authenticated (result : QueryResult)
| GuestRefused (error : string).

(** What the route [POST /api/chat/query] answers: a [ChatResponse] (its
    [intent] is always [None]), or an [HTTPException]. *)
Inductive HttpResult :=
| Ok (status response : string) (query : option string)
    (is_authenticated : bool) (timestamp : Z) (provider : string)
| HttpError (status_code : nat) (detail : string).

Section Routing.
Variable LLM : Type.
Variable lower : string -> string.
Variable PromptContext : Type.
Variable _fetch_user_context :
  string -> gmap string bool -> string -> PromptContext.
Variable _build_system_prompt : PromptContext -> gmap string bool -> string.

(** [AIOrchestrator.process_query]: a user id that is [None] or empty is
    no user. *)
Definition process_query (env : Providers LLM) (clock : nat -> Z) (st : State)
    (query : string) (user_id provider : option string)
    : RoutedResult * State :=
  let provider := default (DEFAULT_LLM LLM env) provider in
  let refused :=
    (GuestRefused "Guest queries should be handled in websocket handler", st) in
  match user_id with
  | Some uid =>
      if String.eqb uid "" then refused
      else
        let '(result, st') :=
          process_authenticated_query LLM lower PromptContext
            _fetch_user_context _build_system_prompt env clock st uid query
            (Some provider) in
        (Authenticated result, st')
  | None => refused
  end.

(** [chat_query], for a request body that passed validation;
    [orchestrator] is the outcome of [get_orchestrator]. *)
Definition chat_query (orchestrator : Outcome unit) (env : Providers LLM)
    (clock : nat -> Z) (st : State) (content : string)
    (provider user_id : option string) : HttpResult * State :=
  let listed :=
    match provider with
    | Some p => existsb (String.eqb p) ["grok"; "gemini"]
    | None => false
    end in
  if negb listed
  then (HttpError 400 "Provider must be 'grok' or 'gemini'", st)
  else
    match orchestrator with
    | Raised _ => (HttpError 500 "Internal server error", st)
    | Returned _ =>
        let '(result, st') := process_query env clock st content user_id provider in
        match result with
        | GuestRefused error => (HttpError 500 error, st')
        | Authenticated (Failure error _) => (HttpError 500 error, st')
        | Authenticated (Success _ _ query response timestamp) =>
            (Ok "success" response (Some query) true timestamp
               (default "" provider), st')
        end
    end.

End Routing.

End Routes.

(* ===================================================================== *)
(** * Message handlers ([app/websocket/response_handler.py]) *)
(* ===================================================================== *)

Module Handler.
Import Await PyStr PyNum Masker Memory Orchestrator Fallback.
Local Open Scope list_scope.

(** [k.replace("_", " ")]. *)
Fixpoint replace_underscores (s : string) : string :=
  match s with
  | EmptyString => EmptyString
  | String c s' =>
      String (if Ascii.eqb c "_" then " "%char else c) (replace_underscores s')
  end.

(** [sep.join(l)]. *)
Fixpoint join (sep : string) (l : list string) : string :=
  match l with
  | [] => EmptyString
  | [x] => x
  | x :: l' => (x ++ sep ++ join sep l')%string
  end.

(** [get_safety_message] of [pii_masker.py]. *)
Definition get_safety_message (result : MaskedMessage) : string :=
  if negb (has_sensitive_info result) then EmptyString
  else
    ("🔐 Sensitive info ("
     ++ join ", " (map (fun e => replace_underscores (fst e)) (pii_found result))
     ++ ") detected and partially masked for your privacy.")%string.

(** [GUEST_SIGNIN_PROMPT] of [guestTemplate.py]. *)
Definition GUEST_SIGNIN_PROMPT : string :=
  ("👋 To access personalized insights based on your real transactions, goals, "
   ++ "and reminders, please sign in." ++ nl ++ nl
   ++ "Once signed in, I can analyze your spending patterns, track savings progress, "
   ++ "and provide tailored financial recommendations.")%string.

(** The phrases by which the guest handler takes a message to ask for
    personal data. *)
Definition GUEST_PERSONAL_PHRASES : list string :=
  [ "my"; "i spent"; "my transactions"; "my goals";
    "my budget"; "my history"; "how much did i" ].

(** Steps 5 and 6 of both handlers: the safety note goes before the
    response when something was masked. *)
Definition with_safety_note (pii_result : MaskedMessage) (response : string)
    : string :=
  let safety_message := get_safety_message pii_result in
  if has_sensitive_info pii_result && negb (String.eqb safety_message "")
  then (safety_message ++ nl ++ nl ++ response)%string
  else response.

Section Handlers.
Variable LLM : Type.
Variable lower : string -> string.
Variable PromptContext : Type.
Variable _fetch_user_context :
  string -> gmap string bool -> string -> PromptContext.
Variable _build_system_prompt : PromptContext -> gmap string bool -> string.

(** [handle_authenticated_message]; [orchestrator] is the outcome of
    [get_orchestrator].  The calls of [WebSocketLogger] are taken to return
    and are left out, as is the unused [conversation_history]. *)
Definition handle_authenticated_message (orchestrator : Outcome unit)
    (env : Providers LLM) (clock : nat -> Z) (st : State)
    (user_id username message : string) : Outcome Response * State :=
  let pii_result := mask_message message in
  let masked_msg := masked pii_result in
  match orchestrator with
  | Raised _ => (get_fallback_message "authenticated" "default", st)
  | Returned _ =>
      let '(result, st') :=
        process_authenticated_query LLM lower PromptContext
          _fetch_user_context _build_system_prompt env clock st user_id
          masked_msg None in
      match result with
      | Failure _ _ => (get_fallback_message "authenticated" "default", st')
      | Success _ provider _ response_text _ =>
          (Returned
             (mkResponse (with_safety_note pii_result response_text) provider
                (AuthenticatedMeta user_id (has_sensitive_info pii_result))),
           st')
      end
  end.

(** [handle_guest_message]; [system_prompt] is the guest prompt rendered
    for the day.  The calls of [WebSocketLogger] are taken to return and are
    left out, as is the pause of 0.3 seconds. *)
Definition handle_guest_message (env : Providers LLM) (system_prompt : string)
    (message : string) : Outcome Response :=
  let pii_result := mask_message message in
  let masked_msg := masked pii_result in
  let intent_result := FastClassifier.classify (F := float) lower masked_msg in
  let needs_data :=
    FastClassifier.requires_auth intent_result
    || existsb (fun keyword => str_in keyword (lower masked_msg))
         GUEST_PERSONAL_PHRASES in
  let reply guest_response provider_used :=
    Returned
      (mkResponse (with_safety_note pii_result guest_response) provider_used
         (GuestMeta needs_data (FastClassifier.primary_intent intent_result)
            (has_sensitive_info pii_result))) in
  if needs_data then reply GUEST_SIGNIN_PROMPT "informational"
  else
    let messages :=
      [SystemMessage system_prompt; Turn (HumanMessage masked_msg [])] in
    match get_llm LLM env (DEFAULT_LLM LLM env) with
    | Raised _ => get_fallback_message "guest" "default"
    | Returned llm =>
        match ainvoke LLM env 0 llm messages with
        | Returned response => reply response (DEFAULT_LLM LLM env)
        | Raised _ =>
            if negb (String.eqb (DEFAULT_LLM LLM env) "gemini") then
              match
                bind (get_gemini_llm LLM env)
                  (fun fallback_llm => ainvoke LLM env 1 fallback_llm messages)
              with
              | Returned response => reply response "gemini"
              | Raised _ => get_fallback_message "guest" "default"
              end
            else get_fallback_message "guest" "default"
        end
    end.

End Handlers.

End Handler.

(* ===================================================================== *)
(** * Properties *)
(* ===================================================================== *)

Module PyStrFacts.
Import PyStr.

Lemma append_nil (t : string) : "" ++ t = t.
Proof. reflexivity. Qed.

Lemma append_cons (c : ascii) (s t : string) :
  String c s ++ t = String c (s ++ t).
Proof. reflexivity. Qed.

Lemma prefix_spec (p s : string) :
  String.prefix p s = true <-> exists t, s = p ++ t.
Proof.
  revert s; induction p as [|c p IH]; intros s; simpl.
  - split; [intros _; exists s; reflexivity | intros _; destruct s; reflexivity].
  - destruct s as [|d s]; simpl.
    + split; [discriminate | intros [t Ht]; discriminate].
    + destruct (ascii_dec c d) as [->|Hne].
      * rewrite IH. split; intros [t Ht]; exists t.
        -- now rewrite Ht.
        -- rewrite append_cons in Ht. now inversion Ht.
      * split; [discriminate | intros [t Ht]; rewrite append_cons in Ht; congruence].
Qed.

Lemma str_in_spec (sub s : string) :
  str_in sub s = true <-> is_substring sub s.
Proof.
  induction s as [|c s IH]; cbn [str_in].
  - rewrite orb_false_r, prefix_spec. split.
    + intros [t Ht]. exists "", t. exact Ht.
    + intros [pre [post H]]. destruct pre.
      * exists post. exact H.
      * rewrite append_cons in H. discriminate.
  - rewrite orb_true_iff, prefix_spec, IH. split.
    + intros [[t Ht] | [pre [post H]]].
      * exists "", t. exact Ht.
      * exists (String c pre), post. rewrite append_cons. now rewrite H.
    + intros [pre [post H]]. destruct pre as [|d pre].
      * left. exists post. exact H.
      * right. exists pre, post. rewrite append_cons in H. now inversion H.
Qed.

End PyStrFacts.

Module PyNumFacts.
Import PyNum.

(** The literals of the classifier denote the doubles Python reads. *)
Example lit_1_2 : lit (F := float) 1.2%Q = 0x1.3333333333333p+0%float.
Proof. reflexivity. Qed.

Example lit_0_4 : lit (F := float) 0.4%Q = 0x1.999999999999ap-2%float.
Proof. reflexivity. Qed.

Example lit_0_7 : lit (F := float) 0.7%Q = 0x1.6666666666666p-1%float.
Proof. reflexivity. Qed.

Example float_round_examples :
  float_round 4 (1 / 3)%float = 0.3333%float /\
  float_round 4 0.44444444444444442%float = 0.4444%float /\
  float_round 4 0.00005%float = 0.0001%float /\
  float_round 4 0.00015%float = 0.0001%float.
Proof. vm_compute. repeat split. Qed.

End PyNumFacts.

Module IntentFacts.
Import PyStr PyNum Intent PyStrFacts.

Section ClassifierFacts.
Context {F : Type} {ops : Arith F}.
Variable lower : string -> string.

Lemma plan_of_lookup (t g r : bool) :
  plan_of t g r !! "needs_transactions" = Some t /\
  plan_of t g r !! "needs_goals" = Some g /\
  plan_of t g r !! "needs_reminders" = Some r.
Proof. destruct t, g, r; vm_compute; repeat split. Qed.

Lemma insert_true_keeps (m : gmap string bool) (k k' : string) :
  m !! k = Some true -> <[k' := true]> m !! k = Some true.
Proof.
  intros Hk. destruct (decide (k' = k)) as [->|Hne].
  - apply lookup_insert_eq.
  - rewrite lookup_insert_ne; assumption.
Qed.

Lemma existsb_str_in (phrases : list string) (q : string) :
  existsb (fun phrase => str_in phrase q) phrases = true <->
  exists phrase, In phrase phrases /\ is_substring phrase q.
Proof.
  rewrite existsb_exists. split; intros [p [Hin Hp]]; exists p; split; auto;
    now apply str_in_spec.
Qed.

Lemma py_max_item_in (e : string * F) (d : list (string * F)) :
  In (py_max_item (e :: d)) (e :: d).
Proof.
  unfold py_max_item.
  assert (H : forall (l : list (string * F)) (m : string * F),
             In (fold_left
                   (fun m e' => if fltb (snd m) (snd e') then e' else m) l m)
                (m :: l)).
  { induction l as [|x l IH]; intros m; simpl.
    - now left.
    - destruct (fltb (snd m) (snd x)).
      + right. apply IH.
      + destruct (IH m) as [H | H]; [now left | now right; right]. }
  apply H.
Qed.

Lemma intent_scores_unfold (query : string) :
  intent_scores lower query
  = [ ("transactions", accumulate (lower query) TRANSACTIONS_KEYWORDS);
      ("goals", accumulate (lower query) GOALS_KEYWORDS);
      ("reminders", accumulate (lower query) REMINDERS_KEYWORDS) ].
Proof. reflexivity. Qed.


Lemma normalized_unfold (query : string) :
  normalized lower query
  = map (fun e => (fst e, fdiv (snd e) (total_score lower query)))
        (intent_scores lower query).
Proof. reflexivity. Qed.


Lemma winner_is_a_category (query : string) :
  In (fst (py_max_item (normalized lower query)))
     ["transactions"; "goals"; "reminders"].
Proof.
  change ["transactions"; "goals"; "reminders"]
    with (map fst (normalized lower query)).
  apply in_map. unfold normalized, intent_scores, INTENT_KEYWORDS.
  cbn [map]. apply py_max_item_in.
Qed.

Lemma classify_primary (query : string) :
  primary_intent (classify lower query) = "general" \/
  primary_intent (classify lower query)
    = fst (py_max_item (normalized lower query)).
Proof.
  unfold classify.
  destruct (feqb _ _ || feqb _ _); [now left |].
  cbv zeta. destruct (fltb _ _); [now left | now right].
Qed.

Lemma secondary_fold_keeps (l : list (string * F)) (m : gmap string bool)
    (k : string) :
  m !! k = Some true ->
  fold_left
    (fun result s =>
       if fltb (lit 0.25) (snd s)
          && existsb (String.eqb (fst s)) ["transactions"; "goals"; "reminders"]
       then <[needs (fst s) := true]> result
       else result) l m !! k = Some true.
Proof.
  revert m; induction l as [|s l IH]; intros m Hk; simpl; [exact Hk |].
  apply IH. destruct (_ && _); [now apply insert_true_keeps | exact Hk].
Qed.

(** C3 (broad-phrase override): when the lowered query contains a phrase of
    [FETCH_ALL_PHRASES], the fetch plan is the dict with the three flags
    [needs_transactions], [needs_goals] and [needs_reminders] all true,
    whatever else the query contains. *)
Theorem broad_phrase_override (query phrase : string) :
  In phrase FETCH_ALL_PHRASES ->
  is_substring phrase (lower query) ->
  get_intents_for_fetch lower query = plan_of true true true /\
  get_intents_for_fetch lower query !! "needs_transactions" = Some true /\
  get_intents_for_fetch lower query !! "needs_goals" = Some true /\
  get_intents_for_fetch lower query !! "needs_reminders" = Some true.
Proof.
  intros Hin Hsub.
  assert (E : get_intents_for_fetch lower query = plan_of true true true).
  { unfold get_intents_for_fetch. cbv zeta.
    replace (existsb _ FETCH_ALL_PHRASES) with true; [reflexivity |].
    symmetry. apply existsb_str_in. now exists phrase. }
  rewrite E. split; [reflexivity | apply plan_of_lookup].
Qed.

(** C9 (no empty plan): for every query, the empty one included, at least
    one of the three category flags of the fetch plan is true. *)
Theorem fetch_plan_never_empty (query : string) :
  get_intents_for_fetch lower query !! "needs_transactions" = Some true \/
  get_intents_for_fetch lower query !! "needs_goals" = Some true \/
  get_intents_for_fetch lower query !! "needs_reminders" = Some true.
Proof.
  unfold get_intents_for_fetch. cbv zeta.
  destruct (existsb _ FETCH_ALL_PHRASES).
  { left. apply plan_of_lookup. }
  destruct (find _ MULTI_INTENT_PHRASES) as [[phrase intents]|] eqn:Hfind.
  { apply find_some in Hfind. destruct Hfind as [Hin _].
    unfold MULTI_INTENT_PHRASES in Hin. simpl in Hin.
    repeat (destruct Hin as [Hin | Hin];
            [injection Hin as _ <-; vm_compute; tauto |]).
    contradiction. }
  destruct (String.eqb _ "general") eqn:Hgen.
  { left. apply plan_of_lookup. }
  apply String.eqb_neq in Hgen.
  destruct (classify_primary query) as [Hp | Hp]; [contradiction |].
  rewrite Hp.
  pose proof (winner_is_a_category query) as Hw.
  set (primary := fst (py_max_item (normalized lower query))) in *.
  simpl in Hw. destruct Hw as [Hw | [Hw | [Hw | []]]];
    [left | right; left | right; right];
    apply secondary_fold_keeps; rewrite <- Hw; apply lookup_insert_eq.
Qed.

End ClassifierFacts.

(** C3 at the query "Give me an overview of my spending", which also holds
    a transactions keyword. *)
Lemma broad_phrase_override_witness :
  In "overview" FETCH_ALL_PHRASES /\
  is_substring "overview" (ascii_lower "Give me an overview of my spending") /\
  get_intents_for_fetch (F := float) ascii_lower
    "Give me an overview of my spending" = plan_of true true true.
Proof.
  assert (Hin : In "overview" FETCH_ALL_PHRASES) by (simpl; tauto).
  assert (Hsub : is_substring "overview"
                   (ascii_lower "Give me an overview of my spending"))
    by (apply str_in_spec; vm_compute; reflexivity).
  split; [exact Hin | split; [exact Hsub |]].
  exact (proj1 (broad_phrase_override (F := float) ascii_lower
                  "Give me an overview of my spending" "overview" Hin Hsub)).
Defined.

(** The empty query matches nothing and gets the plan with every flag. *)
Example empty_query_plan :
  get_intents_for_fetch (F := float) ascii_lower "" = plan_of true true true.
Proof. vm_compute. reflexivity. Qed.

(** ** Facts about the binary64 scores *)

Lemma merge_in (z : float) (xs ys : list float) :
  In z xs \/ In z ys -> In z (merge xs ys).
Proof.
  revert ys; induction xs as [|x xs IHx]; intros ys; simpl.
  - intros [[] | H]; exact H.
  - induction ys as [|y ys IHy]; intros H.
    + destruct H as [H | []]; exact H.
    + destruct (PrimFloat.Leibniz.eqb x y) eqn:Exy.
      * apply FloatAxioms.Leibniz.eqb_spec in Exy. subst y.
        destruct H as [[H | H] | [H | H]].
        -- now left.
        -- right. apply IHx. now left.
        -- now left.
        -- right. apply IHx. now right.
      * destruct (PrimFloat.ltb x y).
        -- destruct H as [[H | H] | H].
           ++ now left.
           ++ right. apply IHx. now left.
           ++ right. apply IHx. now right.
        -- destruct H as [H | [H | H]].
           ++ right. apply IHy. now left.
           ++ now left.
           ++ right. apply IHy. now right.
Qed.

Lemma accumulate_from_reachable (ql : string) (kws : list (string * Q))
    (sums : list float) (acc : float) :
  In acc sums ->
  In (fold_left
        (fun score kw =>
           if str_in (fst kw) ql then fadd score (lit (snd kw)) else score)
        kws acc)
     (fold_left (fun sums kw => add_weight sums (snd kw)) kws sums).
Proof.
  revert sums acc; induction kws as [|kw kws IH]; intros sums acc Hin;
    cbn [fold_left].
  - exact Hin.
  - apply IH. unfold add_weight. apply merge_in.
    destruct (str_in (fst kw) ql).
    + right. apply (in_map (fun s => fadd s (lit (snd kw)))). exact Hin.
    + now left.
Qed.

Lemma accumulate_reachable (ql : string) (kws : list (string * Q)) :
  In (accumulate ql kws) (reachable kws).
Proof. apply accumulate_from_reachable. now left. Qed.

Lemma reachable_transactions_ok :
  forallb zero_or_positive (reachable TRANSACTIONS_KEYWORDS) = true.
Proof. vm_compute. reflexivity. Qed.

Lemma reachable_goals_ok :
  forallb zero_or_positive (reachable GOALS_KEYWORDS) = true.
Proof. vm_compute. reflexivity. Qed.

Lemma reachable_reminders_ok :
  forallb zero_or_positive (reachable REMINDERS_KEYWORDS) = true.
Proof. vm_compute. reflexivity. Qed.

Lemma zero_or_positive_cases (s : float) :
  zero_or_positive s = true ->
  s = 0%float \/
  (PrimFloat.ltb 0 s = true /\ PrimFloat.eqb s 0 = false
   /\ PrimFloat.ltb s 0 = false).
Proof.
  unfold zero_or_positive. intros H. apply orb_true_iff in H.
  destruct H as [H | H].
  - left. now apply FloatAxioms.Leibniz.eqb_spec.
  - right. apply andb_true_iff in H. destruct H as [H H3].
    apply andb_true_iff in H. destruct H as [H1 H2].
    apply negb_true_iff in H2, H3. auto.
Qed.

Lemma score_zero_or_positive (ql : string) (kws : list (string * Q)) :
  forallb zero_or_positive (reachable kws) = true ->
  accumulate ql kws = 0%float \/
  (PrimFloat.ltb 0 (accumulate ql kws) = true
   /\ PrimFloat.eqb (accumulate ql kws) 0 = false
   /\ PrimFloat.ltb (accumulate ql kws) 0 = false).
Proof.
  intros Hall. apply zero_or_positive_cases.
  rewrite forallb_forall in Hall. apply Hall, accumulate_reachable.
Qed.

Section Binary64Facts.
Variable lower : string -> string.

Lemma three_scores (query : string) :
  exists s1 s2 s3,
    intent_scores (F := float) lower query
      = [("transactions", s1); ("goals", s2); ("reminders", s3)]
    /\ is_score s1 /\ is_score s2 /\ is_score s3.
Proof.
  exists (accumulate (lower query) TRANSACTIONS_KEYWORDS),
         (accumulate (lower query) GOALS_KEYWORDS),
         (accumulate (lower query) REMINDERS_KEYWORDS).
  split; [reflexivity |].
  split; [| split]; apply score_zero_or_positive.
  - exact reachable_transactions_ok.
  - exact reachable_goals_ok.
  - exact reachable_reminders_ok.
Qed.

(** No keyword matched at all whenever the largest accumulator is zero, and
    then the total is zero as well. *)
Lemma max_zero_total_zero (query : string) :
  feqb (max_score (F := float) lower query) (lit 0) = true ->
  feqb (total_score (F := float) lower query) (lit 0) = true.
Proof.
  unfold max_score, total_score.
  destruct (three_scores query) as (s1 & s2 & s3 & -> & H1 & H2 & H3).
  cbn [map snd py_max fold_left].
  change (lit (F := float) 0) with 0%float.
  change (@fltb float binary64) with PrimFloat.ltb.
  change (@feqb float binary64) with PrimFloat.eqb.
  change (@fsum float binary64) with float_sum.
  intros H.
  destruct H1 as [-> | (A1 & B1 & C1)];
  destruct H2 as [-> | (A2 & B2 & C2)];
  destruct H3 as [-> | (A3 & B3 & C3)];
  repeat first
    [ progress (cbv iota in H)
    | progress (change (PrimFloat.ltb 0 0) with false in H)
    | match goal with
      | A : PrimFloat.ltb ?a ?b = _ |- _ =>
          match type of H with
          | context [PrimFloat.ltb a b] => rewrite A in H
          end
      end
    | match type of H with
      | context [if PrimFloat.ltb ?a ?b then _ else _] =>
          lazymatch a with
          | context [PrimFloat.ltb _ _] => fail
          | _ => destruct (PrimFloat.ltb a b) eqn:?
          end
      end ];
  try congruence; vm_compute; reflexivity.
Qed.

(** C4 (unclassified criterion): [classify] answers ["general"] exactly
    when the total accumulated weight is zero or the winning intent's
    confidence, its accumulator divided by the total, is below the
    threshold 0.4; with a zero total the answer carries the fixed
    confidence 0.5.  The arithmetic is the code's, IEEE binary64. *)
Theorem classify_general_iff (query : string) :
  (primary_intent (classify (F := float) lower query) = "general" <->
     feqb (total_score (F := float) lower query) (lit 0) = true \/
     fltb (winning_confidence (F := float) lower query)
          (lit CONFIDENCE_THRESHOLD) = true)
  /\ (feqb (total_score (F := float) lower query) (lit 0) = true ->
      primary_intent (classify (F := float) lower query) = "general" /\
      confidence (classify (F := float) lower query) = lit 0.5)
  /\ (exists name score,
        In (name, score) (intent_scores (F := float) lower query) /\
        winning_confidence (F := float) lower query
        = fdiv score (total_score lower query)).
Proof.
  assert (Hratio : exists name score,
            In (name, score) (intent_scores (F := float) lower query) /\
            winning_confidence (F := float) lower query
            = fdiv score (total_score lower query)).
  { unfold winning_confidence.
    assert (Hin : In (py_max_item (normalized (F := float) lower query))
                     (normalized (F := float) lower query)).
    { rewrite normalized_unfold, intent_scores_unfold. cbn [map].
      apply py_max_item_in. }
    rewrite normalized_unfold in Hin at 2. apply in_map_iff in Hin.
    destruct Hin as ([name score] & <- & Hin). now exists name, score. }
  cut ((primary_intent (classify (F := float) lower query) = "general" <->
          feqb (total_score (F := float) lower query) (lit 0) = true \/
          fltb (winning_confidence (F := float) lower query)
               (lit CONFIDENCE_THRESHOLD) = true)
       /\ (feqb (total_score (F := float) lower query) (lit 0) = true ->
           primary_intent (classify (F := float) lower query) = "general" /\
           confidence (classify (F := float) lower query) = lit 0.5)).
  { intros [H1 H2]. split; [exact H1 | split; [exact H2 | exact Hratio]]. }
  clear Hratio.
  pose proof (max_zero_total_zero query) as Hmax.
  pose proof (winner_is_a_category (F := float) lower query) as Hwin.
  unfold classify.
  destruct (feqb (total_score lower query) (lit 0)) eqn:Ht.
  - cbn [orb primary_intent confidence]. split; [tauto | auto].
  - destruct (feqb (max_score lower query) (lit 0)) eqn:Hm.
    + specialize (Hmax eq_refl). discriminate.
    + cbn [orb]. cbv zeta.
      destruct (fltb (winning_confidence lower query) (lit CONFIDENCE_THRESHOLD))
        eqn:Hc; cbn [primary_intent].
      * split; [tauto | discriminate].
      * split; [| discriminate]. split.
        -- intros Hg. rewrite Hg in Hwin. simpl in Hwin.
           destruct Hwin as [Hw | [Hw | [Hw | []]]]; discriminate.
        -- intros [H | H]; discriminate.
Qed.

End Binary64Facts.

(** ** Normalisation *)






(** The total of that query does not depend on how [sum] adds floats. *)
Lemma spent_goal_total_plain :
  float_sum_plain (map snd (intent_scores (F := float) ascii_lower "spent goal"))
  = total_score (F := float) ascii_lower "spent goal".
Proof. vm_compute. reflexivity. Qed.

(** ** The query of the end-to-end scenario *)

Lemma find_none_no_match {A : Type} (q : string) (table : list (string * A)) :
  (forall p a, In (p, a) table -> ~ is_substring p q) ->
  find (fun e => str_in (fst e) q) table = None.
Proof.
  intros H. destruct (find _ table) as [[p a]|] eqn:E; [| reflexivity].
  apply find_some in E. destruct E as [Hin Hp]. cbn [fst] in Hp.
  apply str_in_spec in Hp. now apply H in Hin.
Qed.

(** C7, as amended: for "How much did I spend last week on food?" the fetch
    plan enables the transactions category only, and the extracted window
    is the trailing 14 days ending now (the offset [TIME_PATTERNS] gives
    "last week"); a query containing no temporal phrase gets the trailing
    30 days. *)
Theorem last_week_food_query (now : Z) :
  (get_intents_for_fetch (F := float) ascii_lower
     "How much did I spend last week on food?" = plan_of true false false
   /\ plan_of true false false !! "needs_transactions" = Some true
   /\ plan_of true false false !! "needs_goals" = Some false
   /\ plan_of true false false !! "needs_reminders" = Some false)
  /\ extract_time_range ascii_lower now
       "How much did I spend last week on food?"
     = (Some (now - timedelta_days 14)%Z, Some now)
  /\ (forall (lower : string -> string) (query : string),
        (forall p d, In (p, d) TIME_PATTERNS -> ~ is_substring p (lower query)) ->
        extract_time_range lower now query
        = (Some (now - timedelta_days 30)%Z, Some now)).
Proof.
  split; [| split].
  - split; [vm_compute; reflexivity | apply (plan_of_lookup true false false)].
  - unfold extract_time_range.
    replace (find _ TIME_PATTERNS) with (Some ("last week", Some 14%Z));
      [reflexivity | vm_compute; reflexivity].
  - intros lower query Hno. unfold extract_time_range.
    now rewrite (find_none_no_match _ _ Hno).
Qed.

(** The default window of the amended C7 at the query "show my goals". *)
Lemma last_week_food_query_witness :
  extract_time_range ascii_lower 0 "show my goals"
  = (Some (0 - timedelta_days 30)%Z, Some 0%Z).
Proof.
  apply (proj2 (proj2 (last_week_food_query 0)) ascii_lower "show my goals").
  intros p d Hin Hsub. apply str_in_spec in Hsub.
  unfold TIME_PATTERNS in Hin. simpl in Hin.
  repeat (destruct Hin as [Hin | Hin];
          [injection Hin as <- _; vm_compute in Hsub; discriminate |]).
  contradiction.
Defined.

(** C7 as stated fails: the window extracted for the scenario query does
    not start 7 days before [now]; it starts 14 days before. *)
Lemma last_week_is_not_seven_days :
  extract_time_range ascii_lower 0 "How much did I spend last week on food?"
    = (Some (-1209600000000)%Z, Some 0%Z) /\
  extract_time_range ascii_lower 0 "How much did I spend last week on food?"
    <> (Some (0 - timedelta_days 7)%Z, Some 0%Z).
Proof. split; [vm_compute; reflexivity | vm_compute; discriminate]. Qed.

End IntentFacts.

Module MaskerFacts.
Import PyStr Masker.

(** C5 (card masking): sanitising "card 4111111111111111" finds one credit
    card, keeps the first four and the last four digits of the run, puts
    eight ['*'] in place of the middle eight, and sets the sensitive flag. *)
Theorem card_masking :
  mask "card 4111111111111111"
  = mkMaskedMessage "card 4111111111111111" "card 4111********1111"
      [("credit_card", ["4111111111111111"])] true
  /\ masked (mask "card 4111111111111111")
     = "card " ++ take 4 "4111111111111111" ++ repeat_char "*" 8
       ++ last_n 4 "4111111111111111"
  /\ has_sensitive_info (mask_message "card 4111111111111111") = true.
Proof. vm_compute. repeat split. Qed.

(** The masking styles the class documents. *)
Example masking_styles :
  _mask_phone "9985487598" = "9985****98" /\
  _mask_card "4111111111111111" = "4111********1111" /\
  _mask_account_static "ACC123456789" = "ACC1******89" /\
  _mask_ssn "123-45-6789" = "123-**-6789" /\
  _mask_email "user@example.com" = "us**@example.com" /\
  masked (mask "my password is hunter2") = "my password is ********".
Proof. vm_compute. repeat split. Qed.

End MaskerFacts.

Module MemoryFacts.
Import Await Memory.
Local Open Scope list_scope.

Lemma slice_from_neg_last (A : Type) (cap : Z) (l : list A) :
  (1 <= cap)%Z ->
  slice_from (- cap) l = last_turns (Z.to_nat cap) l.
Proof.
  intros Hcap. unfold slice_from, last_turns.
  replace (- cap <? 0)%Z with true by (symmetry; apply Z.ltb_lt; lia).
  f_equal. lia.
Qed.

Lemma last_turns_all (A : Type) (n : nat) (l : list A) :
  length l <= n -> last_turns n l = l.
Proof.
  intros H. unfold last_turns.
  replace (length l - n) with 0 by lia. reflexivity.
Qed.

Lemma last_turns_length (A : Type) (n : nat) (l : list A) :
  length (last_turns n l) = Nat.min n (length l).
Proof. unfold last_turns. rewrite length_skipn. lia. Qed.

Lemma last_turns_snoc (A : Type) (n : nat) (l : list A) (x : A) :
  1 <= n -> last_turns n (last_turns n l ++ [x]) = last_turns n (l ++ [x]).
Proof.
  intros Hn. unfold last_turns.
  rewrite !length_app, length_skipn. cbn [length].
  destruct (le_lt_dec (length l) n) as [Hle | Hgt].
  - replace (length l - n) with 0 by lia. cbn [skipn].
    rewrite Nat.sub_0_r. reflexivity.
  - replace (length l - (length l - n) + 1 - n) with 1 by lia.
    replace (length l + 1 - n) with (S (length l - n)) by lia.
    rewrite (skipn_app (S (length l - n)) l [x]).
    replace (S (length l - n) - length l) with 0 by lia. cbn [skipn].
    assert (H : forall (k : list A), 1 <= length k -> skipn 1 (k ++ [x]) = skipn 1 k ++ [x]).
    { intros [|a k] Hk; [cbn in Hk; lia | reflexivity]. }
    rewrite H by (rewrite length_skipn; lia).
    rewrite skipn_skipn. repeat f_equal; lia.
Qed.

(** What one [add_message] leaves in memory, for a cap of at least one. *)
Lemma add_message_history (now : Z) (content message_type : string)
    (metadata : option Metadata) (self : ChatMemory) (db : Database) :
  (1 <= max_messages self)%Z ->
  in_memory_messages (fst (add_message now content message_type metadata self db))
  = last_turns (Z.to_nat (max_messages self))
      (in_memory_messages self
       ++ [if String.eqb message_type "human"
           then HumanMessage content (default [] metadata)
           else AIMessage content (default [] metadata)]).
Proof.
  intros Hcap. unfold add_message. cbn [fst in_memory_messages].
  replace (match metadata with Some m => m | None => [] end)
    with (default [] metadata) by (destruct metadata; reflexivity).
  set (appended := in_memory_messages self ++ _).
  destruct (max_messages self <? Z.of_nat (length appended))%Z eqn:E.
  - now apply slice_from_neg_last.
  - apply Z.ltb_ge in E. symmetry. apply last_turns_all. lia.
Qed.

Lemma add_message_cap (now : Z) (content message_type : string)
    (metadata : option Metadata) (self : ChatMemory) (db : Database) :
  max_messages (fst (add_message now content message_type metadata self db))
  = max_messages self.
Proof. reflexivity. Qed.

(** Every append leaves at most [max_messages] turns, for a cap of at
    least one. *)
Lemma add_message_within_cap (now : Z) (content message_type : string)
    (metadata : option Metadata) (self : ChatMemory) (db : Database) :
  (1 <= max_messages self)%Z ->
  (Z.of_nat (length (in_memory_messages
      (fst (add_message now content message_type metadata self db))))
   <= max_messages self)%Z.
Proof.
  intros Hcap. rewrite add_message_history by exact Hcap.
  rewrite last_turns_length. lia.
Qed.

Lemma append_all_history (now : Z) (turns : list (string * string))
    (self : ChatMemory) (db : Database) :
  (1 <= max_messages self)%Z ->
  length (in_memory_messages self) <= Z.to_nat (max_messages self) ->
  max_messages (fst (append_all now turns (self, db))) = max_messages self /\
  in_memory_messages (fst (append_all now turns (self, db)))
  = last_turns (Z.to_nat (max_messages self))
      (in_memory_messages self ++ map message_of turns).
Proof.
  intros Hcap. revert self db Hcap.
  induction turns as [|turn turns IH]; intros self db Hcap Hlen.
  - cbn. rewrite app_nil_r. split; [reflexivity |].
    symmetry. now apply last_turns_all.
  - unfold append_all. cbn [fold_left fst snd].
    destruct (add_message now (fst turn) (snd turn) None self db)
      as [self' db'] eqn:E.
    assert (Hcap' : max_messages self' = max_messages self).
    { change self' with (fst (self', db')). rewrite <- E. reflexivity. }
    assert (Hh : in_memory_messages self'
                 = last_turns (Z.to_nat (max_messages self))
                     (in_memory_messages self ++ [message_of turn])).
    { change self' with (fst (self', db')). rewrite <- E.
      rewrite add_message_history by exact Hcap. reflexivity. }
    specialize (IH self' db'). unfold append_all in IH.
    destruct IH as [IHc IHh].
    + lia.
    + rewrite Hh, last_turns_length, Hcap'. lia.
    + split; [now rewrite IHc |].
      rewrite IHh, Hcap', Hh. cbn [map].
      clear. set (n := Z.to_nat (max_messages self)).
      assert (Hn : 1 <= n \/ n = 0) by lia.
      destruct Hn as [Hn | Hn].
      * revert turns. intros turns.
        induction (map message_of turns) as [|y ys IHy] using rev_ind.
        -- rewrite !app_nil_r. unfold last_turns at 1.
           rewrite last_turns_length.
           replace (_ - n) with 0 by lia. reflexivity.
        -- rewrite !app_assoc.
           rewrite <- (last_turns_snoc _ n (_ ++ ys) y Hn).
           rewrite IHy.
           rewrite (last_turns_snoc _ n _ y Hn).
           now rewrite <- !app_assoc.
      * rewrite Hn. unfold last_turns. rewrite !Nat.sub_0_r.
        rewrite !skipn_all. reflexivity.
Qed.

(** The session cap for every cap of at least one: appending [N + 1]
    turns to a fresh session of cap [N] leaves exactly the last [N], the
    first appended being the one evicted, and no append ever leaves more
    than [N] turns in memory. *)
Lemma session_cap_ring_buffer (N : nat) (uid : string) (with_db : bool)
    (db : Database) (now : Z) (first : string * string)
    (others : list (string * string)) :
  1 <= N ->
  length others = N ->
  let self := new_memory uid with_db (Z.of_nat N) in
  let final := fst (append_all now (first :: others) (self, db)) in
  in_memory_messages final = map message_of others
  /\ length (in_memory_messages final) = N
  /\ (forall content message_type metadata (m : ChatMemory) (d : Database),
        max_messages m = Z.of_nat N ->
        length (in_memory_messages
                  (fst (add_message now content message_type metadata m d)))
        <= N).
Proof.
  intros HN Hlen self final.
  destruct (append_all_history now (first :: others) self db) as [_ Hh].
  { cbn. lia. }
  { cbn. lia. }
  subst final. rewrite Hh. cbn [max_messages in_memory_messages self new_memory].
  rewrite Nat2Z.id. cbn [app map].
  assert (E : last_turns N (message_of first :: map message_of others)
              = map message_of others).
  { unfold last_turns. cbn [length]. rewrite length_map, Hlen.
    replace (S N - N) with 1 by lia. reflexivity. }
  rewrite E. split; [reflexivity |]. split; [now rewrite length_map |].
  intros content message_type metadata m d Hm.
  pose proof (add_message_within_cap now content message_type metadata m d)
    as H. rewrite Hm in H. lia.
Qed.

(** C6 at the cap 0: the trimming slice [[-0:]] is the whole list, so the
    one turn appended to a fresh session of cap 0 stays in memory and the
    history is longer than the cap. *)
Theorem cap_zero_keeps_every_turn :
  let self := new_memory "user-1" false 0 in
  let after :=
    fst (add_message 0 "first" "human" None self
           (mkDatabase [] (fun _ => true))) in
  max_messages after = 0%Z
  /\ in_memory_messages after = [HumanMessage "first" []]
  /\ (max_messages after < Z.of_nat (length (in_memory_messages after)))%Z.
Proof. vm_compute. repeat split. Qed.

(** The cap in force in the orchestrator, 50, at a full session: the
    51st turn evicts the first. *)
Example default_cap_evicts_oldest :
  let turns := map (fun k => (String (ascii_of_nat (48 + k)) "", "human"))
                   (seq 0 51) in
  let final :=
    fst (append_all 0 turns
           (new_memory "user-1" false DEFAULT_MAX_MESSAGES,
            mkDatabase [] (fun _ => true))) in
  length (in_memory_messages final) = 50
  /\ in_memory_messages final = map message_of (skipn 1 turns).
Proof. vm_compute. repeat split. Qed.

End MemoryFacts.

Module FetcherFacts.
Import Await PyNum Fetcher.
Local Open Scope list_scope.

Section DataFetcherFacts.
Context {F : Type} {ops : Arith F}.
Context {Doc GoalSummary ReminderCounts : Type}.

Local Abbreviation Services := (@Services F Doc GoalSummary ReminderCounts).
Local Abbreviation Payload := (@Payload F Doc GoalSummary ReminderCounts).
Local Abbreviation IntentData := (@IntentData F Doc GoalSummary ReminderCounts).
Local Abbreviation Entry := (@Entry F Doc GoalSummary ReminderCounts).

(** The dict built from pairs holds, for each key that occurs, the entry
    of one of its occurrences (the last). *)
Lemma collect_pairs_lookup (pairs : list (string * Outcome IntentData))
    (name : string) :
  In name (map fst pairs) ->
  exists i result,
    pairs !! i = Some (name, result) /\
    fold_left (fun acc p => <[fst p := entry_of (snd p)]> acc) pairs
      (∅ : gmap string Entry) !! name = Some (entry_of result).
Proof.
  induction pairs as [|[k v] pairs IH] using rev_ind; [intros [] |].
  intros Hin. rewrite fold_left_app. cbn [fold_left fst snd].
  destruct (decide (k = name)) as [-> | Hne].
  - exists (length pairs), v. split.
    + rewrite lookup_app_r by lia. now rewrite Nat.sub_diag.
    + apply lookup_insert_eq.
  - rewrite map_app, in_app_iff in Hin. cbn in Hin.
    destruct Hin as [Hin | [Hin | []]]; [| contradiction].
    destruct (IH Hin) as (i & result & Hi & Hl).
    exists i, result. split.
    + rewrite lookup_app_l; [exact Hi |]. now apply lookup_lt_Some in Hi.
    + rewrite lookup_insert_ne by exact Hne. exact Hl.
Qed.

Lemma combine_imap_lookup (A B : Type) (f : nat -> A -> B) (l : list A)
    (i : nat) (a : A) (b : B) :
  combine l (imap f l) !! i = Some (a, b) -> l !! i = Some a /\ b = f i a.
Proof.
  revert f i; induction l as [|x l IH]; intros f i; [destruct i; discriminate |].
  destruct i as [|i]; cbn.
  - intros [= -> ->]. auto.
  - intros H. apply (IH (f ∘ S) i) in H. exact H.
Qed.

Lemma combine_imap_fst (A B : Type) (f : nat -> A -> B) (l : list A) :
  map fst (combine l (imap f l)) = l.
Proof.
  revert f; induction l as [|x l IH]; intros f; [reflexivity |].
  cbn. now rewrite IH.
Qed.

(** Each requested intent has an entry, and it is the entry of one of
    its own tasks. *)
Lemma multi_intent_lookup (svc : Services) (clock : nat -> Z) (now : Z)
    (uid : string) (intents : list string)
    (time_range : option Z * option Z) (query name : string) :
  In name intents ->
  exists i,
    intents !! i = Some name /\
    intents_data
      (fetch_multi_intent_data svc clock now uid intents time_range query)
      !! name
    = Some (entry_of (fetch_intent_data svc (clock i) uid name time_range query)).
Proof.
  intros Hin. unfold fetch_multi_intent_data, collect. cbn [intents_data].
  set (f := fun i name =>
              fetch_intent_data svc (clock i) uid name time_range query).
  destruct (collect_pairs_lookup (combine intents (imap f intents)) name)
    as (i & result & Hi & Hl).
  - now rewrite combine_imap_fst.
  - apply combine_imap_lookup in Hi. destruct Hi as [Hi ->].
    exists i. split; [exact Hi | exact Hl].
Qed.

(** [fetch_intent_data] always returns a result dict echoing its inputs. *)
Lemma fetch_intent_data_returns (svc : Services) (now : Z)
    (uid name : string) (time_range : option Z * option Z) (query : string) :
  exists r,
    fetch_intent_data svc now uid name time_range query = Returned r /\
    intent r = name /\ user_id r = uid /\ timestamp r = now.
Proof.
  unfold fetch_intent_data. destruct time_range as [start_date end_date].
  destruct (fetchers _ _ _ _ _ _) as [fetch_fn |]; [| eauto].
  destruct (fetch_fn tt); eauto.
Qed.

Lemma catching_returns (body : Outcome Payload)
    (on_error : string -> Payload) :
  catching body on_error
  = Returned match body with Returned p => p | Raised e => on_error e end.
Proof. destruct body; reflexivity. Qed.

Lemma fetch_failing_category (svc : Services) (now : Z) (uid : string)
    (time_range : option Z * option Z) (query : string) (c : Category) :
  category_fails svc uid time_range query c ->
  exists r,
    fetch_intent_data svc now uid (category_name c) time_range query
      = Returned r /\
    has_error_marker r = true.
Proof.
  intros [e He]. destruct time_range as [start_date end_date].
  unfold fetch_intent_data.
  destruct c; cbn in He |- *.
  - unfold _fetch_transactions. rewrite catching_returns.
    destruct He as [He | []].
    destruct (bind (get_transactions_by_user _ _ _ _ _ _) _) eqn:E1 in He;
      [discriminate |].
    eexists. split; [reflexivity |].
    destruct (get_transactions_by_user svc uid start_date end_date _ _)
      as [transactions |]; cbn in *; [| reflexivity].
    destruct (amounts_of "Income" transactions); cbn in *; [| reflexivity].
    destruct (amounts_of "Expense" transactions); cbn in *;
      [discriminate | reflexivity].
  - unfold _fetch_goals. rewrite catching_returns.
    eexists. split; [reflexivity |].
    destruct (get_goals_by_user svc uid); cbn; [| reflexivity].
    destruct (get_goal_summary svc uid); cbn; [| reflexivity].
    destruct He as [He | [He | []]]; discriminate.
  - unfold _fetch_reminders. rewrite catching_returns.
    eexists. split; [reflexivity |].
    destruct (get_reminders_by_user svc uid); cbn; [| reflexivity].
    destruct (count_reminders svc uid); cbn; [| reflexivity].
    destruct He as [He | [He | []]]; discriminate.
Qed.

Lemma fetch_healthy_category (svc : Services) (now : Z) (uid : string)
    (time_range : option Z * option Z) (query : string) (c : Category) :
  category_succeeds svc uid time_range query c ->
  exists r,
    fetch_intent_data svc now uid (category_name c) time_range query
      = Returned r /\
    has_error_marker r = false /\ is_populated (data r) = true.
Proof.
  intros Hok. destruct time_range as [start_date end_date].
  unfold fetch_intent_data.
  destruct c; cbn in Hok |- *.
  - unfold _fetch_transactions. rewrite catching_returns.
    eexists. split; [reflexivity |].
    specialize (Hok _ (or_introl eq_refl)). cbn [fst snd] in Hok.
    unfold MAX_CONTEXT_ITEMS in *.
    destruct (get_transactions_by_user svc uid start_date end_date _ _)
      as [transactions |]; cbn in *; [| congruence].
    destruct (amounts_of "Income" transactions); cbn in *; [| congruence].
    destruct (amounts_of "Expense" transactions); cbn in *;
      [split; reflexivity | congruence].
  - unfold _fetch_goals. rewrite catching_returns.
    eexists. split; [reflexivity |].
    pose proof (Hok _ (or_introl eq_refl)) as H1.
    pose proof (Hok _ (or_intror (or_introl eq_refl))) as H2.
    destruct (get_goals_by_user svc uid); cbn in *; [| congruence].
    destruct (get_goal_summary svc uid); cbn in *;
      [split; reflexivity | congruence].
  - unfold _fetch_reminders. rewrite catching_returns.
    eexists. split; [reflexivity |].
    pose proof (Hok _ (or_introl eq_refl)) as H1.
    pose proof (Hok _ (or_intror (or_introl eq_refl))) as H2.
    destruct (get_reminders_by_user svc uid); cbn in *; [| congruence].
    destruct (count_reminders svc uid); cbn in *;
      [split; reflexivity | congruence].
Qed.

(** C1 (partial-failure isolation): when the fetch of one category fails
    and the fetches of the other categories succeed, the call returns a
    result whose [intents_data] has an entry for every requested intent,
    each the result dict of that intent's own task; the failing category's
    entry carries an error marker, and every other category's entry has
    none and holds that category's records and summary. *)
Theorem partial_failure_isolation (svc : Services) (clock : nat -> Z)
    (now : Z) (uid : string) (intents : list string)
    (time_range : option Z * option Z) (query : string) (failing : Category) :
  category_fails svc uid time_range query failing ->
  (forall c, c <> failing -> category_succeeds svc uid time_range query c) ->
  let out :=
    fetch_multi_intent_data svc clock now uid intents time_range query in
  (forall name, In name intents ->
     exists i r,
       intents !! i = Some name /\
       fetch_intent_data svc (clock i) uid name time_range query = Returned r /\
       intents_data out !! name = Some (Fetched r) /\
       intent r = name /\ user_id r = uid)
  /\ (In (category_name failing) intents ->
      exists r,
        intents_data out !! category_name failing = Some (Fetched r) /\
        has_error_marker r = true)
  /\ (forall c, c <> failing -> In (category_name c) intents ->
      exists r,
        intents_data out !! category_name c = Some (Fetched r) /\
        has_error_marker r = false /\ is_populated (data r) = true).
Proof.
  intros Hfail Hok out. subst out.
  split; [| split].
  - intros name Hin.
    destruct (multi_intent_lookup svc clock now uid intents time_range query
                name Hin) as (i & Hi & Hl).
    destruct (fetch_intent_data_returns svc (clock i) uid name time_range query)
      as (r & Hr & Hn & Hu & _).
    exists i, r. rewrite Hl, Hr. auto.
  - intros Hin.
    destruct (multi_intent_lookup svc clock now uid intents time_range query
                _ Hin) as (i & Hi & Hl).
    destruct (fetch_failing_category svc (clock i) uid time_range query
                failing Hfail) as (r & Hr & Hm).
    exists r. rewrite Hl, Hr. auto.
  - intros c Hc Hin.
    destruct (multi_intent_lookup svc clock now uid intents time_range query
                _ Hin) as (i & Hi & Hl).
    destruct (fetch_healthy_category svc (clock i) uid time_range query
                c (Hok c Hc)) as (r & Hr & Hm & Hp).
    exists r. rewrite Hl, Hr. auto.
Qed.

(** C10 (unknown intent): for a name outside the four known intents,
    [fetch_intent_data] does not raise and sets no error: it returns the
    echoed intent and user id, the timestamp, and the empty [data]. *)
Theorem unknown_intent_empty_result (svc : Services) (now : Z)
    (uid name : string) (time_range : option Z * option Z) (query : string) :
  ~ In name ["transactions"; "goals"; "reminders"; "general"] ->
  fetch_intent_data svc now uid name time_range query
  = Returned (mkIntentData name uid now EmptyData None)
  /\ has_error_marker (mkIntentData (F := F) (Doc := Doc)
        (GoalSummary := GoalSummary) (ReminderCounts := ReminderCounts)
        name uid now EmptyData None) = false.
Proof.
  intros Hout. split; [| reflexivity].
  unfold fetch_intent_data, fetchers. destruct time_range as [s e].
  repeat match goal with
         | |- context [String.eqb name ?k] =>
             destruct (String.eqb_spec name k) as [-> | _];
             [exfalso; apply Hout; simpl; tauto |]
         end.
  reflexivity.
Qed.

End DataFetcherFacts.

(** C1 with the goal service down and the three categories requested. *)
Lemma partial_failure_isolation_witness :
  let out :=
    fetch_multi_intent_data Samples.goals_down (fun _ => 0%Z) 0%Z "user-1"
      Samples.three_intents Samples.last_month "food" in
  (exists r, intents_data out !! "goals" = Some (Fetched r)
             /\ has_error_marker r = true)
  /\ (exists r, intents_data out !! "transactions" = Some (Fetched r)
                /\ has_error_marker r = false
                /\ is_populated (data r) = true)
  /\ (exists r, intents_data out !! "reminders" = Some (Fetched r)
                /\ has_error_marker r = false
                /\ is_populated (data r) = true).
Proof.
  assert (Hfails : category_fails Samples.goals_down "user-1"
                     Samples.last_month "food" Goals).
  { exists "goal store unavailable". simpl. left. reflexivity. }
  assert (Hok : forall c, c <> Goals ->
                  category_succeeds Samples.goals_down "user-1"
                    Samples.last_month "food" c).
  { intros c Hc o Ho. destruct c; [| contradiction |]; vm_compute in Ho;
      repeat (destruct Ho as [Ho | Ho]; [now symmetry |]); contradiction. }
  destruct (partial_failure_isolation Samples.goals_down (fun _ => 0%Z) 0%Z
              "user-1" Samples.three_intents Samples.last_month "food" Goals
              Hfails Hok) as (_ & Hg & Hh).
  split; [| split].
  - apply Hg. simpl. tauto.
  - apply (Hh Transactions); [discriminate | simpl; tauto].
  - apply (Hh Reminders); [discriminate | simpl; tauto].
Defined.

(** C10 at the intent "budgets". *)
Lemma unknown_intent_empty_result_witness :
  fetch_intent_data Samples.goals_down 7%Z "user-1" "budgets"
    Samples.last_month "food"
  = Returned (mkIntentData "budgets" "user-1" 7%Z EmptyData None).
Proof.
  apply (unknown_intent_empty_result Samples.goals_down 7%Z "user-1" "budgets"
           Samples.last_month "food").
  simpl. intros [H | [H | [H | [H | []]]]]; discriminate.
Defined.

Lemma combine_fst_in (A B : Type) (l : list A) (l' : list B) (a : A) :
  length l' = length l -> In a l -> In a (map fst (combine l l')).
Proof.
  revert l'; induction l as [|x l IH]; intros [|y l'] Hlen Hin;
    cbn in *; try lia; try contradiction.
  destruct Hin as [-> | Hin]; [now left | right].
  apply IH; [lia | exact Hin].
Qed.

Lemma combine_lookup (A B : Type) (l : list A) (l' : list B) (i : nat)
    (a : A) (b : B) :
  combine l l' !! i = Some (a, b) -> l !! i = Some a /\ l' !! i = Some b.
Proof.
  revert l' i; induction l as [|x l IH]; intros [|y l'] [|i] H;
    cbn in *; try discriminate.
  - inversion H. auto.
  - now apply IH.
Qed.

(** The gathered results, whether a task returned or raised, each land
    under the intent of their own task. *)
Lemma collect_lookup (A B C : Type) (intents : list string)
    (results : list (Outcome (@IntentData float A B C))) (name : string) :
  length results = length intents ->
  In name intents ->
  exists i result,
    intents !! i = Some name /\ results !! i = Some result /\
    collect intents results !! name = Some (entry_of result).
Proof.
  intros Hlen Hin. unfold collect.
  destruct (collect_pairs_lookup (F := float) (combine intents results) name)
    as (i & result & Hi & Hl).
  - now apply combine_fst_in.
  - apply combine_lookup in Hi. destruct Hi as [Hi Hr].
    exists i, result. auto.
Qed.

End FetcherFacts.

Module OrchestratorFacts.
Import Await Memory MemoryFacts Orchestrator.
Local Open Scope list_scope.

Lemma last_turns_keeps_suffix (A : Type) (n : nat) (l suffix : list A) :
  length suffix <= n ->
  last_turns n (l ++ suffix) = last_turns (n - length suffix) l ++ suffix.
Proof.
  intros Hn. unfold last_turns. rewrite length_app.
  rewrite skipn_app.
  replace (length l + length suffix - n) with (length l - (n - length suffix))
    by lia.
  replace (length l - (n - length suffix) - length l) with 0 by lia.
  reflexivity.
Qed.

Section PipelineFacts.
Variable LLM : Type.
Variable lower : string -> string.
Variable PromptContext : Type.
Variable _fetch_user_context :
  string -> gmap string bool -> string -> PromptContext.
Variable _build_system_prompt : PromptContext -> gmap string bool -> string.

Local Abbreviation run_query :=
  (process_authenticated_query LLM lower PromptContext _fetch_user_context
     _build_system_prompt).
Local Abbreviation sent :=
  (messages_sent lower PromptContext _fetch_user_context _build_system_prompt).

Lemma get_user_memory_session (st : State) (uid : string) :
  in_memory_messages (fst (get_user_memory st uid)) = history_of st uid /\
  max_messages (fst (get_user_memory st uid)) = cap_of st uid /\
  database (snd (get_user_memory st uid)) = database st /\
  (forall other, other <> uid ->
     user_sessions (snd (get_user_memory st uid)) !! other
     = user_sessions st !! other).
Proof.
  unfold get_user_memory, history_of, cap_of.
  destruct (user_sessions st !! uid) as [memory |]; cbn; repeat split; auto.
  intros other Hne. now rewrite lookup_insert_ne.
Qed.

(** The sessions the orchestrator creates all have the default cap, and a
    query keeps it so. *)
Lemma default_caps_cap_of (st : State) (uid : string) :
  default_caps st -> cap_of st uid = DEFAULT_MAX_MESSAGES.
Proof.
  intros Hst. unfold cap_of.
  destruct (user_sessions st !! uid) as [memory |] eqn:E; [| reflexivity].
  exact (Hst uid memory E).
Qed.

Lemma default_caps_insert (st : State) (uid : string) (memory : ChatMemory)
    (db : Database) :
  default_caps st -> max_messages memory = DEFAULT_MAX_MESSAGES ->
  default_caps (mkState (<[uid := memory]> (user_sessions st)) db).
Proof.
  intros Hst Hm other memory'. cbn [user_sessions].
  destruct (decide (uid = other)) as [-> | Hne].
  - rewrite lookup_insert_eq. now intros [= <-].
  - rewrite lookup_insert_ne by exact Hne. apply Hst.
Qed.

Lemma run_query_keeps_default_caps (env : Providers LLM) (clock : nat -> Z)
    (st : State) (uid query : string) (provider : option string) :
  default_caps st ->
  default_caps (snd (run_query env clock st uid query provider)).
Proof.
  intros Hst. unfold process_authenticated_query.
  generalize (system_prompt_for lower PromptContext _fetch_user_context
                _build_system_prompt uid query). intros prompt.
  assert (Hm : max_messages (fst (get_user_memory st uid))
               = DEFAULT_MAX_MESSAGES).
  { destruct (get_user_memory_session st uid) as (_ & -> & _).
    now apply default_caps_cap_of. }
  assert (Hst1 : default_caps (snd (get_user_memory st uid))).
  { unfold get_user_memory.
    destruct (user_sessions st !! uid); [exact Hst |].
    now apply default_caps_insert. }
  destruct (get_user_memory st uid) as [memory st1]. cbn [fst snd] in *.
  pose proof (add_message_cap (clock 0) query "human" None memory
                (database st1)) as Hc1.
  destruct (add_message (clock 0) query "human" None memory (database st1))
    as [memory1 db1]. cbn [fst snd] in *.
  assert (Hst2 : default_caps
                   (mkState (<[uid := memory1]> (user_sessions st1)) db1)).
  { apply default_caps_insert; [exact Hst1 | congruence]. }
  destruct (get_llm LLM env _) as [llm |]; [| exact Hst2].
  match goal with
  | |- context [match ?answer with Returned _ => _ | Raised _ => _ end] =>
      destruct answer as [[response_text provider'] |]
  end; [| exact Hst2].
  pose proof (add_message_cap (clock 1) response_text "ai" None memory1 db1)
    as Hc2.
  destruct (add_message (clock 1) response_text "ai" None memory1 db1)
    as [memory2 db2]. cbn [fst snd] in *.
  apply (default_caps_insert _ uid memory2 db2 Hst2). congruence.
Qed.

(** C2 (fallback chain): when the primary provider's invocation raises
    and the invocation of the secondary, Gemini, returns, the result is a
    success whose provider is "gemini", and the history of that user is the
    old history with exactly the user turn and then the assistant turn
    appended, cut to the session's cap (50 in every session the
    orchestrator creates); no other session changes.  The primary is a
    provider other than Gemini, which has no fallback of its own. *)
Theorem fallback_chain (env : Providers LLM) (clock : nat -> Z) (st : State)
    (uid query : string) (provider : option string) (llm gemini : LLM)
    (invoke_error response : string) :
  default (DEFAULT_LLM LLM env) provider <> "gemini" ->
  get_llm LLM env (default (DEFAULT_LLM LLM env) provider) = Returned llm ->
  ainvoke LLM env 0 llm (sent clock st uid query) = Raised invoke_error ->
  get_gemini_llm LLM env = Returned gemini ->
  ainvoke LLM env 1 gemini (sent clock st uid query) = Returned response ->
  (2 <= cap_of st uid)%Z ->
  let out := run_query env clock st uid query provider in
  fst out = Success uid "gemini" query response (clock 2)
  /\ history_of (snd out) uid
     = last_turns (Z.to_nat (cap_of st uid))
         (history_of st uid ++ [HumanMessage query []; AIMessage response []])
  /\ (exists kept,
        history_of (snd out) uid
        = kept ++ [HumanMessage query []; AIMessage response []])
  /\ (forall other, other <> uid ->
        history_of (snd out) other = history_of st other).
Proof.
  intros Hprimary Hllm Hfail Hgemini Hok Hcap out. subst out.
  unfold messages_sent in Hfail, Hok.
  unfold process_authenticated_query.
  generalize dependent (system_prompt_for lower PromptContext
                          _fetch_user_context _build_system_prompt uid query).
  intros prompt Hfail Hok.
  destruct (get_user_memory_session st uid) as (Hh & Hc & Hd & Ho).
  destruct (get_user_memory st uid) as [memory st1]. cbn [fst snd] in *.
  pose proof (add_message_history (clock 0) query "human" None memory
                (database st1)) as Hh1.
  pose proof (add_message_cap (clock 0) query "human" None memory
                (database st1)) as Hc1.
  destruct (add_message (clock 0) query "human" None memory (database st1))
    as [memory1 db1]. cbn [fst snd] in *.
  rewrite Hllm, Hfail.
  replace (negb (String.eqb (default (DEFAULT_LLM LLM env) provider) "gemini"))
    with true
    by (symmetry; apply negb_true_iff, String.eqb_neq; exact Hprimary).
  rewrite Hgemini. cbn [bind]. rewrite Hok.
  pose proof (add_message_history (clock 1) response "ai" None memory1 db1)
    as Hh2.
  destruct (add_message (clock 1) response "ai" None memory1 db1)
    as [memory2 db2]. cbn [fst snd] in *.
  assert (Hnew : in_memory_messages memory2
                 = last_turns (Z.to_nat (cap_of st uid))
                     (history_of st uid
                      ++ [HumanMessage query []; AIMessage response []])).
  { rewrite Hh2 by lia. rewrite Hc1, Hc. rewrite Hh1 by lia.
    rewrite Hc, Hh. cbn [String.eqb Ascii.eqb Bool.eqb default].
    rewrite last_turns_snoc by lia.
    now rewrite <- app_assoc. }
  assert (Hlook : history_of
                    (mkState (<[uid := memory2]> (<[uid := memory1]>
                                                   (user_sessions st1))) db2)
                    uid = in_memory_messages memory2).
  { unfold history_of. cbn [user_sessions]. now rewrite lookup_insert_eq. }
  split; [reflexivity |]. cbn [snd user_sessions].
  split; [now rewrite Hlook |].
  split.
  - rewrite Hlook, Hnew.
    rewrite last_turns_keeps_suffix by (cbn [length]; lia).
    eexists. reflexivity.
  - intros other Hne. unfold history_of. cbn [user_sessions].
    rewrite !lookup_insert_ne by congruence. now rewrite Ho.
Qed.

End PipelineFacts.

(** C2 for a first query of "user-1": Groq times out, Gemini answers. *)
Lemma fallback_chain_witness :
  let out :=
    Samples.sample_query Samples.groq_times_out Samples.fresh_state "user-1"
      "How much did I spend last week on food?" None in
  fst out = Success "user-1" "gemini" "How much did I spend last week on food?"
              "You spent 60 on food." 2%Z
  /\ history_of (snd out) "user-1"
     = [HumanMessage "How much did I spend last week on food?" [];
        AIMessage "You spent 60 on food." []].
Proof.
  intros out. subst out. unfold Samples.sample_query.
  destruct (fallback_chain string PyStr.ascii_lower unit (fun _ _ _ => tt)
              (fun _ _ => "You are a finance assistant.")
              Samples.groq_times_out (fun k => Z.of_nat k) Samples.fresh_state
              "user-1" "How much did I spend last week on food?" None
              "groq-model" "gemini-model" "timeout" "You spent 60 on food.")
    as (Hr & Hh & _).
  - vm_compute. discriminate.
  - reflexivity.
  - reflexivity.
  - reflexivity.
  - reflexivity.
  - vm_compute. discriminate.
  - split; [exact Hr |]. rewrite Hh. vm_compute. reflexivity.
Defined.

End OrchestratorFacts.

(* ===================================================================== *)
(** * Further properties of the intent classifier *)
(* ===================================================================== *)

Module IntentProps.
Import PyStr PyNum Intent PyStrFacts IntentFacts.
Local Open Scope list_scope.

Section ClassifierProps.
Context {F : Type} {ops : Arith F}.
Variable lower : string -> string.

Lemma insert_asc_perm (x : string * F) (l : list (string * F)) :
  Permutation (insert_asc x l) (x :: l).
Proof.
  induction l as [|y l IH]; simpl; [reflexivity |].
  destruct (fltb (snd x) (snd y)); [reflexivity |].
  rewrite IH. apply perm_swap.
Qed.

Lemma sorted_desc_perm (l : list (string * F)) :
  Permutation (sorted_desc l) l.
Proof.
  unfold sorted_desc. rewrite <- Permutation_rev.
  assert (H : forall (l acc : list (string * F)),
             Permutation (fold_left (fun acc x => insert_asc x acc) l acc)
               (l ++ acc)).
  { clear l. induction l as [|x l IH]; intros acc; simpl; [reflexivity |].
    rewrite IH, insert_asc_perm. symmetry. apply Permutation_middle. }
  rewrite H, app_nil_r. symmetry. apply Permutation_rev.
Qed.

Lemma rounded_names (f : F -> F) (l : list (string * F)) :
  map fst (map (fun e => (fst e, f (snd e))) l) = map fst l.
Proof. induction l as [|e l IH]; simpl; [reflexivity | now rewrite IH]. Qed.

(** The names of the secondary intents [classify] computes, before the
    threshold test: those of the other categories with a positive share. *)
Lemma secondary_names (primary : string) (a b c : F) :
  In primary ["transactions"; "goals"; "reminders"] ->
  let names :=
    map fst
      (filter
         (fun e : string * F =>
            negb (String.eqb (fst e) primary) && fltb (lit 0) (snd e))
         [("transactions", a); ("goals", b); ("reminders", c)]) in
  List.NoDup names /\ length names <= 2 /\
  forall n, In n names ->
    In n ["transactions"; "goals"; "reminders"] /\ n <> primary.
Proof.
  intros Hp. simpl in Hp.
  destruct Hp as [<- | [<- | [<- | []]]]; cbv zeta;
    rewrite !filter_cons, filter_nil; simpl; repeat case_decide; simpl;
    (split; [repeat constructor; cbn [In]; intuition discriminate |]);
    (split; [lia |]);
    intros n Hn; intuition (subst; first [discriminate | tauto]).
Qed.

Lemma normalized_explicit (query : string) :
  normalized lower query
  = [ ("transactions",
       fdiv (accumulate (lower query) TRANSACTIONS_KEYWORDS)
         (total_score lower query));
      ("goals",
       fdiv (accumulate (lower query) GOALS_KEYWORDS)
         (total_score lower query));
      ("reminders",
       fdiv (accumulate (lower query) REMINDERS_KEYWORDS)
         (total_score lower query)) ].
Proof. reflexivity. Qed.

(** The three ways [classify] returns. *)
Lemma classify_cases (query : string) :
  let norm := normalized lower query in
  let primary := fst (py_max_item norm) in
  let secondary :=
    sorted_desc
      (map (fun e => (fst e, fround 4 (snd e)))
         (filter
            (fun e : string * F =>
               negb (String.eqb (fst e) primary) && fltb (lit 0) (snd e))
            norm)) in
  (primary_intent (classify lower query) = "general" /\
   secondary_intents (classify lower query) = []) \/
  ((primary_intent (classify lower query) = "general" \/
    primary_intent (classify lower query) = primary) /\
   secondary_intents (classify lower query) = secondary).
Proof.
  cbv zeta. unfold classify.
  destruct (feqb _ _ || feqb _ _); [left; split; reflexivity |].
  cbv zeta. destruct (fltb _ _); right; split; auto.
Qed.

(** X1 (shape of a classification): the primary intent [classify] returns
    is one of [VALID_INTENTS]; the secondary intents are data categories
    ("transactions", "goals", "reminders"), each at most once, never the
    primary intent, and there are at most two of them. *)
Theorem classification_is_well_formed (query : string) :
  In (primary_intent (classify lower query)) VALID_INTENTS /\
  List.NoDup (map fst (secondary_intents (classify lower query))) /\
  length (secondary_intents (classify lower query)) <= 2 /\
  forall s, In s (secondary_intents (classify lower query)) ->
    In (fst s) ["transactions"; "goals"; "reminders"] /\
    fst s <> primary_intent (classify lower query).
Proof.
  pose proof (winner_is_a_category lower query) as Hw.
  pose proof (classify_cases query) as Hc. cbv zeta in Hc.
  destruct Hc as [[Hp Hs] | [Hp Hs]]; rewrite Hs.
  { rewrite Hp. repeat split;
      [right; right; right; left; reflexivity | constructor | cbn; lia
      | destruct H | destruct H]. }
  clear Hs. rewrite normalized_explicit in Hw, Hp |- *.
  revert Hw Hp.
  generalize (fdiv (accumulate (lower query) TRANSACTIONS_KEYWORDS)
                (total_score lower query))
             (fdiv (accumulate (lower query) GOALS_KEYWORDS)
                (total_score lower query))
             (fdiv (accumulate (lower query) REMINDERS_KEYWORDS)
                (total_score lower query)).
  intros a b c.
  generalize (fst (py_max_item
                     [("transactions", a); ("goals", b); ("reminders", c)])).
  intros primary Hw Hp.
  pose proof (secondary_names primary a b c Hw) as Hn. cbv zeta in Hn.
  set (kept := filter _ [("transactions", a); ("goals", b); ("reminders", c)])
    in *.
  destruct Hn as [Hnd [Hlen Hin]].
  assert (Hperm : Permutation
            (map fst (sorted_desc
                        (map (fun e => (fst e, fround 4 (snd e))) kept)))
            (map fst kept)).
  { rewrite sorted_desc_perm. now rewrite rounded_names. }
  split; [| split; [| split]].
  - destruct Hp as [-> | ->]; [right; right; right; left; reflexivity |].
    cbn [In] in Hw. unfold VALID_INTENTS. cbn [In]. tauto.
  - eapply Permutation_NoDup; [symmetry; exact Hperm | exact Hnd].
  - rewrite <- (length_map fst), (Permutation_length Hperm). exact Hlen.
  - intros s Hs.
    assert (Hm : In (fst s) (map fst kept)).
    { eapply Permutation_in; [exact Hperm | now apply in_map]. }
    destruct (Hin _ Hm) as [Hcat Hne]. split; [exact Hcat |].
    destruct Hp as [-> | ->]; [| exact Hne].
    cbn [In] in Hcat. intros E. rewrite E in Hcat.
    intuition discriminate.
Qed.

(** ** The fetch plan *)

Lemma plan_set_transactions (t g r : bool) :
  <["needs_transactions" := true]> (plan_of t g r) = plan_of true g r.
Proof.
  unfold plan_of.
  rewrite (insert_insert_ne _ "needs_transactions" "needs_reminders")
    by discriminate.
  rewrite (insert_insert_ne _ "needs_transactions" "needs_goals")
    by discriminate.
  now rewrite insert_insert_eq.
Qed.

Lemma plan_set_goals (t g r : bool) :
  <["needs_goals" := true]> (plan_of t g r) = plan_of t true r.
Proof.
  unfold plan_of.
  rewrite (insert_insert_ne _ "needs_goals" "needs_reminders") by discriminate.
  now rewrite insert_insert_eq.
Qed.

Lemma plan_set_reminders (t g r : bool) :
  <["needs_reminders" := true]> (plan_of t g r) = plan_of t g true.
Proof. unfold plan_of. now rewrite insert_insert_eq. Qed.

Lemma needs_insert_plan (t g r : bool) (name : string) :
  In name ["transactions"; "goals"; "reminders"] ->
  exists t' g' r',
    <[needs name := true]> (plan_of t g r) = plan_of t' g' r' /\
    (t' || g' || r') = true.
Proof.
  intros Hn. cbn [In] in Hn. destruct Hn as [<- | [<- | [<- | []]]].
  - exists true, g, r. split; [apply plan_set_transactions | reflexivity].
  - exists t, true, r. split; [apply plan_set_goals | now destruct t].
  - exists t, g, true. split; [apply plan_set_reminders | now destruct t, g].
Qed.

Lemma secondary_fold_plan (l : list (string * F)) (t g r : bool) :
  (t || g || r) = true ->
  exists t' g' r',
    fold_left
      (fun result s =>
         if fltb (lit 0.25) (snd s)
            && existsb (String.eqb (fst s)) ["transactions"; "goals"; "reminders"]
         then <[needs (fst s) := true]> result
         else result) l (plan_of t g r) = plan_of t' g' r' /\
    (t' || g' || r') = true.
Proof.
  revert t g r; induction l as [|s l IH]; intros t g r Hsome; cbn [fold_left].
  - now exists t, g, r.
  - destruct (fltb (lit 0.25) (snd s)); cbn [andb]; [| now apply IH].
    destruct (existsb _ _) eqn:Hex; [| now apply IH].
    apply existsb_exists in Hex. destruct Hex as (name & Hin & Heq).
    apply String.eqb_eq in Heq. subst name.
    destruct (needs_insert_plan t g r (fst s) Hin) as (t' & g' & r' & -> & H').
    now apply IH.
Qed.

Lemma multi_intent_pairs (phrase : string) (intents : list string) :
  In (phrase, intents) MULTI_INTENT_PHRASES ->
  intents = ["transactions"; "goals"] \/ intents = ["goals"; "reminders"] \/
  intents = ["transactions"; "reminders"].
Proof.
  unfold MULTI_INTENT_PHRASES. cbn [In]. intros H.
  repeat (destruct H as [H | H]; [injection H as _ <-; tauto |]).
  contradiction.
Qed.

Lemma multi_intent_plan (intents : list string) :
  intents = ["transactions"; "goals"] \/ intents = ["goals"; "reminders"] \/
  intents = ["transactions"; "reminders"] ->
  let plan :=
    fold_left (fun result intent => <[needs intent := true]> result)
      intents (plan_of false false false) in
  plan = plan_of true true false \/ plan = plan_of false true true \/
  plan = plan_of true false true.
Proof.
  intros [-> | [-> | ->]]; cbv zeta; cbn [fold_left];
    [left | right; left | right; right].
  - change (needs "transactions") with "needs_transactions".
    change (needs "goals") with "needs_goals".
    now rewrite plan_set_transactions, plan_set_goals.
  - change (needs "reminders") with "needs_reminders".
    change (needs "goals") with "needs_goals".
    now rewrite plan_set_goals, plan_set_reminders.
  - change (needs "transactions") with "needs_transactions".
    change (needs "reminders") with "needs_reminders".
    now rewrite plan_set_transactions, plan_set_reminders.
Qed.

(** X2 (shape of the fetch plan): for every query the plan is the dict
    with exactly the three keys "needs_transactions", "needs_goals" and
    "needs_reminders" (no other key, such as "needs_general", is ever
    written), and at least one of the three flags is true. *)
Theorem fetch_plan_has_three_flags (query : string) :
  exists t g r,
    get_intents_for_fetch lower query = plan_of t g r /\
    (t || g || r) = true /\
    forall key,
      get_intents_for_fetch lower query !! key <> None <->
      In key ["needs_transactions"; "needs_goals"; "needs_reminders"].
Proof.
  assert (Hkeys : forall (t g r : bool) (key : string),
             plan_of t g r !! key <> None <->
             In key ["needs_transactions"; "needs_goals"; "needs_reminders"]).
  { intros t g r key. unfold plan_of. cbn [In]. split.
    - intros Hk.
      destruct (decide (key = "needs_reminders")) as [-> | N1]; [tauto |].
      destruct (decide (key = "needs_goals")) as [-> | N2]; [tauto |].
      destruct (decide (key = "needs_transactions")) as [-> | N3]; [tauto |].
      exfalso. apply Hk.
      rewrite !lookup_insert_ne by congruence. apply lookup_empty.
    - intros [<- | [<- | [<- | []]]];
        destruct (plan_of_lookup t g r) as (E1 & E2 & E3);
        unfold plan_of in E1, E2, E3; congruence. }
  cut (exists t g r,
         get_intents_for_fetch lower query = plan_of t g r /\
         (t || g || r) = true).
  { intros (t & g & r & E & Hsome). exists t, g, r.
    split; [exact E | split; [exact Hsome |]]. rewrite E. apply Hkeys. }
  clear Hkeys. unfold get_intents_for_fetch. cbv zeta.
  destruct (existsb _ FETCH_ALL_PHRASES).
  { now exists true, true, true. }
  destruct (find _ MULTI_INTENT_PHRASES) as [[phrase intents]|] eqn:Hfind.
  { apply find_some in Hfind. destruct Hfind as [Hin _].
    apply multi_intent_pairs in Hin.
    destruct (multi_intent_plan intents Hin) as [E | [E | E]];
      cbv zeta in E; rewrite E.
    - now exists true, true, false.
    - now exists false, true, true.
    - now exists true, false, true. }
  destruct (String.eqb _ "general") eqn:Hgen.
  { now exists true, true, true. }
  apply String.eqb_neq in Hgen.
  destruct (classify_primary lower query) as [Hp | Hp]; [contradiction |].
  rewrite Hp.
  destruct (needs_insert_plan false false false _
              (winner_is_a_category lower query))
    as (t & g & r & -> & Hsome).
  now apply secondary_fold_plan.
Qed.

(** X3 (phrases for two categories): when the lowered query holds no
    phrase of [FETCH_ALL_PHRASES] but holds a phrase of
    [MULTI_INTENT_PHRASES], exactly two of the three flags of the plan are
    true, whatever keywords the query holds besides. *)
Theorem multi_intent_phrase_selects_two (query phrase : string) :
  (forall p, In p FETCH_ALL_PHRASES -> ~ is_substring p (lower query)) ->
  In phrase (map fst MULTI_INTENT_PHRASES) ->
  is_substring phrase (lower query) ->
  get_intents_for_fetch lower query = plan_of true true false \/
  get_intents_for_fetch lower query = plan_of false true true \/
  get_intents_for_fetch lower query = plan_of true false true.
Proof.
  intros Hnone Hin Hsub. unfold get_intents_for_fetch. cbv zeta.
  destruct (existsb _ FETCH_ALL_PHRASES) eqn:Hall.
  { apply existsb_str_in in Hall. destruct Hall as (p & Hp & Hps).
    now apply Hnone in Hps. }
  destruct (find _ MULTI_INTENT_PHRASES) as [[found intents]|] eqn:Hfind.
  - apply find_some in Hfind. destruct Hfind as [Hf _].
    apply multi_intent_pairs in Hf. exact (multi_intent_plan intents Hf).
  - exfalso. apply in_map_iff in Hin. destruct Hin as ([p l] & <- & Hpl).
    apply (find_none _ _ Hfind) in Hpl. cbn [fst] in Hpl, Hsub.
    apply str_in_spec in Hsub. congruence.
Qed.

(** ** The time window *)

(** X4 (bounds of the time window): the window [extract_time_range]
    returns always ends at the present moment, and its start, when there is
    one, lies between 730 days before that moment and the moment itself. *)
Theorem time_window_bounds (now : Z) (query : string) :
  snd (extract_time_range lower now query) = Some now /\
  forall start,
    fst (extract_time_range lower now query) = Some start ->
    (now - timedelta_days 730 <= start <= now)%Z.
Proof.
  unfold extract_time_range.
  destruct (find _ TIME_PATTERNS) as [[pattern [days|]]|] eqn:Hfind;
    cbn [fst snd]; (split; [reflexivity |]); intros start Hs;
    try discriminate; injection Hs as <-.
  - apply find_some in Hfind. destruct Hfind as [Hin _].
    unfold TIME_PATTERNS in Hin. cbn [In] in Hin.
    repeat (destruct Hin as [Hin | Hin];
            [first [discriminate Hin
                   | injection Hin as _ <-; unfold timedelta_days; lia] |]).
    contradiction.
  - unfold timedelta_days. lia.
Qed.

(** X5 (a query about today): when the lowered query contains "today",
    whatever else it contains, the window starts and ends at the present
    moment: it has no width. *)
Theorem today_window_is_empty (now : Z) (query : string) :
  is_substring "today" (lower query) ->
  extract_time_range lower now query = (Some now, Some now).
Proof.
  intros Hsub. apply str_in_spec in Hsub.
  unfold extract_time_range, TIME_PATTERNS. cbn [find fst].
  rewrite Hsub. unfold timedelta_days. f_equal. f_equal. lia.
Qed.

Lemma find_skips_prefix {A : Type} (f : A -> bool) (l1 l2 : list A) :
  (forall x, In x l1 -> f x = false) -> find f (l1 ++ l2) = find f l2.
Proof.
  induction l1 as [|x l1 IH]; intros H; cbn [app find]; [reflexivity |].
  rewrite (H x) by now left. apply IH. intros y Hy. apply H. now right.
Qed.

(** X6 ("all" inside a word): when the lowered query contains none of the
    ten dated phrases ("today" ... "last year") and contains the letters
    "all" anywhere, also inside a word, the window has no start: every
    transaction up to now is in range. *)
Theorem all_inside_a_word_unbounds_window (now : Z) (query : string) :
  (forall p d, In (p, Some d) TIME_PATTERNS -> ~ is_substring p (lower query)) ->
  is_substring "all" (lower query) ->
  extract_time_range lower now query = (None, Some now).
Proof.
  intros Hnone Hall. apply str_in_spec in Hall.
  unfold extract_time_range.
  change TIME_PATTERNS
    with (firstn 10 TIME_PATTERNS ++ [("all", None); ("forever", None)]).
  rewrite find_skips_prefix.
  - cbn [find fst]. now rewrite Hall.
  - intros [p d] Hin. cbn [fst].
    destruct (str_in p (lower query)) eqn:Hp; [| reflexivity].
    exfalso. apply str_in_spec in Hp.
    unfold TIME_PATTERNS in Hin. cbn [firstn In] in Hin.
    repeat (destruct Hin as [Hin | Hin];
            [injection Hin as <- <-; eapply Hnone; [| exact Hp];
             unfold TIME_PATTERNS; cbn [In];
             repeat (first [left; reflexivity | right]) |]).
    contradiction.
Qed.

(** ** The keywords reported *)

Lemma not_listed (k : string) (found : list string) :
  existsb (String.eqb k) found = false -> ~ In k found.
Proof.
  intros H Hin. assert (E : existsb (String.eqb k) found = true).
  { apply existsb_exists. exists k. split; [exact Hin | apply String.eqb_refl]. }
  congruence.
Qed.

Lemma scan_table_keeps (ok : string -> Prop) (ql : string)
    (kws : list (string * Q)) (found : list string) :
  (forall kw, In kw kws -> str_in (fst kw) ql = true -> ok (fst kw)) ->
  List.NoDup found -> (forall k, In k found -> ok k) ->
  let found' :=
    fold_left
      (fun found kw =>
         if str_in (fst kw) ql && negb (existsb (String.eqb (fst kw)) found)
         then found ++ [fst kw] else found) kws found in
  List.NoDup found' /\ (forall k, In k found' -> ok k).
Proof.
  cbv zeta. revert found; induction kws as [|kw kws IH];
    intros found Hkw Hnd Hq; cbn [fold_left]; [now split |].
  apply IH.
  - intros kw' Hin. apply Hkw. now right.
  - destruct (str_in (fst kw) ql); cbn [andb]; [| exact Hnd].
    destruct (existsb _ found) eqn:Hex; cbn [negb]; [exact Hnd |].
    apply not_listed in Hex. apply NoDup_rev in Hnd.
    rewrite <- (rev_involutive (found ++ [fst kw])), rev_app_distr.
    apply NoDup_rev. cbn [rev app]. constructor; [| exact Hnd].
    now rewrite <- in_rev.
  - destruct (str_in (fst kw) ql) eqn:Hs; cbn [andb]; [| exact Hq].
    destruct (existsb _ found); cbn [negb]; [exact Hq |].
    intros k Hk. apply in_app_or in Hk. destruct Hk as [Hk | [<- | []]].
    + now apply Hq.
    + apply Hkw; [now left | exact Hs].
Qed.

(** X7 (reported keywords): the keywords [classify] reports hold no
    duplicate, and each of them is a keyword of some intent's table that
    occurs in the lowered query. *)
Theorem reported_keywords_are_matches (query : string) :
  List.NoDup (keywords (classify lower query)) /\
  forall k, In k (keywords (classify lower query)) ->
    is_substring k (lower query) /\
    exists intent table weight,
      In (intent, table) INTENT_KEYWORDS /\ In (k, weight) table.
Proof.
  set (ok := fun k : string =>
              is_substring k (lower query) /\
              exists intent table weight,
                In (intent, table) INTENT_KEYWORDS /\ In (k, weight) table).
  assert (Hfound : List.NoDup (found_keywords lower query) /\
                   forall k, In k (found_keywords lower query) -> ok k).
  { unfold found_keywords.
    assert (Hgen : forall (tables : list (string * list (string * Q)))
                          (found : list string),
               (forall e, In e tables -> In e INTENT_KEYWORDS) ->
               List.NoDup found -> (forall k, In k found -> ok k) ->
               List.NoDup
                 (fold_left
                    (fun found e =>
                       fold_left
                         (fun found kw =>
                            if str_in (fst kw) (lower query)
                               && negb (existsb (String.eqb (fst kw)) found)
                            then found ++ [fst kw] else found)
                         (snd e) found) tables found) /\
               forall k,
                 In k
                   (fold_left
                      (fun found e =>
                         fold_left
                           (fun found kw =>
                              if str_in (fst kw) (lower query)
                                 && negb (existsb (String.eqb (fst kw)) found)
                              then found ++ [fst kw] else found)
                           (snd e) found) tables found) -> ok k).
    { induction tables as [|e tables IH]; intros found Hsub Hnd Hq;
        cbn [fold_left]; [now split |].
      destruct (scan_table_keeps ok (lower query) (snd e) found) as [Hnd' Hq'];
        [| exact Hnd | exact Hq |].
      - intros [k w] Hin Hs. cbn [fst] in *. split.
        + now apply str_in_spec.
        + exists (fst e), (snd e), w. split; [| exact Hin].
          rewrite <- surjective_pairing. apply Hsub. now left.
      - cbv zeta in Hnd', Hq'. apply IH; [| exact Hnd' | exact Hq'].
        intros e' He'. apply Hsub. now right. }
    apply Hgen; [auto | constructor | intros k []]. }
  destruct Hfound as [Hnd Hq].
  unfold classify. destruct (feqb _ _ || feqb _ _).
  { cbn [keywords]. split; [constructor | intros k []]. }
  cbv zeta. destruct (fltb _ _); cbn [keywords]; split; auto.
Qed.

End ClassifierProps.

(** X3 at "Am I on track for the trip?": no broad phrase, the phrase
    "am i on track", and a plan for transactions and goals. *)
Lemma multi_intent_phrase_selects_two_witness :
  In "am i on track" (map fst MULTI_INTENT_PHRASES) /\
  is_substring "am i on track" (ascii_lower "Am I on track for the trip?") /\
  (get_intents_for_fetch (F := float) ascii_lower "Am I on track for the trip?"
     = plan_of true true false \/
   get_intents_for_fetch (F := float) ascii_lower "Am I on track for the trip?"
     = plan_of false true true \/
   get_intents_for_fetch (F := float) ascii_lower "Am I on track for the trip?"
     = plan_of true false true).
Proof.
  assert (Hnone : forall p, In p FETCH_ALL_PHRASES ->
            ~ is_substring p (ascii_lower "Am I on track for the trip?")).
  { intros p Hin Hsub. apply str_in_spec in Hsub.
    unfold FETCH_ALL_PHRASES in Hin. cbn [In] in Hin.
    repeat (destruct Hin as [<- | Hin]; [vm_compute in Hsub; discriminate |]).
    contradiction. }
  assert (Hin : In "am i on track" (map fst MULTI_INTENT_PHRASES)).
  { unfold MULTI_INTENT_PHRASES. cbn [map fst In]. tauto. }
  assert (Hsub : is_substring "am i on track"
                   (ascii_lower "Am I on track for the trip?")).
  { apply str_in_spec. vm_compute. reflexivity. }
  split; [exact Hin | split; [exact Hsub |]].
  exact (multi_intent_phrase_selects_two (F := float) ascii_lower
           "Am I on track for the trip?" "am i on track" Hnone Hin Hsub).
Defined.

(** X5 at "What did I spend today?", asked at moment 1000. *)
Lemma today_window_is_empty_witness :
  is_substring "today" (ascii_lower "What did I spend today?") /\
  extract_time_range ascii_lower 1000 "What did I spend today?"
    = (Some 1000%Z, Some 1000%Z).
Proof.
  assert (Hsub : is_substring "today" (ascii_lower "What did I spend today?")).
  { apply str_in_spec. vm_compute. reflexivity. }
  split; [exact Hsub |].
  exact (today_window_is_empty ascii_lower 1000 "What did I spend today?" Hsub).
Defined.

(** X6 at "Show my wallet balance": the "all" of "wallet". *)
Lemma all_inside_a_word_unbounds_window_witness :
  is_substring "all" (ascii_lower "Show my wallet balance") /\
  extract_time_range ascii_lower 1000 "Show my wallet balance"
    = (None, Some 1000%Z).
Proof.
  assert (Hnone : forall p d, In (p, Some d) TIME_PATTERNS ->
            ~ is_substring p (ascii_lower "Show my wallet balance")).
  { intros p d Hin Hsub. apply str_in_spec in Hsub.
    unfold TIME_PATTERNS in Hin. cbn [In] in Hin.
    repeat (destruct Hin as [Hin | Hin];
            [first [discriminate Hin
                   | injection Hin as <- _; vm_compute in Hsub; discriminate] |]).
    contradiction. }
  assert (Hall : is_substring "all" (ascii_lower "Show my wallet balance")).
  { apply str_in_spec. vm_compute. reflexivity. }
  split; [exact Hall |].
  exact (all_inside_a_word_unbounds_window ascii_lower 1000
           "Show my wallet balance" Hnone Hall).
Defined.

End IntentProps.

(* ===================================================================== *)
(** * Further properties of the PII masker *)
(* ===================================================================== *)

Module MaskerProps.
Import PyStr Regex Masker.
Local Open Scope list_scope.

(** The label of an entry of [PATTERNS]. *)
Local Abbreviation label_of :=
  (fun entry : string * regex * bool * (string -> string) =>
     fst (fst (fst entry))).

Lemma dict_set_not_empty (d : list (string * list string)) (key : string)
    (value : list string) :
  dict_set d key value <> [].
Proof.
  destruct d as [|[k v] d]; cbn [dict_set]; [discriminate |].
  destruct (String.eqb k key); discriminate.
Qed.

Lemma dict_set_fresh (d : list (string * list string)) (key : string)
    (value : list string) :
  ~ In key (map fst d) -> dict_set d key value = d ++ [(key, value)].
Proof.
  induction d as [|[k v] d IH]; intros Hfresh; cbn [dict_set app];
    [reflexivity |].
  destruct (String.eqb k key) eqn:E.
  - apply String.eqb_eq in E. exfalso. apply Hfresh. now left.
  - rewrite IH; [reflexivity |]. intros Hin. apply Hfresh. now right.
Qed.

(** A pattern that finds nothing leaves text and findings alone; one that
    finds something records its findings. *)
Lemma mask_step_cases (text : string) (found : list (string * list string))
    (entry : string * regex * bool * (string -> string)) :
  mask_step (text, found) entry = (text, found) \/
  exists first rest replaced,
    mask_step (text, found) entry
    = (replaced, dict_set found (label_of entry) (first :: rest)).
Proof.
  destruct entry as [[[label pattern] icase] mask_fn]. cbn [mask_step fst].
  destruct (findall icase pattern text) as [|first rest]; [now left |].
  right. now exists first, rest, (sub icase pattern mask_fn text 0).
Qed.

Lemma unflagged_fold (entries : list (string * regex * bool * (string -> string)))
    (text : string) (found : list (string * list string)) :
  snd (fold_left mask_step entries (text, found)) = [] ->
  found = [] /\ fst (fold_left mask_step entries (text, found)) = text.
Proof.
  revert text found; induction entries as [|entry entries IH];
    intros text found; cbn [fold_left]; [intros H; now split |].
  destruct (mask_step_cases text found entry)
    as [-> | (first & rest & replaced & ->)]; [apply IH |].
  intros H. apply IH in H. destruct H as [H _].
  now apply dict_set_not_empty in H.
Qed.

(** X8 (nothing is changed silently): when [mask_message] reports no
    sensitive information, the masked text is the original text, character
    for character, and nothing is recorded as found. *)
Theorem unflagged_text_is_unchanged (text : string) :
  has_sensitive_info (mask_message text) = false ->
  masked (mask_message text) = text /\ pii_found (mask_message text) = [] /\
  original (mask_message text) = text.
Proof.
  unfold mask_message, mask.
  pose proof (unflagged_fold PATTERNS text []) as H.
  destruct (fold_left mask_step PATTERNS (text, [])) as [masked_text found].
  cbn [fst snd has_sensitive_info masked pii_found original] in *.
  destruct found as [|entry found]; [| discriminate].
  intros _. destruct (H eq_refl) as [_ ->]. repeat split.
Qed.

Lemma labels_fold (entries : list (string * regex * bool * (string -> string)))
    (seen : list string) (text : string) (found : list (string * list string)) :
  List.NoDup (seen ++ map label_of entries) ->
  sublist (map fst found) seen ->
  (forall label values, In (label, values) found -> values <> []) ->
  sublist (map fst (snd (fold_left mask_step entries (text, found))))
    (seen ++ map label_of entries) /\
  (forall label values,
     In (label, values) (snd (fold_left mask_step entries (text, found))) ->
     values <> []).
Proof.
  revert seen text found; induction entries as [|entry entries IH];
    intros seen text found Hnd Hsub Hval; cbn [fold_left map].
  - rewrite app_nil_r. now split.
  - cbn [map] in Hnd.
    replace (seen ++ label_of entry :: map label_of entries)
      with ((seen ++ [label_of entry]) ++ map label_of entries) in *
      by now rewrite <- app_assoc.
    destruct (mask_step_cases text found entry)
      as [-> | (first & rest & replaced & ->)].
    + apply IH; [exact Hnd | now apply sublist_inserts_r | exact Hval].
    + assert (Hfresh : ~ In (label_of entry) (map fst found)).
      { intros Hin. apply list_elem_of_In in Hin.
        apply (elem_of_sublist _ _ _ Hin) in Hsub.
        apply list_elem_of_In in Hsub.
        apply NoDup_app_remove_r in Hnd.
        apply NoDup_remove_2 in Hnd. rewrite app_nil_r in Hnd. contradiction. }
      rewrite (dict_set_fresh _ _ _ Hfresh).
      apply IH; [exact Hnd | |].
      * rewrite map_app. apply sublist_app; [exact Hsub | reflexivity].
      * intros label values Hin. apply in_app_or in Hin.
        destruct Hin as [Hin | [Hin | []]]; [now apply Hval in Hin |].
        injection Hin as _ <-. discriminate.
Qed.

(** X9 (what is recorded as found): the labels under which [mask_message]
    records findings are labels of [PATTERNS], each at most once and in the
    order of [PATTERNS]; every recorded list of findings is non-empty; and
    the flag [has_sensitive_info] is set exactly when something is
    recorded. *)
Theorem findings_follow_the_patterns (text : string) :
  sublist (map fst (pii_found (mask_message text)))
    ["credit_card"; "ssn"; "phone"; "email"; "account_number"; "password"] /\
  (forall label values,
     In (label, values) (pii_found (mask_message text)) -> values <> []) /\
  (has_sensitive_info (mask_message text) = true <->
   pii_found (mask_message text) <> []).
Proof.
  unfold mask_message, mask.
  assert (Hnd : List.NoDup ([] ++ map label_of PATTERNS)).
  { cbn [app map PATTERNS fst].
    repeat constructor; cbn [In]; intuition discriminate. }
  destruct (labels_fold PATTERNS [] text [] Hnd) as [Hsub Hval];
    [constructor | intros label values [] |].
  destruct (fold_left mask_step PATTERNS (text, [])) as [masked_text found].
  cbn [fst snd has_sensitive_info pii_found] in *.
  split; [exact Hsub | split; [exact Hval |]].
  destruct found; split; congruence.
Qed.

(** X8 at a question that holds nothing sensitive. *)
Lemma unflagged_text_is_unchanged_witness :
  has_sensitive_info (mask_message "How do I start a budget?") = false /\
  masked (mask_message "How do I start a budget?")
    = "How do I start a budget?".
Proof.
  assert (H : has_sensitive_info (mask_message "How do I start a budget?")
              = false) by (vm_compute; reflexivity).
  split; [exact H |].
  exact (proj1 (unflagged_text_is_unchanged "How do I start a budget?" H)).
Defined.

End MaskerProps.

(* ===================================================================== *)
(** * Further properties of the chat memory *)
(* ===================================================================== *)

Module MemoryProps.
Import Await Memory MemoryFacts.
Local Open Scope list_scope.




End MemoryProps.

(* ===================================================================== *)
(** * Further properties of the data fetcher *)
(* ===================================================================== *)

Module FetcherProps.
Import Await PyNum Fetcher FetcherFacts.
Local Open Scope list_scope.

Section DataFetcherProps.
Context {F : Type} {ops : Arith F}.
Context {Doc GoalSummary ReminderCounts : Type}.

Local Abbreviation Services := (@Services F Doc GoalSummary ReminderCounts).
Local Abbreviation Payload := (@Payload F Doc GoalSummary ReminderCounts).
Local Abbreviation IntentData := (@IntentData F Doc GoalSummary ReminderCounts).
Local Abbreviation Entry := (@Entry F Doc GoalSummary ReminderCounts).
Local Abbreviation Transaction := (@Transaction F Doc).
Local Abbreviation Reminder := (@Reminder Doc).
Local Abbreviation CategoryEntry := (@CategoryEntry F).

(** ** The entries of a multi-intent fetch *)

Lemma fetch_intent_data_no_error (svc : Services) (now : Z)
    (uid name : string) (time_range : option Z * option Z) (query : string) :
  exists r,
    fetch_intent_data svc now uid name time_range query = Returned r /\
    error r = None /\ intent r = name /\ user_id r = uid.
Proof.
  unfold fetch_intent_data, fetchers. destruct time_range as [start_date end_date].
  destruct (String.eqb name "transactions").
  { unfold _fetch_transactions. rewrite catching_returns. eauto. }
  destruct (String.eqb name "goals").
  { unfold _fetch_goals. rewrite catching_returns. eauto. }
  destruct (String.eqb name "reminders").
  { unfold _fetch_reminders. rewrite catching_returns. eauto. }
  destruct (String.eqb name "general").
  { unfold _fetch_general. rewrite catching_returns. eauto. }
  eauto.
Qed.

Lemma collect_pairs_none (pairs : list (string * Outcome IntentData))
    (acc : gmap string Entry) (name : string) :
  fold_left (fun acc p => <[fst p := entry_of (snd p)]> acc) pairs acc !! name
    = None <->
  acc !! name = None /\ ~ In name (map fst pairs).
Proof.
  revert acc; induction pairs as [|[k v] pairs IH]; intros acc;
    cbn [fold_left map fst snd In]; [tauto |].
  rewrite IH. destruct (decide (k = name)) as [-> | Hne].
  - rewrite lookup_insert_eq. split; [intros [H _]; discriminate | tauto].
  - rewrite lookup_insert_ne by exact Hne. tauto.
Qed.

(** X11 (entries of a multi-intent fetch): [intents_data] has an entry
    for the requested intents and for nothing else; every entry is the
    result dict of a task (the ["error"]-only entry of a raised task never
    occurs), it names its intent and the user, and it has no top-level
    error key: a failed fetch shows inside [data] only. *)
Theorem entries_are_the_requested_intents (svc : Services) (clock : nat -> Z)
    (now : Z) (uid : string) (intents : list string)
    (time_range : option Z * option Z) (query name : string) :
  (intents_data
     (fetch_multi_intent_data svc clock now uid intents time_range query)
     !! name = None <-> ~ In name intents) /\
  (forall entry,
     intents_data
       (fetch_multi_intent_data svc clock now uid intents time_range query)
       !! name = Some entry ->
     exists r,
       entry = Fetched r /\ error r = None /\ intent r = name /\
       user_id r = uid).
Proof.
  split.
  - unfold fetch_multi_intent_data, collect. cbn [intents_data].
    rewrite collect_pairs_none, combine_imap_fst, lookup_empty. tauto.
  - intros entry Hentry.
    destruct (in_dec string_dec name intents) as [Hin | Hout].
    + destruct (multi_intent_lookup svc clock now uid intents time_range query
                  name Hin) as (i & _ & Hl).
      destruct (fetch_intent_data_no_error svc (clock i) uid name time_range
                  query) as (r & Hr & He & Hn & Hu).
      rewrite Hl, Hr in Hentry. injection Hentry as <-. now exists r.
    + exfalso. revert Hentry.
      unfold fetch_multi_intent_data, collect. cbn [intents_data].
      assert (Hnone : fold_left
                (fun acc p => <[fst p := entry_of (snd p)]> acc)
                (combine intents
                   (imap (fun i name =>
                            fetch_intent_data svc (clock i) uid name
                              time_range query) intents))
                (∅ : gmap string Entry) !! name = None).
      { rewrite collect_pairs_none, combine_imap_fst, lookup_empty. tauto. }
      rewrite Hnone. discriminate.
Qed.

(** ** Reminders by temporal status *)

Lemma firstn_within {A : Type} (n : nat) (l : list A) (x : A) :
  In x (firstn n l) -> In x l.
Proof.
  revert l; induction n as [|n IH]; intros [|y l]; cbn; try tauto.
  intros [-> | H]; [now left | right; now apply IH].
Qed.

Lemma in_filter {A : Type} (p : A -> bool) (l : list A) (x : A) :
  In x (filter (fun y => p y) l) <-> In x l /\ p x = true.
Proof.
  rewrite <- !list_elem_of_In, list_elem_of_filter.
  destruct (p x); cbn; intuition discriminate.
Qed.

(** X12 (reminders by status): in the data [_fetch_reminders] returns,
    each of the three lists holds at most [MAX_CONTEXT_ITEMS] reminders of
    the user; "today" holds reminders flagged [isToday], "overdue"
    reminders flagged [isOverdue], "upcoming" reminders with neither flag;
    and when the user has at most [MAX_CONTEXT_ITEMS] reminders, each of
    them is in at least one list. *)
Theorem reminders_by_status (svc : Services) (uid : string)
    (today upcoming overdue : list Reminder) (counts : ReminderCounts) :
  _fetch_reminders svc uid
    = Returned (RemindersData today upcoming overdue counts) ->
  exists reminders,
    get_reminders_by_user svc uid = Returned reminders /\
    (length today <= MAX_CONTEXT_ITEMS /\
     length upcoming <= MAX_CONTEXT_ITEMS /\
     length overdue <= MAX_CONTEXT_ITEMS) /\
    (forall r, In r today -> In r reminders /\ isToday r = true) /\
    (forall r, In r overdue -> In r reminders /\ isOverdue r = true) /\
    (forall r, In r upcoming ->
       In r reminders /\ isToday r = false /\ isOverdue r = false) /\
    (length reminders <= MAX_CONTEXT_ITEMS ->
     forall r, In r reminders -> In r today \/ In r upcoming \/ In r overdue).
Proof.
  unfold _fetch_reminders. rewrite catching_returns.
  destruct (get_reminders_by_user svc uid) as [reminders | e];
    cbn [bind]; [| discriminate].
  destruct (count_reminders svc uid) as [counts' | e];
    cbn [bind]; [| discriminate].
  intros H. injection H as <- <- <- _. exists reminders.
  split; [reflexivity |]. split.
  { rewrite !length_firstn. lia. }
  split; [| split; [| split]].
  - intros r Hr. apply firstn_within in Hr.
    apply (in_filter isToday) in Hr. exact Hr.
  - intros r Hr. apply firstn_within in Hr.
    apply (in_filter isOverdue) in Hr. exact Hr.
  - intros r Hr. apply firstn_within in Hr.
    apply (in_filter (fun r => negb (isOverdue r) && negb (isToday r))) in Hr.
    destruct Hr as [Hin Hflags]. apply andb_true_iff in Hflags.
    destruct Hflags as [H1 H2]. apply negb_true_iff in H1, H2. auto.
  - intros Hfew r Hr.
    assert (Hall : forall l : list Reminder,
               length l <= length reminders -> firstn MAX_CONTEXT_ITEMS l = l).
    { intros l Hl. apply firstn_all2. lia. }
    rewrite !Hall by apply length_filter.
    destruct (isToday r) eqn:Ht.
    { left. apply (in_filter isToday). auto. }
    destruct (isOverdue r) eqn:Ho.
    { right; right. apply (in_filter isOverdue). auto. }
    right; left.
    apply (in_filter (fun r => negb (isOverdue r) && negb (isToday r))).
    split; [exact Hr | now rewrite Ht, Ho].
Qed.

(** ** The category break-down *)

Lemma add_to_category_keeps (cat : string) (a : F)
    (cats : list (string * CategoryEntry)) :
  List.NoDup (map fst cats) ->
  List.NoDup (map fst (add_to_category cat a cats)) /\
  list_sum (map (fun c => count (snd c)) (add_to_category cat a cats))
    = S (list_sum (map (fun c => count (snd c)) cats)) /\
  (forall name,
     In name (map fst (add_to_category cat a cats)) <->
     name = cat \/ In name (map fst cats)).
Proof.
  induction cats as [|[c e] cats IH]; intros Hnd; cbn [add_to_category].
  - cbn. repeat split; try tauto; try (repeat constructor; tauto);
      intros [-> | []]; tauto.
  - destruct (String.eqb_spec c cat) as [-> | Hne].
    + cbn [map fst snd list_sum count In]. split; [exact Hnd |].
      split; [unfold list_sum; cbn [fold_right]; lia |].
      intros name. intuition congruence.
    + cbn [map fst] in Hnd. inversion Hnd as [|? ? Hfresh Hnd']. subst.
      destruct (IH Hnd') as (IH1 & IH2 & IH3).
      cbn [map fst snd list_sum In]. split; [| split].
      * constructor; [| exact IH1]. rewrite IH3. intros [E | Hin];
          [now subst | contradiction].
      * unfold list_sum in *. cbn [fold_right]. rewrite IH2. lia.
      * intros name. rewrite IH3. tauto.
Qed.

Lemma category_breakdown_keeps (transactions : list Transaction)
    (cats : list (string * CategoryEntry)) :
  List.NoDup (map fst cats) ->
  let cats' :=
    fold_left
      (fun cats t =>
         add_to_category (default "Other" (tx_category t))
           (default (lit 0) (tx_amount t)) cats)
      transactions cats in
  List.NoDup (map fst cats') /\
  list_sum (map (fun c => count (snd c)) cats')
    = length transactions + list_sum (map (fun c => count (snd c)) cats) /\
  (forall name,
     In name (map fst cats') <->
     In name (map fst cats) \/
     exists t, In t transactions /\ default "Other" (tx_category t) = name).
Proof.
  cbv zeta. revert cats; induction transactions as [|t ts IH]; intros cats Hnd;
    cbn [fold_left length In].
  - repeat split; try tauto. intros [H | (t & [] & _)]. exact H.
  - destruct (add_to_category_keeps (default "Other" (tx_category t))
                (default (lit 0) (tx_amount t)) cats Hnd) as (H1 & H2 & H3).
    destruct (IH _ H1) as (IH1 & IH2 & IH3).
    split; [exact IH1 | split; [rewrite IH2, H2; lia |]].
    intros name. rewrite IH3, H3. split.
    + intros [[-> | H] | (t' & Ht' & E)]; eauto.
    + intros [H | (t' & [<- | Ht'] & E)]; eauto.
Qed.

(** X13 (category break-down): in the summary [_fetch_transactions]
    returns, [total_transactions] is the number of transactions fetched;
    the break-down has one entry per category that occurs ("Other" for a
    transaction without category), no category twice, and its counts add
    up to the number of transactions. *)
Theorem category_breakdown_counts (svc : Services) (uid : string)
    (start_date end_date : option Z) (query : string)
    (transactions : list Transaction) (summary : TransactionSummary) :
  _fetch_transactions svc uid start_date end_date query
    = Returned (TransactionsData transactions summary) ->
  total_transactions summary = length transactions /\
  List.NoDup (map fst (categories summary)) /\
  list_sum (map (fun c => count (snd c)) (categories summary))
    = length transactions /\
  (forall name,
     In name (map fst (categories summary)) <->
     exists t, In t transactions /\ default "Other" (tx_category t) = name).
Proof.
  unfold _fetch_transactions. rewrite catching_returns.
  destruct (get_transactions_by_user svc uid start_date end_date _ _)
    as [fetched | e]; cbn [bind]; [| discriminate].
  destruct (amounts_of "Income" fetched); cbn [bind]; [| discriminate].
  destruct (amounts_of "Expense" fetched); cbn [bind]; [| discriminate].
  intros H. injection H as <- <-.
  cbn [total_transactions categories]. split; [reflexivity |].
  destruct (category_breakdown_keeps fetched []) as (H1 & H2 & H3);
    [constructor |].
  cbv zeta in H1, H2, H3. fold (category_breakdown fetched) in H1, H2, H3.
  split; [exact H1 | split].
  - rewrite H2. cbn. lia.
  - intros name. rewrite H3. cbn [map In]. tauto.
Qed.

(** ** A transaction without amount *)

Lemma amounts_of_missing (kind : string) (transactions : list Transaction)
    (t : Transaction) :
  In t transactions -> tx_type t = Some kind -> tx_amount t = None ->
  amounts_of kind transactions = Raised "'amount'".
Proof.
  intros Hin Hkind Hnone.
  induction transactions as [|t0 ts IH]; [destruct Hin |].
  cbn [amounts_of]. destruct Hin as [-> | Hin].
  - rewrite Hkind, String.eqb_refl, Hnone. reflexivity.
  - rewrite (IH Hin).
    destruct (match tx_type t0 with
              | Some ty => String.eqb ty kind
              | None => false
              end); [| reflexivity].
    destruct (tx_amount t0); reflexivity.
Qed.

Lemma amounts_of_raises (kind : string) (transactions : list Transaction)
    (e : string) :
  amounts_of kind transactions = Raised e -> e = "'amount'".
Proof.
  induction transactions as [|t0 ts IH]; cbn [amounts_of]; [discriminate |].
  destruct (match tx_type t0 with
            | Some ty => String.eqb ty kind
            | None => false
            end); [| exact IH].
  destruct (tx_amount t0); [| congruence].
  destruct (amounts_of kind ts); cbn [bind]; [discriminate |].
  intros H. injection H as <-. now apply IH.
Qed.

(** X14 (a transaction without amount): when the store returns an income
    or an expense that has no "amount" key, [_fetch_transactions] returns
    no transaction at all: its data is the error dict with the text of the
    [KeyError], ['amount']. *)
Theorem missing_amount_fails_the_fetch (svc : Services) (uid : string)
    (start_date end_date : option Z) (query : string)
    (transactions : list Transaction) (t : Transaction) :
  get_transactions_by_user svc uid start_date end_date
    (if String.eqb query "" then None else Some query) MAX_CONTEXT_ITEMS
    = Returned transactions ->
  In t transactions ->
  tx_type t = Some "Income" \/ tx_type t = Some "Expense" ->
  tx_amount t = None ->
  _fetch_transactions svc uid start_date end_date query
    = Returned (TransactionsError "'amount'").
Proof.
  intros Hfetch Hin Hkind Hnone.
  unfold _fetch_transactions. rewrite catching_returns, Hfetch. cbn [bind].
  destruct Hkind as [Hkind | Hkind].
  - now rewrite (amounts_of_missing "Income" transactions t Hin Hkind Hnone).
  - rewrite (amounts_of_missing "Expense" transactions t Hin Hkind Hnone).
    destruct (amounts_of "Income" transactions) as [incomes | e] eqn:E;
      cbn [bind]; [reflexivity |].
    now rewrite (amounts_of_raises _ _ _ E).
Qed.

End DataFetcherProps.

(** X12 with one reminder due today. *)
Lemma reminders_by_status_witness :
  _fetch_reminders Samples.goals_down "user-1"
    = Returned (RemindersData [Samples.rent_due] [] [] 1) /\
  exists reminders,
    get_reminders_by_user Samples.goals_down "user-1" = Returned reminders /\
    forall r, In r [Samples.rent_due] -> In r reminders /\ isToday r = true.
Proof.
  assert (H : _fetch_reminders Samples.goals_down "user-1"
              = Returned (RemindersData [Samples.rent_due] [] [] 1))
    by reflexivity.
  split; [exact H |].
  destruct (reminders_by_status Samples.goals_down "user-1"
              [Samples.rent_due] [] [] 1 H)
    as (reminders & Hr & _ & Ht & _).
  exists reminders. split; [exact Hr | exact Ht].
Defined.

(** X13 with a salary and a purchase of groceries. *)
Lemma category_breakdown_counts_witness :
  exists summary,
    _fetch_transactions Samples.goals_down "user-1" None None "food"
      = Returned (TransactionsData [Samples.salary; Samples.groceries] summary)
    /\ total_transactions summary = 2
    /\ list_sum (map (fun c => count (snd c)) (categories summary)) = 2.
Proof.
  assert (H : exists summary,
            _fetch_transactions Samples.goals_down "user-1" None None "food"
            = Returned
                (TransactionsData [Samples.salary; Samples.groceries] summary)).
  { eexists. vm_compute. reflexivity. }
  destruct H as [summary H]. exists summary. split; [exact H |].
  destruct (category_breakdown_counts Samples.goals_down "user-1" None None
              "food" [Samples.salary; Samples.groceries] summary H)
    as (Ht & _ & Hc & _).
  split; [exact Ht | exact Hc].
Defined.

(** X14 with a salary and an expense that has no amount. *)
Lemma missing_amount_fails_the_fetch_witness :
  _fetch_transactions MoreSamples.with_unpriced "user-1" None None "food"
  = Returned (TransactionsError "'amount'").
Proof.
  apply (missing_amount_fails_the_fetch MoreSamples.with_unpriced "user-1"
           None None "food" [Samples.salary; MoreSamples.unpriced]
           MoreSamples.unpriced).
  - reflexivity.
  - cbn [In]. tauto.
  - right. reflexivity.
  - reflexivity.
Defined.

End FetcherProps.

(* ===================================================================== *)
(** * Further properties of the orchestrator *)
(* ===================================================================== *)

Module OrchestratorProps.
Import Await Memory MemoryFacts Orchestrator OrchestratorFacts.
Local Open Scope list_scope.

Section PipelineProps.
Variable LLM : Type.
Variable lower : string -> string.
Variable PromptContext : Type.
Variable _fetch_user_context :
  string -> gmap string bool -> string -> PromptContext.
Variable _build_system_prompt : PromptContext -> gmap string bool -> string.

Set Warnings "-inconsistent-scopes".

Local Abbreviation run_query :=
  (process_authenticated_query LLM lower PromptContext _fetch_user_context
     _build_system_prompt).
Local Abbreviation sent :=
  (messages_sent lower PromptContext _fetch_user_context _build_system_prompt).
Local Abbreviation prompt_for :=
  (system_prompt_for lower PromptContext _fetch_user_context
     _build_system_prompt).

(** The session of [uid] once the user turn is in memory, and the
    database then. *)
Local Abbreviation with_user_turn clock st uid query :=
  (add_message (clock 0%nat) query "human" None (fst (get_user_memory st uid))
     (database (snd (get_user_memory st uid)))).

(** The state when the query fails. *)
Local Abbreviation state_after_user_turn clock st uid query :=
  (mkState
     (<[uid := fst (with_user_turn clock st uid query)]>
        (user_sessions (snd (get_user_memory st uid))))
     (snd (with_user_turn clock st uid query))).

Lemma sent_unfold (clock : nat -> Z) (st : State) (uid query : string) :
  sent clock st uid query
  = llm_messages (prompt_for uid query)
      (in_memory_messages (fst (with_user_turn clock st uid query))) query.
Proof.
  unfold messages_sent. destruct (get_user_memory st uid) as [memory st1].
  cbn [fst snd]. destruct (add_message _ _ _ _ _ _). reflexivity.
Qed.

(** The pipeline, with the messages it sends named. *)
Lemma run_query_unfold (env : Providers LLM) (clock : nat -> Z) (st : State)
    (uid query : string) (provider : option string) :
  run_query env clock st uid query provider
  = let memory1 := fst (with_user_turn clock st uid query) in
    let db1 := snd (with_user_turn clock st uid query) in
    let st2 := state_after_user_turn clock st uid query in
    let primary := default (DEFAULT_LLM LLM env) provider in
    match get_llm LLM env primary with
    | Raised e => (Failure e uid, st2)
    | Returned llm =>
        match
          match ainvoke LLM env 0 llm (sent clock st uid query) with
          | Returned response => Returned (response, primary)
          | Raised invoke_error =>
              if negb (String.eqb primary "gemini") then
                match
                  bind (get_gemini_llm LLM env)
                    (fun fallback_llm =>
                       ainvoke LLM env 1 fallback_llm (sent clock st uid query))
                with
                | Returned response => Returned (response, "gemini")
                | Raised fallback_error =>
                    Raised ("Both " ++ DEFAULT_LLM LLM env
                            ++ " and Gemini failed. Last error: "
                            ++ fallback_error)%string
                end
              else
                Raised ("Gemini failed (ultimate fallback): "
                        ++ invoke_error)%string
          end
        with
        | Raised e => (Failure e uid, st2)
        | Returned (response_text, used) =>
            (Success uid used query response_text (clock 2%nat),
             mkState
               (<[uid := fst (add_message (clock 1%nat) response_text "ai" None
                                memory1 db1)]> (user_sessions st2))
               (snd (add_message (clock 1%nat) response_text "ai" None
                       memory1 db1)))
        end
    end.
Proof.
  rewrite sent_unfold. unfold process_authenticated_query. cbv zeta.
  destruct (get_user_memory st uid) as [memory st1]. cbn [fst snd].
  destruct (add_message (clock 0%nat) query "human" None memory (database st1))
    as [memory1 db1]. cbn [fst snd]. unfold get_conversation_history.
  destruct (get_llm LLM env _) as [llm |]; [| reflexivity].
  match goal with
  | |- context [match ?answer with Returned _ => _ | Raised _ => _ end] =>
      destruct answer as [[response_text used] |]
  end; [| reflexivity].
  destruct (add_message (clock 1%nat) response_text "ai" None memory1 db1).
  reflexivity.
Qed.

Lemma user_turn_recorded (clock : nat -> Z) (st : State) (uid query : string) :
  (1 <= cap_of st uid)%Z ->
  in_memory_messages (fst (with_user_turn clock st uid query))
  = last_turns (Z.to_nat (cap_of st uid))
      (history_of st uid ++ [HumanMessage query []]) /\
  max_messages (fst (with_user_turn clock st uid query)) = cap_of st uid.
Proof.
  intros Hcap. destruct (get_user_memory_session st uid) as (Hh & Hc & _).
  rewrite add_message_cap, Hc. split; [| reflexivity].
  rewrite add_message_history by lia. now rewrite Hh, Hc.
Qed.

Lemma history_of_insert (sessions : gmap string ChatMemory) (db : Database)
    (uid : string) (memory : ChatMemory) :
  history_of (mkState (<[uid := memory]> sessions) db) uid
  = in_memory_messages memory.
Proof. unfold history_of. cbn [user_sessions]. now rewrite lookup_insert_eq. Qed.

(** X15 (the query goes out twice): the messages sent to a model are the
    system prompt, the history as it stands once the user turn has been
    added to it, and the user turn once more: the list ends with two
    copies of the query. *)
Theorem query_is_sent_twice (clock : nat -> Z) (st : State)
    (uid query : string) :
  (1 <= cap_of st uid)%Z ->
  sent clock st uid query
  = SystemMessage (prompt_for uid query)
    :: map Turn
         (last_turns (Z.to_nat (cap_of st uid) - 1) (history_of st uid))
    ++ [Turn (HumanMessage query []); Turn (HumanMessage query [])].
Proof.
  intros Hcap. rewrite sent_unfold.
  destruct (user_turn_recorded clock st uid query Hcap) as [-> _].
  unfold llm_messages.
  rewrite (last_turns_keeps_suffix _ _ _ [HumanMessage query []])
    by (cbn [length]; lia).
  cbn [length]. rewrite map_app, <- app_assoc. reflexivity.
Qed.

(** X16 (the primary answers): when the model of the chosen provider
    returns, the result is a success with that provider and that response,
    whatever the state of the fallback model, and the history of the user
    is the old history with the user turn and the assistant turn appended,
    cut to the session's cap. *)
Theorem primary_answer_is_returned (env : Providers LLM) (clock : nat -> Z)
    (st : State) (uid query : string) (provider : option string) (llm : LLM)
    (response : string) :
  get_llm LLM env (default (DEFAULT_LLM LLM env) provider) = Returned llm ->
  ainvoke LLM env 0 llm (sent clock st uid query) = Returned response ->
  (1 <= cap_of st uid)%Z ->
  fst (run_query env clock st uid query provider)
  = Success uid (default (DEFAULT_LLM LLM env) provider) query response
      (clock 2%nat) /\
  history_of (snd (run_query env clock st uid query provider)) uid
  = last_turns (Z.to_nat (cap_of st uid))
      (history_of st uid ++ [HumanMessage query []; AIMessage response []]).
Proof.
  intros Hllm Hok Hcap. rewrite run_query_unfold. cbv zeta.
  rewrite Hllm, Hok. cbn [fst snd]. split; [reflexivity |].
  rewrite history_of_insert.
  destruct (user_turn_recorded clock st uid query Hcap) as [Hh Hc].
  rewrite add_message_history by lia. rewrite Hc, Hh.
  cbn [String.eqb Ascii.eqb Bool.eqb default].
  rewrite last_turns_snoc by lia. now rewrite <- app_assoc.
Qed.

(** X17 (a failed query keeps the user turn): whenever the result is an
    error, it names the user, and the user turn is in the history all the
    same, with no assistant turn after it. *)
Theorem failed_query_keeps_user_turn (env : Providers LLM) (clock : nat -> Z)
    (st : State) (uid query : string) (provider : option string)
    (error user : string) :
  fst (run_query env clock st uid query provider) = Failure error user ->
  (1 <= cap_of st uid)%Z ->
  user = uid /\
  history_of (snd (run_query env clock st uid query provider)) uid
  = last_turns (Z.to_nat (cap_of st uid))
      (history_of st uid ++ [HumanMessage query []]).
Proof.
  intros Hfail Hcap. rewrite run_query_unfold in Hfail |- *. cbv zeta in *.
  destruct (user_turn_recorded clock st uid query Hcap) as [Hh _].
  destruct (get_llm LLM env _) as [llm |].
  - match goal with
    | |- context [match ?answer with Returned _ => _ | Raised _ => _ end] =>
        destruct answer as [[response_text used] |]
    end; cbn [fst snd] in *; [discriminate |].
    injection Hfail as _ <-. now rewrite history_of_insert.
  - cbn [fst snd] in *. injection Hfail as _ <-.
    now rewrite history_of_insert.
Qed.

(** X18 (both models fail): when the model of a provider other than
    Gemini raises, and then Gemini cannot be obtained or raises as well,
    the result is the error "Both <default provider> and Gemini failed.
    Last error: <the second error>": it names the configured default
    provider, and the first error is not reported. *)
Theorem both_models_fail (env : Providers LLM) (clock : nat -> Z)
    (st : State) (uid query : string) (provider : option string) (llm : LLM)
    (first_error second_error : string) :
  default (DEFAULT_LLM LLM env) provider <> "gemini" ->
  get_llm LLM env (default (DEFAULT_LLM LLM env) provider) = Returned llm ->
  ainvoke LLM env 0 llm (sent clock st uid query) = Raised first_error ->
  (get_gemini_llm LLM env = Raised second_error \/
   exists gemini,
     get_gemini_llm LLM env = Returned gemini /\
     ainvoke LLM env 1 gemini (sent clock st uid query) = Raised second_error) ->
  fst (run_query env clock st uid query provider)
  = Failure ("Both " ++ DEFAULT_LLM LLM env
             ++ " and Gemini failed. Last error: " ++ second_error)%string
      uid.
Proof.
  intros Hprimary Hllm Hfirst Hsecond. rewrite run_query_unfold. cbv zeta.
  rewrite Hllm, Hfirst.
  replace (negb (String.eqb (default (DEFAULT_LLM LLM env) provider) "gemini"))
    with true
    by (symmetry; apply negb_true_iff, String.eqb_neq; exact Hprimary).
  destruct Hsecond as [-> | (gemini & -> & Hsecond)]; cbn [bind];
    [| rewrite Hsecond]; reflexivity.
Qed.

(** X19 (Gemini has no fallback): when the chosen provider is Gemini and
    its model raises, no other model is tried; the result is the error
    "Gemini failed (ultimate fallback): <the error>". *)
Theorem gemini_has_no_fallback (env : Providers LLM) (clock : nat -> Z)
    (st : State) (uid query : string) (provider : option string) (llm : LLM)
    (invoke_error : string) :
  default (DEFAULT_LLM LLM env) provider = "gemini" ->
  get_gemini_llm LLM env = Returned llm ->
  ainvoke LLM env 0 llm (sent clock st uid query) = Raised invoke_error ->
  fst (run_query env clock st uid query provider)
  = Failure ("Gemini failed (ultimate fallback): " ++ invoke_error)%string uid.
Proof.
  intros Hprimary Hllm Hfail. rewrite run_query_unfold. cbv zeta.
  rewrite Hprimary. unfold get_llm. cbn [String.eqb Ascii.eqb Bool.eqb].
  rewrite Hllm, Hfail. reflexivity.
Qed.

(** X20 (unknown provider): a provider name other than "groq" and
    "gemini" gives the error "Unknown provider: <name>" without any model
    being asked; the user turn has been stored by then. *)
Theorem unknown_provider_is_refused (env : Providers LLM) (clock : nat -> Z)
    (st : State) (uid query : string) (provider : option string) :
  default (DEFAULT_LLM LLM env) provider <> "groq" ->
  default (DEFAULT_LLM LLM env) provider <> "gemini" ->
  (1 <= cap_of st uid)%Z ->
  fst (run_query env clock st uid query provider)
  = Failure ("Unknown provider: " ++ default (DEFAULT_LLM LLM env) provider)%string
      uid /\
  history_of (snd (run_query env clock st uid query provider)) uid
  = last_turns (Z.to_nat (cap_of st uid))
      (history_of st uid ++ [HumanMessage query []]).
Proof.
  intros Hgroq Hgemini Hcap. rewrite run_query_unfold. cbv zeta.
  unfold get_llm.
  apply String.eqb_neq in Hgroq, Hgemini. rewrite Hgroq, Hgemini.
  cbn [fst snd]. split; [reflexivity |].
  rewrite history_of_insert.
  now destruct (user_turn_recorded clock st uid query Hcap) as [-> _].
Qed.

(** X21 (sessions are separate and bounded): a query of one user leaves
    the session of every other user as it was; and when every session has
    the default cap and holds at most 50 turns, the same is true after the
    query, whatever its outcome. *)
Theorem sessions_stay_separate_and_bounded (env : Providers LLM)
    (clock : nat -> Z) (st : State) (uid query : string)
    (provider : option string) :
  default_caps st ->
  (forall user memory,
     user_sessions st !! user = Some memory ->
     length (in_memory_messages memory) <= 50) ->
  (forall other, other <> uid ->
     user_sessions (snd (run_query env clock st uid query provider)) !! other
     = user_sessions st !! other) /\
  default_caps (snd (run_query env clock st uid query provider)) /\
  (forall user memory,
     user_sessions (snd (run_query env clock st uid query provider)) !! user
       = Some memory ->
     length (in_memory_messages memory) <= 50).
Proof.
  intros Hcaps Hlen.
  split; [| split; [now apply run_query_keeps_default_caps |]].
  - intros other Hne. rewrite run_query_unfold. cbv zeta.
    destruct (get_user_memory_session st uid) as (_ & _ & _ & Ho).
    destruct (get_llm LLM env _) as [llm |].
    + match goal with
      | |- context [match ?answer with Returned _ => _ | Raised _ => _ end] =>
          destruct answer as [[response_text used] |]
      end; cbn [snd user_sessions];
        rewrite !lookup_insert_ne by congruence; now apply Ho.
    + cbn [snd user_sessions]. rewrite lookup_insert_ne by congruence.
      now apply Ho.
  - assert (Hcap : cap_of st uid = 50%Z) by now apply default_caps_cap_of.
    assert (Hcap1 : (1 <= cap_of st uid)%Z) by lia.
    destruct (user_turn_recorded clock st uid query Hcap1) as [Hh Hc].
    destruct (get_user_memory_session st uid) as (_ & _ & _ & Ho).
    assert (Hone : forall user memory,
               user_sessions (state_after_user_turn clock st uid query) !! user
                 = Some memory ->
               length (in_memory_messages memory) <= 50).
    { intros user memory. cbn [user_sessions].
      destruct (decide (uid = user)) as [<- | Hne].
      - rewrite lookup_insert_eq. intros E.
        assert (memory = fst (with_user_turn clock st uid query)) as ->
          by congruence.
        rewrite Hh, last_turns_length, Hcap. lia.
      - rewrite lookup_insert_ne by exact Hne. rewrite Ho by congruence.
        apply Hlen. }
    intros user memory. rewrite run_query_unfold. cbv zeta.
    destruct (get_llm LLM env _) as [llm |]; [| apply Hone].
    match goal with
    | |- context [match ?answer with Returned _ => _ | Raised _ => _ end] =>
        destruct answer as [[response_text used] |]
    end; [| apply Hone].
    cbn [snd user_sessions].
    destruct (decide (uid = user)) as [<- | Hne].
    + rewrite lookup_insert_eq. intros E.
      assert (memory
              = fst (add_message (clock 1%nat) response_text "ai" None
                       (fst (with_user_turn clock st uid query))
                       (snd (with_user_turn clock st uid query)))) as ->
        by congruence.
      rewrite add_message_history by lia.
      rewrite last_turns_length, Hc, Hcap. lia.
    + rewrite lookup_insert_ne by exact Hne. apply Hone.
Qed.

End PipelineProps.

(** The sample pipeline: a trivial context and prompt, and a clock that
    counts its readings. *)
Local Abbreviation sample_sent :=
  (messages_sent PyStr.ascii_lower unit (fun _ _ _ => tt)
     (fun _ _ => "You are a finance assistant.") (fun k => Z.of_nat k)).

Lemma fresh_state_cap : (1 <= cap_of Samples.fresh_state "user-1")%Z.
Proof. vm_compute. discriminate. Qed.

(** X15 for a first query "Hello". *)
Lemma query_is_sent_twice_witness :
  sample_sent Samples.fresh_state "user-1" "Hello"
  = [SystemMessage "You are a finance assistant.";
     Turn (HumanMessage "Hello" []); Turn (HumanMessage "Hello" [])].
Proof.
  etransitivity.
  - exact (query_is_sent_twice PyStr.ascii_lower unit (fun _ _ _ => tt)
             (fun _ _ => "You are a finance assistant.") (fun k => Z.of_nat k)
             Samples.fresh_state "user-1" "Hello" fresh_state_cap).
  - vm_compute. reflexivity.
Defined.

(** X16 for a first query that Groq answers. *)
Lemma primary_answer_is_returned_witness :
  fst (Samples.sample_query MoreSamples.groq_answers Samples.fresh_state
         "user-1" "Hello" None)
  = Success "user-1" "groq" "Hello" "You spent 60 on food." 2%Z.
Proof.
  exact (proj1 (primary_answer_is_returned string PyStr.ascii_lower unit
                  (fun _ _ _ => tt) (fun _ _ => "You are a finance assistant.")
                  MoreSamples.groq_answers (fun k => Z.of_nat k)
                  Samples.fresh_state "user-1" "Hello" None "groq-model"
                  "You spent 60 on food." eq_refl eq_refl fresh_state_cap)).
Defined.

(** X17 for a first query with both models down. *)
Lemma failed_query_keeps_user_turn_witness :
  history_of
    (snd (Samples.sample_query MoreSamples.both_down Samples.fresh_state
            "user-1" "Hello" None)) "user-1"
  = [HumanMessage "Hello" []].
Proof.
  etransitivity.
  - exact (proj2 (failed_query_keeps_user_turn string PyStr.ascii_lower unit
                    (fun _ _ _ => tt)
                    (fun _ _ => "You are a finance assistant.")
                    MoreSamples.both_down (fun k => Z.of_nat k)
                    Samples.fresh_state "user-1" "Hello" None
                    "Both groq and Gemini failed. Last error: quota exceeded"
                    "user-1" ltac:(vm_compute; reflexivity) fresh_state_cap)).
  - vm_compute. reflexivity.
Defined.

(** X18 with Groq timing out and Gemini out of quota. *)
Lemma both_models_fail_witness :
  fst (Samples.sample_query MoreSamples.both_down Samples.fresh_state
         "user-1" "Hello" None)
  = Failure "Both groq and Gemini failed. Last error: quota exceeded" "user-1".
Proof.
  apply (both_models_fail string PyStr.ascii_lower unit (fun _ _ _ => tt)
           (fun _ _ => "You are a finance assistant.") MoreSamples.both_down
           (fun k => Z.of_nat k) Samples.fresh_state "user-1" "Hello" None
           "groq-model" "timeout" "quota exceeded").
  - vm_compute. discriminate.
  - reflexivity.
  - reflexivity.
  - right. exists "gemini-model". split; reflexivity.
Defined.

(** X19 with Gemini configured as the default and out of quota. *)
Lemma gemini_has_no_fallback_witness :
  fst (Samples.sample_query MoreSamples.gemini_first_down Samples.fresh_state
         "user-1" "Hello" None)
  = Failure "Gemini failed (ultimate fallback): quota exceeded" "user-1".
Proof.
  exact (gemini_has_no_fallback string PyStr.ascii_lower unit (fun _ _ _ => tt)
           (fun _ _ => "You are a finance assistant.")
           MoreSamples.gemini_first_down (fun k => Z.of_nat k)
           Samples.fresh_state "user-1" "Hello" None "gemini-model"
           "quota exceeded" eq_refl eq_refl eq_refl).
Defined.

(** X20 for the provider name "openai". *)
Lemma unknown_provider_is_refused_witness :
  fst (Samples.sample_query MoreSamples.groq_answers Samples.fresh_state
         "user-1" "Hello" (Some "openai"))
  = Failure "Unknown provider: openai" "user-1".
Proof.
  apply (unknown_provider_is_refused string PyStr.ascii_lower unit
           (fun _ _ _ => tt) (fun _ _ => "You are a finance assistant.")
           MoreSamples.groq_answers (fun k => Z.of_nat k) Samples.fresh_state
           "user-1" "Hello" (Some "openai")).
  - vm_compute. discriminate.
  - vm_compute. discriminate.
  - exact fresh_state_cap.
Defined.

(** X21 from the state without sessions. *)
Lemma sessions_stay_separate_and_bounded_witness :
  default_caps
    (snd (Samples.sample_query MoreSamples.groq_answers Samples.fresh_state
            "user-1" "Hello" None)) /\
  user_sessions
    (snd (Samples.sample_query MoreSamples.groq_answers Samples.fresh_state
            "user-1" "Hello" None)) !! "user-2" = None.
Proof.
  assert (Hcaps : default_caps Samples.fresh_state).
  { intros user memory H. cbn in H. rewrite lookup_empty in H. discriminate. }
  assert (Hlen : forall user memory,
             user_sessions Samples.fresh_state !! user = Some memory ->
             length (in_memory_messages memory) <= 50).
  { intros user memory H. cbn in H. rewrite lookup_empty in H. discriminate. }
  destruct (sessions_stay_separate_and_bounded string PyStr.ascii_lower unit
              (fun _ _ _ => tt) (fun _ _ => "You are a finance assistant.")
              MoreSamples.groq_answers (fun k => Z.of_nat k)
              Samples.fresh_state "user-1" "Hello" None Hcaps Hlen)
    as (Hother & Hcaps' & _).
  split; [exact Hcaps' |].
  unfold Samples.sample_query. rewrite Hother by discriminate.
  apply lookup_empty.
Defined.

End OrchestratorProps.

(* ===================================================================== *)
(** * Properties of the conversation buffer *)
(* ===================================================================== *)

Module BufferProps.
Import Memory MemoryFacts Buffer.
Local Open Scope list_scope.

(** X22 (only an empty buffer refuses): a buffer that holds a message
    accepts every further message, whatever its estimate, also one above
    [max_tokens]; when the message does not fit, exactly the oldest message
    is dropped and the token counter keeps its value, whatever the sizes of
    the two messages. *)
Theorem nonempty_buffer_accepts_every_message (message : BaseMessage)
    (token_estimate : Z) (self : ConversationBuffer) :
  messages self <> [] ->
  fst (add_message message token_estimate self) = true /\
  max_tokens (snd (add_message message token_estimate self)) = max_tokens self /\
  ((max_tokens self < current_tokens self + token_estimate)%Z ->
   messages (snd (add_message message token_estimate self))
     = tl (messages self) ++ [message] /\
   current_tokens (snd (add_message message token_estimate self))
     = current_tokens self) /\
  ((current_tokens self + token_estimate <= max_tokens self)%Z ->
   messages (snd (add_message message token_estimate self))
     = messages self ++ [message] /\
   current_tokens (snd (add_message message token_estimate self))
     = (current_tokens self + token_estimate)%Z).
Proof.
  intros Hsome. unfold add_message.
  destruct (max_tokens self <? current_tokens self + token_estimate)%Z eqn:E.
  - apply Z.ltb_lt in E.
    destruct (messages self) as [|oldest rest]; [contradiction |].
    cbn [fst snd messages current_tokens max_tokens tl].
    repeat split; try reflexivity; lia.
  - apply Z.ltb_ge in E.
    cbn [fst snd messages current_tokens max_tokens].
    repeat split; try reflexivity; lia.
Qed.

Lemma tail_of_last_turns {A : Type} (k : nat) (l : list A) (x : A) :
  1 <= k -> k <= length l ->
  tl (last_turns k l) ++ [x] = last_turns k (l ++ [x]).
Proof.
  intros Hk Hl. unfold last_turns. rewrite length_app. cbn [length].
  replace (length l + 1 - k) with (S (length l - k)) by lia.
  rewrite skipn_app.
  replace (S (length l - k) - length l) with 0 by lia. cbn [skipn].
  f_equal. clear x.
  generalize (length l - k). intros n. clear Hl. revert l.
  induction n as [|n IH]; intros [|y l]; try reflexivity.
  cbn [skipn]. apply IH.
Qed.

(** The buffer after a run of additions with one estimate. *)
Lemma add_all_window (cap estimate : Z) (new_messages earlier : list BaseMessage)
    (self : ConversationBuffer) :
  (0 < estimate <= cap)%Z ->
  max_tokens self = cap ->
  messages self = last_turns (Z.to_nat (cap / estimate)) earlier ->
  current_tokens self = (estimate * Z.of_nat (length (messages self)))%Z ->
  max_tokens (add_all new_messages estimate self) = cap /\
  messages (add_all new_messages estimate self)
    = last_turns (Z.to_nat (cap / estimate)) (earlier ++ new_messages) /\
  current_tokens (add_all new_messages estimate self)
    = (estimate
       * Z.of_nat (length (messages (add_all new_messages estimate self))))%Z.
Proof.
  intros He. revert earlier self.
  assert (Hq : (estimate * (cap / estimate) <= cap
                < estimate * (cap / estimate + 1))%Z).
  { split; [apply Z.mul_div_le; lia |].
    pose proof (Z.mul_succ_div_gt cap estimate ltac:(lia)). lia. }
  assert (Hq1 : (1 <= cap / estimate)%Z).
  { apply Z.div_le_lower_bound; lia. }
  set (k := Z.to_nat (cap / estimate)) in *.
  assert (Hk : (cap / estimate = Z.of_nat k)%Z) by (subst k; lia).
  rewrite Hk in Hq. clear Hk.
  assert (Hk1 : 1 <= k) by (subst k; lia).
  clearbody k.
  induction new_messages as [|m ms IH]; intros earlier self Hcap Hmsgs Hcur.
  - cbn [add_all fold_left]. rewrite app_nil_r. auto.
  - unfold add_all. cbn [fold_left].
    fold (add_all ms estimate (snd (add_message m estimate self))).
    replace (earlier ++ m :: ms) with ((earlier ++ [m]) ++ ms)
      by now rewrite <- app_assoc.
    pose proof (last_turns_length _ k earlier) as Hlen.
    rewrite <- Hmsgs in Hlen.
    apply IH; unfold add_message; rewrite Hcap, Hcur;
      destruct (cap <? estimate * Z.of_nat (length (messages self)) + estimate)%Z
        eqn:E;
      try (apply Z.ltb_lt in E); try (apply Z.ltb_ge in E).
    + assert (Hfull : length (messages self) = k) by nia.
      destruct (messages self) as [|oldest rest] eqn:Em;
        [cbn [length] in Hfull; lia |]. reflexivity.
    + reflexivity.
    + assert (Hfull : length (messages self) = k) by nia.
      assert (Hall : k <= length earlier) by lia.
      destruct (messages self) as [|oldest rest] eqn:Em;
        [cbn [length] in Hfull; lia |].
      cbn [snd messages]. rewrite <- (tail_of_last_turns k earlier m Hk1 Hall).
      now rewrite <- Hmsgs.
    + assert (Hroom : length (messages self) < k) by nia.
      assert (Hall : length earlier < k) by lia.
      cbn [snd messages]. rewrite Hmsgs.
      rewrite !last_turns_all; [reflexivity | | lia].
      rewrite length_app. cbn [length]. lia.
    + assert (Hfull : length (messages self) = k) by nia.
      destruct (messages self) as [|oldest rest] eqn:Em;
        [cbn [length] in Hfull; lia |].
      cbn [snd messages current_tokens]. rewrite length_app.
      cbn [length] in *. lia.
    + cbn [snd messages current_tokens]. rewrite length_app.
      cbn [length]. lia.
Qed.

(** X23 (a window of the latest messages): when every message is added
    with the same estimate [e], with [0 < e <= max_tokens], a buffer that
    started empty holds the latest [max_tokens / e] messages added (all of
    them while they are fewer), and its token counter is [e] times the
    number of messages it holds, never above [max_tokens]. *)
Theorem uniform_estimates_keep_the_latest (cap estimate : Z)
    (new_messages : list BaseMessage) :
  (0 < estimate <= cap)%Z ->
  messages (add_all new_messages estimate (new_buffer cap))
    = last_turns (Z.to_nat (cap / estimate)) new_messages /\
  current_tokens (add_all new_messages estimate (new_buffer cap))
    = (estimate
       * Z.of_nat
           (length (messages (add_all new_messages estimate (new_buffer cap)))))%Z /\
  (current_tokens (add_all new_messages estimate (new_buffer cap)) <= cap)%Z.
Proof.
  intros He.
  destruct (add_all_window cap estimate new_messages [] (new_buffer cap) He)
    as (_ & Hm & Hc); try reflexivity.
  { cbn. lia. }
  cbn [app] in Hm. split; [exact Hm | split; [exact Hc |]].
  rewrite Hc, Hm, last_turns_length.
  assert (Hq : (estimate * (cap / estimate) <= cap)%Z)
    by (apply Z.mul_div_le; lia).
  assert (Hq1 : (0 <= cap / estimate)%Z) by (apply Z.div_pos; lia).
  nia.
Qed.

(** X22 at a buffer of 100 tokens holding a message of 10: a message of
    1000 is accepted, and the counter still says 10. *)
Lemma nonempty_buffer_accepts_every_message_witness :
  add_message (AIMessage "a long answer" []) 1000
    (mkConversationBuffer 100 10 [HumanMessage "hi" []])
  = (true, mkConversationBuffer 100 10 [AIMessage "a long answer" []]).
Proof.
  destruct (nonempty_buffer_accepts_every_message
              (AIMessage "a long answer" []) 1000
              (mkConversationBuffer 100 10 [HumanMessage "hi" []]))
    as (Hret & Hmax & Hfull & _); [discriminate |].
  reflexivity.
Defined.

(** X23 with the defaults, 4096 tokens and 100 per message: of 41
    messages the latest 40 are held. *)
Lemma uniform_estimates_keep_the_latest_witness :
  length (messages
            (add_all (repeat (HumanMessage "hi" []) 41) DEFAULT_TOKEN_ESTIMATE
               (new_buffer DEFAULT_MAX_TOKENS))) = 40 /\
  current_tokens
    (add_all (repeat (HumanMessage "hi" []) 41) DEFAULT_TOKEN_ESTIMATE
       (new_buffer DEFAULT_MAX_TOKENS)) = 4000%Z.
Proof.
  destruct (uniform_estimates_keep_the_latest DEFAULT_MAX_TOKENS
              DEFAULT_TOKEN_ESTIMATE (repeat (HumanMessage "hi" []) 41))
    as (Hm & Hc & _); [unfold DEFAULT_MAX_TOKENS, DEFAULT_TOKEN_ESTIMATE; lia |].
  rewrite Hc, Hm. split; vm_compute; reflexivity.
Defined.

End BufferProps.

(* ===================================================================== *)
(** * Properties of the fast classifier *)
(* ===================================================================== *)

Module FastClassifierProps.
Import PyStr PyNum PyStrFacts FastClassifier.
Local Open Scope list_scope.

Section ClassifierProps.
Context {F : Type} {ops : Arith F}.
Variable lower : string -> string.

Lemma best_is_listed (first : string * (F * list string))
    (others : list (string * (F * list string))) :
  In (best first others) (first :: others).
Proof.
  unfold best. revert first; induction others as [|e others IH];
    intros first; cbn [fold_left]; [now left |].
  destruct (fltb (fst (snd first)) (fst (snd e))).
  - right. apply IH.
  - destruct (IH first) as [H | H]; [now left | now right; right].
Qed.

(** An entry of [intent_scores]: an intent, its confidence, its matches. *)
Lemma scored_entry (query : string) (e : string * (F * list string)) :
  In e (intent_scores lower query) ->
  exists keywords auth,
    In (fst e, (keywords, auth)) INTENTS /\
    snd (snd e) = matched (lower query) keywords /\
    snd (snd e) <> [] /\
    fst (snd e) = confidence_of (snd (snd e)) keywords.
Proof.
  unfold intent_scores. intros Hin. apply in_flat_map in Hin.
  destruct Hin as ([name [keywords auth]] & Hintent & Hin).
  cbn [fst snd] in Hin.
  destruct (matched (lower query) keywords) as [|k found] eqn:E;
    [destruct Hin |].
  destruct Hin as [<- | []]. cbn [fst snd].
  exists keywords, auth. repeat split; [exact Hintent | now symmetry | discriminate].
Qed.

Lemma no_score_no_match (query : string) :
  intent_scores lower query = [] ->
  forall name keywords auth keyword,
    In (name, (keywords, auth)) INTENTS -> In keyword keywords ->
    ~ is_substring keyword (lower query).
Proof.
  intros Hnone name keywords auth keyword Hintent Hk Hsub.
  assert (Hin : In keyword (matched (lower query) keywords)).
  { apply filter_In. split; [exact Hk | now apply str_in_spec]. }
  assert (Hentry : exists e, In e (intent_scores lower query)).
  { destruct (matched (lower query) keywords) as [|k found] eqn:E;
      [destruct Hin |].
    exists (name, (confidence_of (k :: found) keywords, k :: found)).
    unfold intent_scores. apply in_flat_map.
    exists (name, (keywords, auth)). split; [exact Hintent |].
    cbn [fst snd]. rewrite E. now left. }
  destruct Hentry as [e He]. rewrite Hnone in He. destruct He.
Qed.

Lemma intent_names (name : string) (keywords : list string) (auth : bool) :
  In (name, (keywords, auth)) INTENTS ->
  In name ["transactions"; "goals"; "reminders"; "general_advice"] /\
  requires_auth_of name = auth /\
  (auth = true <-> name = "transactions" \/ name = "goals").
Proof.
  unfold INTENTS. cbn [In]. intros H.
  destruct H as [H | [H | [H | [H | []]]]]; injection H as <- _ <-;
    (split; [cbn [In]; tauto |]); (split; [reflexivity |]);
    split; try tauto; try discriminate;
    intros [E | E]; discriminate.
Qed.

(** X24 (what the fast classifier answers): the primary intent is one of
    the four intents; [requires_auth] is set exactly for "transactions" and
    "goals"; the matched keywords are keywords of the primary intent that
    occur in the lowered query; and there are none exactly when no keyword
    of any intent occurs, in which case the answer is "general_advice" with
    confidence 0.3 and without authentication. *)
Theorem fast_classification_is_well_formed (query : string) :
  In (primary_intent (classify lower query))
    ["transactions"; "goals"; "reminders"; "general_advice"] /\
  (requires_auth (classify lower query) = true <->
   primary_intent (classify lower query) = "transactions" \/
   primary_intent (classify lower query) = "goals") /\
  (forall keyword, In keyword (keywords_matched (classify lower query)) ->
     is_substring keyword (lower query) /\
     exists keywords auth,
       In (primary_intent (classify lower query), (keywords, auth)) INTENTS /\
       In keyword keywords) /\
  (keywords_matched (classify lower query) = [] <->
   forall name keywords auth keyword,
     In (name, (keywords, auth)) INTENTS -> In keyword keywords ->
     ~ is_substring keyword (lower query)) /\
  (keywords_matched (classify lower query) = [] ->
   classify lower query
   = mkIntentResult "general_advice" (lit MIN_CONFIDENCE) [] false).
Proof.
  unfold classify.
  destruct (intent_scores lower query) as [|first others] eqn:Escores.
  - cbn [primary_intent requires_auth keywords_matched DEFAULT_INTENT].
    split; [cbn [In]; tauto |].
    split; [split; [discriminate | intros [E | E]; discriminate] |].
    split; [intros keyword [] |].
    split; [| reflexivity].
    split; [intros _; now apply no_score_no_match | reflexivity].
  - pose proof (best_is_listed first others) as Hbest.
    rewrite <- Escores in Hbest. apply scored_entry in Hbest.
    destruct (best first others) as [name [conf found]].
    cbn [fst snd] in Hbest.
    destruct Hbest as (keywords & auth & Hintent & Hfound & Hsome & Hconf).
    destruct (intent_names name keywords auth Hintent) as (Hname & Hauth & Hiff).
    cbn [primary_intent requires_auth keywords_matched].
    split; [exact Hname |].
    split; [now rewrite Hauth |].
    split.
    { intros keyword Hk. rewrite Hfound in Hk. apply filter_In in Hk.
      destruct Hk as [Hk Hs]. split; [now apply str_in_spec |].
      now exists keywords, auth. }
    split; [| contradiction].
    split; [contradiction |].
    intros Hnone. exfalso.
    destruct found as [|keyword found]; [now apply Hsome |].
    assert (Hk : In keyword (matched (lower query) keywords))
      by (rewrite <- Hfound; now left).
    apply filter_In in Hk. destruct Hk as [Hk Hs].
    apply str_in_spec in Hs. exact (Hnone name keywords auth keyword Hintent Hk Hs).
Qed.

(** Whatever matches, the confidence is one of finitely many values. *)
Lemma confidence_is_possible (query : string) :
  In (confidence (classify lower query)) possible_confidences.
Proof.
  unfold classify, possible_confidences.
  destruct (intent_scores lower query) as [|first others] eqn:Escores.
  - cbn [confidence]. apply in_or_app. right. now left.
  - pose proof (best_is_listed first others) as Hbest.
    rewrite <- Escores in Hbest. apply scored_entry in Hbest.
    destruct (best first others) as [name [conf found]].
    cbn [fst snd confidence] in *.
    destruct Hbest as (keywords & auth & Hintent & Hfound & Hsome & ->).
    apply in_or_app. left. apply in_flat_map.
    exists (name, (keywords, auth)). split; [exact Hintent |].
    cbn [fst snd]. unfold confidence_of.
    apply (in_map (fun n => min_one (int_div n (Nat.max (length keywords) 3)))).
    apply in_seq.
    assert (Hle : length found <= length keywords).
    { rewrite Hfound. unfold matched. clear.
      induction keywords as [|k ks IH]; cbn [List.filter length]; [lia |].
      destruct (str_in k (lower query)); cbn [length]; lia. }
    destruct found; [contradiction | cbn [length] in *; lia].
Qed.

End ClassifierProps.

Lemma possible_confidences_in_range :
  forallb (fun c => PrimFloat.ltb 0 c && PrimFloat.leb c 1)
    (possible_confidences (F := float)) = true.
Proof. vm_compute. reflexivity. Qed.

(** X25 (the confidence is a share): in the arithmetic the code runs, the
    confidence the fast classifier returns is above 0 and at most 1,
    whatever the query. *)
Theorem fast_confidence_in_range (lower : string -> string) (query : string) :
  PrimFloat.ltb 0 (confidence (classify (F := float) lower query)) = true /\
  PrimFloat.leb (confidence (classify (F := float) lower query)) 1 = true.
Proof.
  pose proof (confidence_is_possible (F := float) lower query) as Hin.
  pose proof possible_confidences_in_range as Hall.
  rewrite forallb_forall in Hall. apply Hall in Hin.
  now apply andb_true_iff in Hin.
Qed.

End FastClassifierProps.

(* ===================================================================== *)
(** * Properties of the fallback messages *)
(* ===================================================================== *)

Module FallbackProps.
Import Await Fallback.
Local Open Scope list_scope.

Lemma messages_of_user_type (user_type : string) :
  default GUEST_FALLBACKS (dict_get FALLBACK_MESSAGES user_type)
  = if String.eqb user_type "authenticated" then AUTHENTICATED_FALLBACKS
    else GUEST_FALLBACKS.
Proof.
  unfold FALLBACK_MESSAGES. cbn [dict_get].
  rewrite (String.eqb_sym "authenticated"), (String.eqb_sym "guest").
  destruct (String.eqb user_type "authenticated"); [reflexivity |].
  destruct (String.eqb user_type "guest"); reflexivity.
Qed.

Lemma text_of_error_type (messages : list (string * string))
    (error_type : string) :
  messages = AUTHENTICATED_FALLBACKS \/ messages = GUEST_FALLBACKS ->
  exists default_text,
    subscript messages "default" = Returned default_text /\
    (In error_type ["default"; "network_error"; "timeout"; "rate_limit"] ->
     In (error_type, default default_text (dict_get messages error_type))
       messages) /\
    (~ In error_type ["default"; "network_error"; "timeout"; "rate_limit"] ->
     default default_text (dict_get messages error_type) = default_text).
Proof.
  intros [-> | ->]; eexists; (split; [reflexivity |]); split.
  1, 3: cbn [In]; intros [<- | [<- | [<- | [<- | []]]]]; cbn; tauto.
  all: intros Hout; cbn [In] in Hout;
    unfold AUTHENTICATED_FALLBACKS, GUEST_FALLBACKS; cbn [dict_get];
    rewrite (String.eqb_sym "default"), (String.eqb_sym "network_error"),
      (String.eqb_sym "timeout"), (String.eqb_sym "rate_limit");
    destruct (String.eqb_spec error_type "default"); [intuition congruence |];
    destruct (String.eqb_spec error_type "network_error");
      [intuition congruence |];
    destruct (String.eqb_spec error_type "timeout"); [intuition congruence |];
    destruct (String.eqb_spec error_type "rate_limit");
      [intuition congruence |];
    reflexivity.
Qed.

(** X26 (a fallback for every case): [get_fallback_message] never raises;
    its provider is "fallback" and its metadata echo the two arguments; the
    text is the message of the error type among those of the user type,
    where every user type other than "authenticated" (not only "guest")
    gets the guest messages and every unknown error type the "default"
    message. *)
Theorem fallback_message_always_exists (user_type error_type : string) :
  exists messages message_text,
    messages = (if String.eqb user_type "authenticated"
                then AUTHENTICATED_FALLBACKS else GUEST_FALLBACKS) /\
    get_fallback_message user_type error_type
    = Returned
        (mkResponse message_text "fallback"
           (FallbackMeta error_type user_type)) /\
    (In error_type ["default"; "network_error"; "timeout"; "rate_limit"] ->
     In (error_type, message_text) messages) /\
    (~ In error_type ["default"; "network_error"; "timeout"; "rate_limit"] ->
     In ("default", message_text) messages).
Proof.
  unfold get_fallback_message.
  change (subscript FALLBACK_MESSAGES "guest") with (Returned GUEST_FALLBACKS).
  cbn [bind]. rewrite messages_of_user_type.
  set (messages := if String.eqb user_type "authenticated"
                   then AUTHENTICATED_FALLBACKS else GUEST_FALLBACKS).
  assert (Hm : messages = AUTHENTICATED_FALLBACKS \/ messages = GUEST_FALLBACKS).
  { subst messages. destruct (String.eqb user_type "authenticated"); tauto. }
  destruct (text_of_error_type messages error_type Hm)
    as (default_text & Hd & Hknown & Hunknown).
  exists messages, (default default_text (dict_get messages error_type)).
  rewrite Hd. cbn [bind].
  split; [reflexivity | split; [reflexivity | split; [exact Hknown |]]].
  intros Hout. rewrite (Hunknown Hout).
  destruct Hm as [E | E]; rewrite E in Hd |- *;
    injection Hd as <-; now left.
Qed.

End FallbackProps.

(* ===================================================================== *)
(** * Properties of the entry points *)
(* ===================================================================== *)

Module RoutesProps.
Import Await Memory MemoryFacts Orchestrator OrchestratorFacts OrchestratorProps.
Import Routes.
Local Open Scope list_scope.

Section RoutingProps.
Variable LLM : Type.
Variable lower : string -> string.
Variable PromptContext : Type.
Variable _fetch_user_context :
  string -> gmap string bool -> string -> PromptContext.
Variable _build_system_prompt : PromptContext -> gmap string bool -> string.

Local Abbreviation route :=
  (chat_query LLM lower PromptContext _fetch_user_context _build_system_prompt).
Local Abbreviation run_query :=
  (process_authenticated_query LLM lower PromptContext _fetch_user_context
     _build_system_prompt).

(** The pipeline asked for the provider "grok". *)
Lemma grok_is_unknown (env : Providers LLM) (clock : nat -> Z) (st : State)
    (uid query : string) :
  fst (run_query env clock st uid query (Some "grok"))
  = Failure "Unknown provider: grok" uid.
Proof. rewrite run_query_unfold. reflexivity. Qed.

(** X27 (the route answers for Gemini only): whenever the route
    [POST /api/chat/query] answers with a [ChatResponse], the request named
    the provider "gemini" and a user: every other request, also one that
    names no provider or the provider "grok" the route lists, ends in an
    [HTTPException]. *)
Theorem route_answers_for_gemini_only (orchestrator : Outcome unit)
    (env : Providers LLM) (clock : nat -> Z) (st : State) (content : string)
    (provider user_id : option string) (status response : string)
    (query : option string) (is_authenticated : bool) (timestamp : Z)
    (used : string) :
  fst (route orchestrator env clock st content provider user_id)
    = Ok status response query is_authenticated timestamp used ->
  provider = Some "gemini" /\ used = "gemini" /\
  (exists uid, user_id = Some uid /\ uid <> "") /\
  status = "success" /\ query = Some content /\ is_authenticated = true.
Proof.
  unfold chat_query, process_query. cbv zeta.
  destruct provider as [p |]; cbn [negb existsb orb fst]; [| discriminate].
  destruct (String.eqb_spec p "grok") as [-> | Hgrok]; cbn [orb negb].
  - destruct orchestrator; cbn [fst]; [| discriminate].
    destruct user_id as [uid |]; cbn [fst]; [| discriminate].
    destruct (String.eqb uid ""); cbn [fst]; [discriminate |].
    pose proof (grok_is_unknown env clock st uid content) as Hfail.
    cbn [from_option id]. destruct (run_query env clock st uid content (Some "grok"))
      as [result st']. cbn [fst] in *. subst result. discriminate.
  - rewrite orb_false_r.
    destruct (String.eqb_spec p "gemini") as [-> | Hgemini]; cbn [negb fst];
      [| discriminate].
    destruct orchestrator; cbn [fst]; [| discriminate].
    destruct user_id as [uid |]; cbn [fst]; [| discriminate].
    destruct (String.eqb_spec uid "") as [-> | Huid]; cbn [fst];
      [discriminate |].
    cbn [from_option id].
    pose proof (run_query_unfold LLM lower PromptContext _fetch_user_context
                  _build_system_prompt env clock st uid content (Some "gemini"))
      as Hrun.
    destruct (run_query env clock st uid content (Some "gemini"))
      as [result st'].
    destruct result as [user used' query' response' timestamp' | error user];
      cbn [fst]; [| discriminate].
    intros H. injection H as <- <- <- <- <- <-.
    repeat split; try reflexivity; [exists uid; now split |].
    cbv zeta in Hrun. cbn [from_option id] in Hrun.
    destruct (get_llm LLM env "gemini"); [| discriminate].
    match type of Hrun with
    | context [match ?answer with Returned _ => _ | Raised _ => _ end] =>
        destruct answer as [[response_text used''] |]
    end; [| discriminate].
    injection Hrun as _ _ <- _ _. reflexivity.
Qed.

(** X28 (the provider the route lists is unknown to the models): a
    request of a user that names the provider "grok" passes the route's
    test and then fails with status 500 and the detail "Unknown provider:
    grok"; a request that names the provider "groq", or none, is refused
    with status 400 before anything else happens. *)
Theorem listed_provider_is_unknown (env : Providers LLM) (clock : nat -> Z)
    (st : State) (content uid : string) :
  uid <> "" ->
  fst (route (Returned tt) env clock st content (Some "grok") (Some uid))
    = HttpError 500 "Unknown provider: grok" /\
  route (Returned tt) env clock st content (Some "groq") (Some uid)
    = (HttpError 400 "Provider must be 'grok' or 'gemini'", st) /\
  route (Returned tt) env clock st content None (Some uid)
    = (HttpError 400 "Provider must be 'grok' or 'gemini'", st).
Proof.
  intros Huid. split; [| split; reflexivity].
  unfold chat_query, process_query. cbv zeta.
  cbn [existsb String.eqb Ascii.eqb Bool.eqb orb negb from_option id].
  apply String.eqb_neq in Huid. rewrite Huid.
  pose proof (grok_is_unknown env clock st uid content) as Hfail.
  destruct (run_query env clock st uid content (Some "grok")) as [result st'].
  cbn [fst] in *. now subst result.
Qed.

End RoutingProps.

(** The sample route: a trivial context and prompt. *)
Local Abbreviation sample_route :=
  (chat_query string PyStr.ascii_lower unit (fun _ _ _ => tt)
     (fun _ _ => "You are a finance assistant.")).

(** X27 at a request of "user-1" that names Gemini. *)
Lemma route_answers_for_gemini_only_witness :
  fst (sample_route (Returned tt) Samples.groq_times_out (fun k => Z.of_nat k)
         Samples.fresh_state "Hello" (Some "gemini") (Some "user-1"))
  = Ok "success" "You spent 60 on food." (Some "Hello") true 2 "gemini" /\
  exists uid, Some "user-1" = Some uid /\ uid <> "".
Proof.
  assert (H : fst (sample_route (Returned tt) Samples.groq_times_out
                     (fun k => Z.of_nat k) Samples.fresh_state "Hello"
                     (Some "gemini") (Some "user-1"))
              = Ok "success" "You spent 60 on food." (Some "Hello") true 2
                  "gemini") by (vm_compute; reflexivity).
  split; [exact H |].
  exact (proj1 (proj2 (proj2
           (route_answers_for_gemini_only string PyStr.ascii_lower unit
              (fun _ _ _ => tt) (fun _ _ => "You are a finance assistant.")
              (Returned tt) Samples.groq_times_out (fun k => Z.of_nat k)
              Samples.fresh_state "Hello" (Some "gemini") (Some "user-1")
              "success" "You spent 60 on food." (Some "Hello") true 2 "gemini"
              H)))).
Defined.

(** X28 at a request of "user-1". *)
Lemma listed_provider_is_unknown_witness :
  fst (sample_route (Returned tt) MoreSamples.groq_answers
         (fun k => Z.of_nat k) Samples.fresh_state "Hello" (Some "grok")
         (Some "user-1"))
  = HttpError 500 "Unknown provider: grok".
Proof.
  apply (listed_provider_is_unknown string PyStr.ascii_lower unit
           (fun _ _ _ => tt) (fun _ _ => "You are a finance assistant.")
           MoreSamples.groq_answers (fun k => Z.of_nat k) Samples.fresh_state
           "Hello" "user-1").
  discriminate.
Defined.

End RoutesProps.

(* ===================================================================== *)
(** * Properties of the message handlers *)
(* ===================================================================== *)

Module HandlerProps.
Import Await PyStr PyNum PyStrFacts Masker Memory MemoryFacts.
Import Orchestrator OrchestratorFacts OrchestratorProps Fallback Handler.
Local Open Scope list_scope.

Section HandlersProps.
Variable LLM : Type.
Variable lower : string -> string.
Variable PromptContext : Type.
Variable _fetch_user_context :
  string -> gmap string bool -> string -> PromptContext.
Variable _build_system_prompt : PromptContext -> gmap string bool -> string.

(** X29 (a guest who asks about personal data): when the fast
    classifier asks for authentication, or the lowered masked message
    contains one of the phrases "my", "i spent", ... anywhere, also inside a
    word, the guest gets the sign-in prompt from the provider
    "informational", flagged as needing authentication, and no model is
    asked: the answer is the same whatever the providers. *)
Theorem guest_personal_question_gets_signin (env : Providers LLM)
    (system_prompt message : string) :
  FastClassifier.requires_auth
    (FastClassifier.classify (F := float) lower (masked (mask_message message)))
    = true \/
  (exists phrase,
     In phrase GUEST_PERSONAL_PHRASES /\
     is_substring phrase (lower (masked (mask_message message)))) ->
  handle_guest_message LLM lower env system_prompt message
  = Returned
      (mkResponse (with_safety_note (mask_message message) GUEST_SIGNIN_PROMPT)
         "informational"
         (GuestMeta true
            (FastClassifier.primary_intent
               (FastClassifier.classify (F := float) lower
                  (masked (mask_message message))))
            (has_sensitive_info (mask_message message)))) /\
  (has_sensitive_info (mask_message message) = false ->
   with_safety_note (mask_message message) GUEST_SIGNIN_PROMPT
   = GUEST_SIGNIN_PROMPT).
Proof.
  intros Hneeds. split.
  - unfold handle_guest_message. cbv zeta.
    replace (FastClassifier.requires_auth _ || existsb _ GUEST_PERSONAL_PHRASES)
      with true; [reflexivity |].
    symmetry. apply orb_true_iff.
    destruct Hneeds as [Hauth | (phrase & Hin & Hsub)]; [now left | right].
    apply existsb_exists. exists phrase. split; [exact Hin |].
    now apply str_in_spec.
  - intros Hclean. unfold with_safety_note. now rewrite Hclean.
Qed.

(** X30 (what the authenticated handler stores and answers): with the
    orchestrator at hand, the turn of the user that goes into the history
    is the masked message, never the original; when the pipeline fails the
    answer is the default fallback for authenticated users and the user
    turn stays without reply; otherwise the answer is the response of the
    model, after the safety note when something was masked, and the history
    holds the masked message and then the response as the model gave it. *)
Theorem authenticated_handler_stores_masked_text (env : Providers LLM)
    (clock : nat -> Z) (st : State) (uid username message : string) :
  (1 <= cap_of st uid)%Z ->
  (fst (handle_authenticated_message LLM lower PromptContext
          _fetch_user_context _build_system_prompt (Returned tt) env clock st
          uid username message)
   = Returned
       (mkResponse
          ("I'm having trouble processing your request right now. "
           ++ "Please try again in a moment.")%string
          "fallback" (FallbackMeta "default" "authenticated")) /\
   history_of
     (snd (handle_authenticated_message LLM lower PromptContext
             _fetch_user_context _build_system_prompt (Returned tt) env clock
             st uid username message)) uid
   = last_turns (Z.to_nat (cap_of st uid))
       (history_of st uid ++ [HumanMessage (masked (mask_message message)) []]))
  \/
  (exists provider response,
     fst (handle_authenticated_message LLM lower PromptContext
            _fetch_user_context _build_system_prompt (Returned tt) env clock st
            uid username message)
     = Returned
         (mkResponse (with_safety_note (mask_message message) response)
            provider
            (AuthenticatedMeta uid (has_sensitive_info (mask_message message))))
     /\
     history_of
       (snd (handle_authenticated_message LLM lower PromptContext
               _fetch_user_context _build_system_prompt (Returned tt) env clock
               st uid username message)) uid
     = last_turns (Z.to_nat (cap_of st uid))
         (history_of st uid
          ++ [HumanMessage (masked (mask_message message)) [];
              AIMessage response []])).
Proof.
  intros Hcap. unfold handle_authenticated_message. cbv zeta.
  set (masked_msg := masked (mask_message message)).
  rewrite run_query_unfold. cbv zeta.
  destruct (user_turn_recorded clock st uid masked_msg Hcap) as [Hh Hc].
  assert (Hfallback :
    get_fallback_message "authenticated" "default"
    = Returned
        (mkResponse
           ("I'm having trouble processing your request right now. "
            ++ "Please try again in a moment.")%string
           "fallback" (FallbackMeta "default" "authenticated")))
    by reflexivity.
  destruct (get_llm LLM env _) as [llm |].
  - match goal with
    | |- context [match ?answer with Returned _ => _ | Raised _ => _ end] =>
        destruct answer as [[response_text used] |]
    end; cbn [fst snd].
    + right. exists used, response_text. split; [reflexivity |].
      rewrite history_of_insert, add_message_history by lia.
      rewrite Hc, Hh. cbn [String.eqb Ascii.eqb Bool.eqb from_option id].
      rewrite last_turns_snoc by lia. now rewrite <- app_assoc.
    + left. split; [exact Hfallback |]. now rewrite history_of_insert.
  - cbn [fst snd]. left. split; [exact Hfallback |].
    now rewrite history_of_insert.
Qed.

End HandlersProps.

(** X29 at a question about the economy, whose "my" is the end of a
    word: the sign-in prompt, with both models down. *)
Lemma guest_personal_question_gets_signin_witness :
  is_substring "my" (ascii_lower "How does the economy work?") /\
  handle_guest_message string ascii_lower MoreSamples.both_down
    "You are a finance assistant." "How does the economy work?"
  = Returned
      (mkResponse GUEST_SIGNIN_PROMPT "informational"
         (GuestMeta true "general_advice" false)).
Proof.
  assert (Hmy : is_substring "my" (ascii_lower "How does the economy work?")).
  { apply str_in_spec. vm_compute. reflexivity. }
  split; [exact Hmy |].
  etransitivity.
  - apply (guest_personal_question_gets_signin string ascii_lower
             MoreSamples.both_down "You are a finance assistant."
             "How does the economy work?").
    right. exists "my". split; [cbn [GUEST_PERSONAL_PHRASES In]; tauto |].
    apply str_in_spec. vm_compute. reflexivity.
  - vm_compute. reflexivity.
Defined.

(** X30 at a first message of "user-1" that holds a card number. *)
Lemma authenticated_handler_stores_masked_text_witness :
  masked (mask_message "card 4111111111111111") = "card 4111********1111" /\
  history_of
    (snd (handle_authenticated_message string ascii_lower unit
            (fun _ _ _ => tt) (fun _ _ => "You are a finance assistant.")
            (Returned tt) MoreSamples.groq_answers (fun k => Z.of_nat k)
            Samples.fresh_state "user-1" "ann" "card 4111111111111111"))
    "user-1"
  = [HumanMessage "card 4111********1111" [];
     AIMessage "You spent 60 on food." []].
Proof.
  split; [vm_compute; reflexivity |].
  destruct (authenticated_handler_stores_masked_text string ascii_lower unit
              (fun _ _ _ => tt) (fun _ _ => "You are a finance assistant.")
              MoreSamples.groq_answers (fun k => Z.of_nat k)
              Samples.fresh_state "user-1" "ann" "card 4111111111111111"
              fresh_state_cap)
    as [[Hf _] | (provider & response & _ & _)];
    vm_compute; reflexivity.
Defined.

End HandlerProps.
